(** * Checkout, cancellation and stock updates of the point-of-sale application

    A shallow embedding of
      - [src/lib/utils/index.ts]      (formatDecimal, calculateTax,
                                       calculateLineTotal, calculateCartTotals,
                                       generateOrderNumber),
      - [src/lib/actions/orders.ts]   (createOrder, cancelOrder),
      - [src/lib/actions/products.ts] (updateStock),
      - [src/database_schema.sql]     (the tables, their constraints and the
                                       trigger update_inventory_on_order).

    JavaScript numbers that hold money are embedded as exact rationals [Q]
    (the rounding of binary64 products and sums is not modelled); integer
    columns are embedded as [Z].  The hosted database is a record of
    tables; every request of the supabase client consumes one scripted reply
    of the service, so that a failing or a healthy service are both inputs
    of the embedded functions. *)

From Stdlib Require Import ZArith QArith Qround Lia Lqa Ascii String.
From stdpp Require Import gmap strings list.

Local Open Scope Z_scope.

(* ====================================================================== *)
(** ** Numbers: rounding as [Math.round] does                              *)
(* ====================================================================== *)

(** [Math.round(x)]: the nearest integer, a tie going up. *)
Definition Math_round (x : Q) : Z := Qfloor (x + (1 # 2)).

(** [Math.pow(10, decimals)]. *)
Definition pow10 (decimals : nat) : Q := inject_Z (10 ^ Z.of_nat decimals).

(** [formatDecimal(num, decimals = 2)]:
    [Math.round(num * Math.pow(10, decimals)) / Math.pow(10, decimals)]. *)
Definition formatDecimal_dec (num : Q) (decimals : nat) : Q :=
  (inject_Z (Math_round (num * pow10 decimals)) / pow10 decimals)%Q.

Definition formatDecimal (num : Q) : Q := formatDecimal_dec num 2.

(** [calculateTax(amount, taxRate)]. *)
Definition calculateTax (amount taxRate : Q) : Q :=
  formatDecimal (amount * (taxRate / 100))%Q.

(** The object [{ subtotal, tax, total }] both calculators return. *)
Record Totals := { subtotal : Q; tax : Q; total : Q }.

(** [calculateLineTotal(unitPrice, quantity, taxRate)]. *)
Definition calculateLineTotal (unitPrice : Q) (quantity : Z) (taxRate : Q) : Totals :=
  let subtotal := formatDecimal (unitPrice * inject_Z quantity)%Q in
  let tax := calculateTax subtotal taxRate in
  let total := formatDecimal (subtotal + tax)%Q in
  {| subtotal := subtotal; tax := tax; total := total |}.

(** The argument type of [calculateCartTotals]:
    [{ quantity: number; unit_price: number; tax_rate: number }]. *)
Module PricedItem.
Record t := { quantity : Z; unit_price : Q; tax_rate : Q }.
End PricedItem.

(** One turn of the [items.forEach] callback, on the accumulators
    [(subtotal, tax)]. *)
Definition cart_step (acc : Q * Q) (item : PricedItem.t) : Q * Q :=
  let itemSubtotal := (inject_Z (PricedItem.quantity item) * PricedItem.unit_price item)%Q in
  let itemTax := calculateTax itemSubtotal (PricedItem.tax_rate item) in
  ((fst acc + itemSubtotal)%Q, (snd acc + itemTax)%Q).

(** [calculateCartTotals(items)]. *)
Definition calculateCartTotals (items : list PricedItem.t) : Totals :=
  let acc := fold_left cart_step items (0%Q, 0%Q) in
  {| subtotal := formatDecimal (fst acc);
     tax := formatDecimal (snd acc);
     total := formatDecimal (fst acc + snd acc)%Q |}.

(** Componentwise equality of two results, as rationals. *)
Definition Totals_eq (a b : Totals) : Prop :=
  (subtotal a == subtotal b)%Q /\ (tax a == tax b)%Q /\ (total a == total b)%Q.

(** A price that is a whole number of cents, as the column type
    [DECIMAL(10, 2)] of [products.price] stores it. *)
Definition whole_cents (x : Q) : Prop := exists c : Z, (x == inject_Z c / 100)%Q.

(* ====================================================================== *)
(** ** The data model: [lib/types] and the tables of database_schema.sql   *)
(* ====================================================================== *)

Inductive OrderStatus := pending | completed | cancelled.
Inductive PaymentMethod := cash | card | mobile.
(** ['sale' | 'stock_in' | 'adjustment' | 'return']. *)
Inductive TransactionType := sale | stock_in | adjustment | return_.

(** A row of [products] (columns the embedded code never reads are left out:
    category_id, description, image_url and the two timestamps). *)
Module Product.
Record t := {
  id : string; sku : string; name : string;
  price : Q; cost : Q; tax_rate : Q;
  quantity_on_hand : Z; reorder_level : Z; is_active : bool }.
Definition set_quantity_on_hand (q : Z) (p : t) : t :=
  {| id := id p; sku := sku p; name := name p; price := price p; cost := cost p;
     tax_rate := tax_rate p; quantity_on_hand := q;
     reorder_level := reorder_level p; is_active := is_active p |}.
End Product.

(** [CartItem]: what the client sends, with its own copy of the product. *)
Module CartItem.
Record t := { product_id : string; quantity : Z; product : Product.t }.
End CartItem.

(** A row of [orders] (without created_at and updated_at). *)
Module Order.
Record t := {
  id : string; cashier_id : string; order_number : string;
  status : OrderStatus;
  subtotal : Q; tax_total : Q; total : Q;
  payment_method : PaymentMethod; notes : option string }.
Definition set_status (s : OrderStatus) (o : t) : t :=
  {| id := id o; cashier_id := cashier_id o; order_number := order_number o;
     status := s; subtotal := subtotal o; tax_total := tax_total o;
     total := total o; payment_method := payment_method o; notes := notes o |}.
End Order.

(** A row of [order_items] (without its own id and created_at). *)
Module OrderItem.
Record t := {
  order_id : string; product_id : string; quantity : Z;
  unit_price : Q; tax_rate : Q; line_total : Q }.
End OrderItem.

(** A row of [inventory_logs] (without its own id and created_at; the list
    that holds the rows is in insertion order). *)
Module InventoryLog.
Record t := {
  product_id : string; transaction_type : TransactionType;
  quantity_change : Z;
  reference_id : option string; reference_type : option string;
  notes : option string; created_by : string }.
End InventoryLog.

(** The four tables.  [products] and [orders] are keyed by their primary
    key.  A money column holds the amount that was sent to it: the rounding
    of a [DECIMAL(p, 2)] column to its scale is not modelled (it changes
    nothing on an amount in whole cents). *)
Record Db := {
  products : gmap string Product.t;
  orders : gmap string Order.t;
  order_items : list OrderItem.t;
  inventory_logs : list InventoryLog.t }.

Definition set_products (ps : gmap string Product.t) (d : Db) : Db :=
  {| products := ps; orders := orders d;
     order_items := order_items d; inventory_logs := inventory_logs d |}.
Definition set_orders (os : gmap string Order.t) (d : Db) : Db :=
  {| products := products d; orders := os;
     order_items := order_items d; inventory_logs := inventory_logs d |}.
Definition set_order_items (l : list OrderItem.t) (d : Db) : Db :=
  {| products := products d; orders := orders d;
     order_items := l; inventory_logs := inventory_logs d |}.
Definition set_inventory_logs (l : list InventoryLog.t) (d : Db) : Db :=
  {| products := products d; orders := orders d;
     order_items := order_items d; inventory_logs := l |}.

(** [ApiResponse<T>]: [{ success, data?, error?, message? }]. *)
Record ApiResponse (T : Type) := {
  success : bool; data : option T; error : option string; message : option string }.
Arguments success {T} _.
Arguments data {T} _.
Arguments error {T} _.
Arguments message {T} _.

(** [{ success: false, error }]. *)
Definition failure {T} (e : string) : ApiResponse T :=
  {| success := false; data := None; error := Some e; message := None |}.

(* ====================================================================== *)
(** ** The world outside the server actions                                *)
(* ====================================================================== *)

(** What the hosted service answers to one request, before the tables are
    looked at: it runs the statement, it answers with an error object, or
    the awaited promise is rejected. *)
Inductive Reply := Ok | Error (msg : string) | Throw (msg : string).

(** What [new Date()] and [Math.random()] give to one call of
    [generateOrderNumber]: the [toISOString()] date part, the
    [toTimeString()] time part, and [Math.random().toString()]. *)
Record ClockSample := {
  iso_date : string; time_string : string; random_string : string }.

Definition epoch : ClockSample :=
  {| iso_date := "1970-01-01"; time_string := "00:00:00"; random_string := "0.0" |}.

(** The database together with the inputs the environment will supply:
    the replies to the coming requests (a healthy service once the list is
    used up), the values [uuid_generate_v4()] will return, and the clock and
    random samples. *)
Record World := {
  db : Db;
  replies : list Reply;
  uuids : list string;
  clock : list ClockSample }.

Definition set_db (d : Db) (w : World) : World :=
  {| db := d; replies := replies w; uuids := uuids w; clock := clock w |}.
Definition set_replies (r : list Reply) (w : World) : World :=
  {| db := db w; replies := r; uuids := uuids w; clock := clock w |}.
Definition set_uuids (u : list string) (w : World) : World :=
  {| db := db w; replies := replies w; uuids := u; clock := clock w |}.
Definition set_clock (c : list ClockSample) (w : World) : World :=
  {| db := db w; replies := replies w; uuids := uuids w; clock := c |}.

(** A computation of a server action: it returns or throws, and leaves a
    world behind. *)
Inductive Outcome (A : Type) := Val (a : A) | Thrown (msg : string).
Arguments Val {A} _.
Arguments Thrown {A} _.

Definition M (A : Type) : Type := World -> Outcome A * World.

Definition ret {A} (a : A) : M A := fun w => (Val a, w).

Definition bind {A B} (m : M A) (k : A -> M B) : M B :=
  fun w => match m w with
           | (Val a, w') => k a w'
           | (Thrown e, w') => (Thrown e, w')
           end.

Declare Scope action_scope.
Delimit Scope action_scope with action.
Notation "'let*' x ':=' m 'in' k" := (bind m (fun x => k))
  (at level 10, x name, m at level 100, k at level 200) : action_scope.
Notation "m ';;' k" := (bind m (fun _ => k))
  (at level 100, k at level 200, right associativity) : action_scope.
Local Open Scope action_scope.

(** [x || fallback] on a string. *)
Definition or_default (x fallback : string) : string :=
  if decide (x = "") then fallback else x.

(** [try { body } catch (error: any) { return { success: false,
    error: error?.message || 'An unexpected error occurred' } }]. *)
Definition try_catch {T} (body : M (ApiResponse T)) : M (ApiResponse T) :=
  fun w => match body w with
           | (Val r, w') => (Val r, w')
           | (Thrown e, w') =>
               (Val (failure (or_default e "An unexpected error occurred")), w')
           end.

Definition get_db : M Db := fun w => (Val (db w), w).
Definition put_db (d : Db) : M unit := fun w => (Val tt, set_db d w).

(** The reply to the next request, and the world once it is used. *)
Definition next_reply (w : World) : Reply := default Ok (head (replies w)).
Definition pop (w : World) : World := set_replies (tail (replies w)) w.

(** One request to the service: [None] when the statement is run, the
    error message when the service answers with an error. *)
Definition request : M (option string) :=
  fun w => match next_reply w with
           | Ok => (Val None, pop w)
           | Error m => (Val (Some m), pop w)
           | Throw m => (Thrown m, pop w)
           end.

(** [uuid_generate_v4()]. *)
Definition uuid_generate_v4 : M (option string) :=
  fun w => match uuids w with
           | [] => (Val None, w)
           | u :: r => (Val (Some u), set_uuids r w)
           end.

(** [new Date()] together with [Math.random()]. *)
Definition sample_clock : M ClockSample :=
  fun w => match clock w with
           | [] => (Val epoch, w)
           | c :: r => (Val c, set_clock r w)
           end.

(* ====================================================================== *)
(** ** SQL statements against the tables                                   *)
(* ====================================================================== *)

(** A statement runs to its end, or raises and leaves the tables as they
    were. *)
Inductive Sql (A : Type) := Done (a : A) | Raised (msg : string).
Arguments Done {A} _.
Arguments Raised {A} _.

(** What a supabase query builder resolves to: [{ data, error }]. *)
Record PgResult (A : Type) := { pg_data : option A; pg_error : option string }.
Arguments pg_data {A} _.
Arguments pg_error {A} _.

Definition pg_ok {A} (a : A) : PgResult A := {| pg_data := Some a; pg_error := None |}.
Definition pg_fail {A} (m : string) : PgResult A := {| pg_data := None; pg_error := Some m |}.

(** One awaited query builder: the request goes out; unless the service
    answers with an error the statement is run on the tables. *)
Definition statement {A} (f : Db -> Sql (Db * A)) : M (PgResult A) :=
  let* e := request in
  match e with
  | Some m => ret (pg_fail m)
  | None =>
      let* d := get_db in
      match f d with
      | Raised m => ret (pg_fail m)
      | Done (d', a) => put_db d';; ret (pg_ok a)
      end
  end.

(** [.single()]: exactly one row, otherwise an error. *)
Definition no_rows : string := "JSON object requested, multiple (or no) rows returned".

Definition single {A} (rows : list A) : Sql A :=
  match rows with
  | [a] => Done a
  | _ => Raised no_rows
  end.

(** [UPDATE products SET quantity_on_hand = quantity_on_hand + delta
     WHERE id = pid], under the column's
    [CHECK (quantity_on_hand >= 0)]. *)
Definition sql_add_quantity (pid : string) (delta : Z) (d : Db) : Sql Db :=
  match products d !! pid with
  | None => Done d
  | Some p =>
      let q := Product.quantity_on_hand p + delta in
      if decide (0 <= q)
      then Done (set_products (<[pid := Product.set_quantity_on_hand q p]> (products d)) d)
      else Raised "violates check constraint products_quantity_on_hand_check"
  end.

(** [INSERT INTO inventory_logs ...], under the foreign key on
    [product_id]. *)
Definition sql_insert_inventory_log (row : InventoryLog.t) (d : Db) : Sql Db :=
  match products d !! InventoryLog.product_id row with
  | None => Raised "violates foreign key constraint inventory_logs_product_id_fkey"
  | Some _ => Done (set_inventory_logs (inventory_logs d ++ [row]) d)
  end.

(** The body of the [FOR ... LOOP] of [update_inventory_on_order], over the
    rows [(product_id, quantity)] its query selected. *)
Fixpoint update_inventory_loop (NEW : Order.t) (rows : list (string * Z)) (d : Db) : Sql Db :=
  match rows with
  | [] => Done d
  | (v_product_id, v_quantity) :: rest =>
      match sql_add_quantity v_product_id (- v_quantity) d with
      | Raised m => Raised m
      | Done d1 =>
          match sql_insert_inventory_log
                  {| InventoryLog.product_id := v_product_id;
                     InventoryLog.transaction_type := sale;
                     InventoryLog.quantity_change := - v_quantity;
                     InventoryLog.reference_id := Some (Order.id NEW);
                     InventoryLog.reference_type := Some "order";
                     InventoryLog.notes := None;
                     InventoryLog.created_by := Order.cashier_id NEW |} d1 with
          | Raised m => Raised m
          | Done d2 => update_inventory_loop NEW rest d2
          end
      end
  end.

(** [SELECT product_id, quantity FROM order_items WHERE order_id = NEW.id]. *)
Definition items_of_order (oid : string) (d : Db) : list OrderItem.t :=
  filter (fun i => OrderItem.order_id i = oid) (order_items d).

(** The trigger function [update_inventory_on_order()]. *)
Definition update_inventory_on_order (NEW : Order.t) (d : Db) : Sql Db :=
  update_inventory_loop NEW
    (map (fun i => (OrderItem.product_id i, OrderItem.quantity i))
         (items_of_order (Order.id NEW) d)) d.

Definition Qnonneg (x : Q) : bool := Qle_bool 0 x.

(** [INSERT INTO orders] of the row [NEW], whose id the default
    [uuid_generate_v4()] has filled in: primary key, [UNIQUE] order number,
    the three [CHECK (... >= 0)], and then
    [trg_update_inventory_on_order AFTER INSERT ON orders FOR EACH ROW]. *)
Definition sql_insert_order (NEW : Order.t) (d : Db) : Sql Db :=
  if decide (is_Some (orders d !! Order.id NEW))
  then Raised "duplicate key value violates unique constraint orders_pkey"
  else if bool_decide (map_Exists (fun _ o => Order.order_number o = Order.order_number NEW) (orders d))
  then Raised "duplicate key value violates unique constraint orders_order_number_key"
  else if negb (Qnonneg (Order.subtotal NEW) && Qnonneg (Order.tax_total NEW)
                && Qnonneg (Order.total NEW))
  then Raised "violates check constraint on orders"
  else update_inventory_on_order NEW (set_orders (<[Order.id NEW := NEW]> (orders d)) d).

(** The constraints of [order_items] on one new row: both foreign keys,
    [CHECK (quantity > 0)], [CHECK (unit_price >= 0)],
    [CHECK (line_total >= 0)]. *)
Definition order_item_ok (d : Db) (r : OrderItem.t) : bool :=
  bool_decide (is_Some (orders d !! OrderItem.order_id r))
  && bool_decide (is_Some (products d !! OrderItem.product_id r))
  && (0 <? OrderItem.quantity r)
  && Qnonneg (OrderItem.unit_price r)
  && Qnonneg (OrderItem.line_total r).

(** [INSERT INTO order_items] of several rows in one statement. *)
Definition sql_insert_order_items (rows : list OrderItem.t) (d : Db) : Sql Db :=
  if forallb (order_item_ok d) rows
  then Done (set_order_items (order_items d ++ rows) d)
  else Raised "violates a constraint of order_items".

(** [UPDATE orders SET status = s WHERE id = oid], with the rows it
    changed. *)
Definition sql_update_order_status (oid : string) (s : OrderStatus) (d : Db) : Db * list Order.t :=
  match orders d !! oid with
  | None => (d, [])
  | Some o => (set_orders (<[oid := Order.set_status s o]> (orders d)) d, [Order.set_status s o])
  end.

(* ====================================================================== *)
(** ** The requests the server actions make                                *)
(* ====================================================================== *)

(** [createServerSupabaseClient()]: builds a client object, no request. *)
Definition createServerSupabaseClient : M unit := ret tt.

(** [from('products').select('quantity_on_hand').eq('id', pid).single()]. *)
Definition select_quantity_on_hand (pid : string) : M (PgResult Z) :=
  statement (fun d =>
    match products d !! pid with
    | Some p => Done (d, Product.quantity_on_hand p)
    | None => Raised no_rows
    end).

(** The row [row] once the column default has filled in its id. *)
Definition with_id (new_id : string) (row : Order.t) : Order.t :=
  {| Order.id := new_id; Order.cashier_id := Order.cashier_id row;
     Order.order_number := Order.order_number row;
     Order.status := Order.status row;
     Order.subtotal := Order.subtotal row;
     Order.tax_total := Order.tax_total row;
     Order.total := Order.total row;
     Order.payment_method := Order.payment_method row;
     Order.notes := Order.notes row |}.

(** [from('orders').insert(row).select().single()]; the id of [row] is
    filled in by the column default [uuid_generate_v4()]. *)
Definition insert_order (row : Order.t) : M (PgResult Order.t) :=
  let* e := request in
  match e with
  | Some m => ret (pg_fail m)
  | None =>
      let* u := uuid_generate_v4 in
      match u with
      | None => ret (pg_fail "function uuid_generate_v4() does not exist")
      | Some new_id =>
          let NEW := with_id new_id row in
          let* d := get_db in
          match sql_insert_order NEW d with
          | Raised m => ret (pg_fail m)
          | Done d' => put_db d';; ret (pg_ok NEW)
          end
      end
  end.

(** [from('order_items').insert(lineItems)]. *)
Definition insert_order_items (rows : list OrderItem.t) : M (PgResult unit) :=
  statement (fun d =>
    match sql_insert_order_items rows d with
    | Done d' => Done (d', tt)
    | Raised m => Raised m
    end).

(** [from('orders').update({ status }).eq('id', oid)]. *)
Definition update_order_status (oid : string) (s : OrderStatus) : M (PgResult (list Order.t)) :=
  statement (fun d => Done (sql_update_order_status oid s d)).

(** [from('orders').update({ status }).eq('id', oid).select().single()]. *)
Definition update_order_status_single (oid : string) (s : OrderStatus) : M (PgResult Order.t) :=
  statement (fun d =>
    let (d', rows) := sql_update_order_status oid s d in
    match single rows with
    | Done o => Done (d', o)
    | Raised m => Raised m
    end).

(** [from('order_items').select('*').eq('order_id', oid)]. *)
Definition select_order_items (oid : string) : M (PgResult (list OrderItem.t)) :=
  statement (fun d => Done (d, items_of_order oid d)).

(** Modelled from the spec: the stored procedure [increment(row_id, amount)]
    that [cancelOrder] calls through [supabase.rpc] is not defined in
    database_schema.sql; following section 4.5 (restore inventory: apply
    +quantity to the product's quantity_on_hand) and the comment at the call
    ("Update product quantity (add back)"), it adds [amount] to the
    quantity_on_hand of the product [row_id]. *)
Definition rpc_increment (row_id : string) (amount : Z) : M (PgResult unit) :=
  statement (fun d =>
    match sql_add_quantity row_id amount d with
    | Done d' => Done (d', tt)
    | Raised m => Raised m
    end).

(** [from('inventory_logs').insert(row)]. *)
Definition insert_inventory_log (row : InventoryLog.t) : M (PgResult InventoryLog.t) :=
  statement (fun d =>
    match sql_insert_inventory_log row d with
    | Done d' => Done (d', row)
    | Raised m => Raised m
    end).

(** The first request of [updateStock]:
    [from('products').update({ quantity_on_hand: <builder> }).eq('id', pid)
     .select().single()], where [<builder>] is the query builder
    [from('products').select('quantity_on_hand').eq('id', pid)], never
    awaited.  The payload does not mention [quantityChange]; a service that
    accepts the statement stores what the payload names, the quantity_on_hand
    of that same row.  A service that refuses such a payload is the reply
    [Error]. *)
Definition update_quantity_from_builder (pid : string) : M (PgResult Product.t) :=
  statement (fun d =>
    match products d !! pid with
    | None => Raised no_rows
    | Some p =>
        let p' := Product.set_quantity_on_hand (Product.quantity_on_hand p) p in
        Done (set_products (<[pid := p']> (products d)) d, p')
    end).

(* ====================================================================== *)
(** ** generateOrderNumber ([src/lib/utils/index.ts])                      *)
(* ====================================================================== *)

(** [s.replace(/c/g, '')]. *)
Fixpoint remove_char (c : ascii) (s : string) : string :=
  match s with
  | EmptyString => EmptyString
  | String a rest =>
      if decide (a = c) then remove_char c rest else String a (remove_char c rest)
  end.

(** [s.padEnd(n, c)]. *)
Fixpoint padEnd (n : nat) (c : ascii) (s : string) : string :=
  match n, s with
  | O, _ => s
  | S n', EmptyString => String c (padEnd n' c EmptyString)
  | S n', String a rest => String a (padEnd n' c rest)
  end.

(** Format: ORD-YYYYMMDD-HHmmss-XXXX, from one reading [now] of the clock
    and of [Math.random()]. *)
Definition order_number_of (now : ClockSample) : string :=
  let date := remove_char "-"%char (iso_date now) in
  let time := remove_char ":"%char (time_string now) in
  let random := padEnd 4 "0"%char (String.substring 2 4 (random_string now)) in
  "ORD-" +:+ date +:+ "-" +:+ time +:+ "-" +:+ random.

Definition generateOrderNumber : M string :=
  let* now := sample_clock in
  ret (order_number_of now).

(* ====================================================================== *)
(** ** createOrder ([src/lib/actions/orders.ts])                           *)
(* ====================================================================== *)

(** The loop "Validate product availability"; [Some r] is the [return r]
    taken inside the loop. *)
Fixpoint validate_items (items : list CartItem.t) : M (option (ApiResponse Order.t)) :=
  match items with
  | [] => ret None
  | cartItem :: rest =>
      let* r := select_quantity_on_hand (CartItem.product_id cartItem) in
      match pg_error r, pg_data r with
      | None, Some quantity_on_hand =>
          if decide (quantity_on_hand < CartItem.quantity cartItem)
          then ret (Some (failure ("Insufficient stock for product: "
                                   +:+ Product.name (CartItem.product cartItem))))
          else validate_items rest
      | _, _ =>
          ret (Some (failure ("Product not found: " +:+ CartItem.product_id cartItem)))
      end
  end.

(** [{ quantity: item.quantity, unit_price: item.product.price,
      tax_rate: item.product.tax_rate }]. *)
Definition priced (item : CartItem.t) : PricedItem.t :=
  {| PricedItem.quantity := CartItem.quantity item;
     PricedItem.unit_price := Product.price (CartItem.product item);
     PricedItem.tax_rate := Product.tax_rate (CartItem.product item) |}.

(** The callback of [const lineItems = items.map(...)]. *)
Definition lineItem (order : Order.t) (item : CartItem.t) : OrderItem.t :=
  let t := calculateCartTotals [priced item] in
  {| OrderItem.order_id := Order.id order;
     OrderItem.product_id := CartItem.product_id item;
     OrderItem.quantity := CartItem.quantity item;
     OrderItem.unit_price := Product.price (CartItem.product item);
     OrderItem.tax_rate := Product.tax_rate (CartItem.product item);
     OrderItem.line_total := total t |}.

(** The object [createOrder] passes to [from('orders').insert(...)]. *)
Definition order_row (cashierId : string) (items : list CartItem.t)
    (paymentMethod : PaymentMethod) (notes : option string) (orderNumber : string) : Order.t :=
  let orderItems := map priced items in
  let totals := calculateCartTotals orderItems in
  {| Order.id := ""; Order.cashier_id := cashierId;
     Order.order_number := orderNumber;
     Order.status := completed;
     Order.subtotal := subtotal totals;
     Order.tax_total := tax totals;
     Order.total := total totals;
     Order.payment_method := paymentMethod;
     Order.notes := notes |}.

(** [{ success: true, data: order, message }]. *)
Definition created (order : Order.t) (orderNumber : string) : ApiResponse Order.t :=
  {| success := true; data := Some order; error := None;
     message := Some ("Order " +:+ orderNumber +:+ " created successfully") |}.

(** The part of [createOrder] after the validation loop. *)
Definition commit_order (cashierId : string) (items : list CartItem.t)
    (paymentMethod : PaymentMethod) (notes : option string) : M (ApiResponse Order.t) :=
  let* orderNumber := generateOrderNumber in
  (* Create order *)
  let* res := insert_order (order_row cashierId items paymentMethod notes orderNumber) in
  match pg_error res, pg_data res with
  | None, Some order =>
      (* Create order items *)
      let lineItems := map (lineItem order) items in
      let* ins := insert_order_items lineItems in
      match pg_error ins with
      | Some _ =>
          (* Soft delete order if items creation fails *)
          update_order_status (Order.id order) cancelled;;
          ret (failure "Failed to create order items")
      | None => ret (created order orderNumber)
      end
  | Some m, _ => ret (failure (or_default m "Failed to create order"))
  | None, None => ret (failure "Failed to create order")
  end.

Definition createOrder (cashierId : string) (items : list CartItem.t)
    (paymentMethod : PaymentMethod) (notes : option string) : M (ApiResponse Order.t) :=
  try_catch
    match items with
    | [] => ret (failure "Cart is empty")
    | _ :: _ =>
        createServerSupabaseClient;;
        (* Validate product availability *)
        let* rejected := validate_items items in
        match rejected with
        | Some r => ret r
        | None => commit_order cashierId items paymentMethod notes
        end
    end.

(* ====================================================================== *)
(** ** cancelOrder ([src/lib/actions/orders.ts])                           *)
(* ====================================================================== *)

(** The row of the "Log reverse transaction" insert. *)
Definition return_entry (orderId userId : string) (item : OrderItem.t) : InventoryLog.t :=
  {| InventoryLog.product_id := OrderItem.product_id item;
     InventoryLog.transaction_type := return_;
     InventoryLog.quantity_change := OrderItem.quantity item;
     InventoryLog.reference_id := Some orderId;
     InventoryLog.reference_type := Some "order";
     InventoryLog.notes :=
       Some ("Order " +:+ orderId +:+ " cancelled - inventory restored");
     InventoryLog.created_by := userId |}.

(** The loop "Restore inventory": both awaited results are dropped. *)
Fixpoint restore_inventory (orderId userId : string) (orderItems : list OrderItem.t) : M unit :=
  match orderItems with
  | [] => ret tt
  | item :: rest =>
      rpc_increment (OrderItem.product_id item) (OrderItem.quantity item);;
      insert_inventory_log (return_entry orderId userId item);;
      restore_inventory orderId userId rest
  end.

(** [{ success: true, data: order, message }]. *)
Definition cancelled_response (order : option Order.t) : ApiResponse Order.t :=
  {| success := true; data := order; error := None;
     message := Some "Order cancelled and inventory restored" |}.

Definition cancelOrder (orderId userId : string) : M (ApiResponse Order.t) :=
  try_catch
    (createServerSupabaseClient;;
     let* res := select_order_items orderId in
     match pg_error res, pg_data res with
     | None, Some orderItems =>
         restore_inventory orderId userId orderItems;;
         let* upd := update_order_status_single orderId cancelled in
         match pg_error upd with
         | Some m => ret (failure m)
         | None => ret (cancelled_response (pg_data upd))
         end
     | _, _ => ret (failure "Failed to fetch order items")
     end).

(* ====================================================================== *)
(** ** updateStock ([src/lib/actions/products.ts])                         *)
(* ====================================================================== *)

Definition updateStock (productId : string) (quantityChange : Z)
    (transactionType : TransactionType) (userId : string) (notes : option string)
    : M (ApiResponse (option Product.t * option InventoryLog.t)) :=
  try_catch
    (createServerSupabaseClient;;
     (* Update product quantity *)
     let* upd := update_quantity_from_builder productId in
     match pg_error upd with
     | Some m => ret (failure m)
     | None =>
         (* Log transaction *)
         let* log :=
           insert_inventory_log
             {| InventoryLog.product_id := productId;
                InventoryLog.transaction_type := transactionType;
                InventoryLog.quantity_change := quantityChange;
                InventoryLog.reference_id := None;
                InventoryLog.reference_type := None;
                InventoryLog.notes := notes;
                InventoryLog.created_by := userId |} in
         match pg_error log with
         | Some m => ret (failure m)
         | None =>
             ret {| success := true; data := Some (pg_data upd, pg_data log);
                    error := None; message := Some "Stock updated successfully" |}
         end
     end).

(* ====================================================================== *)
(** ** More of [src/lib/utils/index.ts]                                    *)
(* ====================================================================== *)

(** [isValidSKU(sku)]: [sku.length > 0 && sku.length <= 50]. *)
Definition isValidSKU (sku : string) : bool :=
  (0 <? Z.of_nat (String.length sku)) && (Z.of_nat (String.length sku) <=? 50).

(** [isValidPrice(price)]: [price >= 0 && !isNaN(price)]; no rational is
    NaN. *)
Definition isValidPrice (price : Q) : bool := Qle_bool 0 price.

(** [str.substring(0, n)]: a negative [n] counts as 0, one beyond the end
    as the length. *)
Definition substring_to (n : Z) (str : string) : string :=
  String.substring 0 (Z.to_nat n) str.

(** [truncateString(str, maxLength)]. *)
Definition truncateString (str : string) (maxLength : Z) : string :=
  if decide (Z.of_nat (String.length str) <= maxLength) then str
  else substring_to (maxLength - 3) str +:+ "...".

(** [array.findIndex(p)]; [None] is the -1 of the source. *)
Fixpoint findIndex {A} (p : A -> bool) (array : list A) : option nat :=
  match array with
  | [] => None
  | x :: rest => if p x then Some 0%nat else S <$> findIndex p rest
  end.

(** [array.filter((item, index) => p(index, item))] on the part of the array
    that starts at the index [from]. *)
Fixpoint filter_from {A} (p : nat -> A -> bool) (from : nat) (array : list A) : list A :=
  match array with
  | [] => []
  | item :: rest =>
      if p from item then item :: filter_from p (S from) rest
      else filter_from p (S from) rest
  end.

Section ArrayUtilities.
(** [strict_equal a b] stands for [a === b] on the values of the property
    [key]: it need not hold of a value and itself ([NaN === NaN] is
    false). *)
Context {A K : Type} (strict_equal : K -> K -> bool) (key : A -> K).

(** [uniqueBy(array, key)]: [key] stands for the property access
    [t[key]]. *)
Definition uniqueBy (array : list A) : list A :=
  filter_from
    (fun index item =>
       bool_decide (findIndex (fun t => strict_equal (key t) (key item)) array = Some index))
    0 array.

End ArrayUtilities.

(** [===] on numbers that are integers or [NaN] ([None]). *)
Definition strict_equal_number (a b : option Z) : bool :=
  match a, b with
  | Some x, Some y => bool_decide (x = y)
  | _, _ => false
  end.

(* ====================================================================== *)
(** ** The cart of the POS page ([src/app/pos/page.tsx],
       [src/components/pos/cart.tsx])                                     *)
(* ====================================================================== *)

(** [{ ...item, quantity }]. *)
Definition with_quantity (quantity : Z) (item : CartItem.t) : CartItem.t :=
  {| CartItem.product_id := CartItem.product_id item;
     CartItem.quantity := quantity;
     CartItem.product := CartItem.product item |}.

(** The state update of [handleAddToCart(product)]. *)
Definition handleAddToCart (product : Product.t) (prev : list CartItem.t) : list CartItem.t :=
  match List.find (fun item => bool_decide (CartItem.product_id item = Product.id product)) prev with
  | Some _ =>
      map (fun item =>
             if decide (CartItem.product_id item = Product.id product)
             then with_quantity (CartItem.quantity item + 1) item
             else item) prev
  | None =>
      prev ++ [ {| CartItem.product_id := Product.id product; CartItem.quantity := 1;
                   CartItem.product := product |} ]
  end.

(** The state update of [handleRemoveFromCart(productId)]. *)
Definition handleRemoveFromCart (productId : string) (prev : list CartItem.t) : list CartItem.t :=
  filter (fun item => CartItem.product_id item <> productId) prev.

(** The state update of [handleUpdateQuantity(productId, quantity)]. *)
Definition handleUpdateQuantity (productId : string) (quantity : Z) (prev : list CartItem.t)
    : list CartItem.t :=
  if decide (quantity <= 0) then handleRemoveFromCart productId prev
  else map (fun item =>
              if decide (CartItem.product_id item = productId)
              then with_quantity quantity item else item) prev.

(** The minus button of a cart line:
    [onUpdateQuantity(item.product_id, Math.max(1, item.quantity - 1))]. *)
Definition minus_button (item : CartItem.t) (prev : list CartItem.t) : list CartItem.t :=
  handleUpdateQuantity (CartItem.product_id item) (Z.max 1 (CartItem.quantity item - 1)) prev.

(** The plus button of a cart line:
    [onUpdateQuantity(item.product_id, item.quantity + 1)]. *)
Definition plus_button (item : CartItem.t) (prev : list CartItem.t) : list CartItem.t :=
  handleUpdateQuantity (CartItem.product_id item) (CartItem.quantity item + 1) prev.

(* ====================================================================== *)
(** ** Reading orders back ([src/lib/actions/orders.ts])                   *)
(* ====================================================================== *)

(** [{ success: true, data }]. *)
Definition found {T} (d : T) : ApiResponse T :=
  {| success := true; data := Some d; error := None; message := None |}.

(** The embedded resource [product:product_id (id, name, sku, category_id)]
    (without category_id, as in [Product.t]). *)
Module ItemProduct.
Record t := { id : string; name : string; sku : string }.
End ItemProduct.

Definition item_product (p : Product.t) : ItemProduct.t :=
  {| ItemProduct.id := Product.id p; ItemProduct.name := Product.name p;
     ItemProduct.sku := Product.sku p |}.

(** [getOrderItems(orderId)]: the lines of the order, each with its
    product. *)
Definition getOrderItems (orderId : string)
    : M (ApiResponse (list (OrderItem.t * option ItemProduct.t))) :=
  try_catch
    (createServerSupabaseClient;;
     let* res :=
       statement (fun d =>
         Done (d, map (fun i => (i, item_product <$> products d !! OrderItem.product_id i))
                      (items_of_order orderId d))) in
     match pg_error res with
     | Some m => ret (failure m)
     | None => ret (found (default [] (pg_data res)))
     end).

(** What [getOrderById] selects: the order row and, as [items], its lines
    with their product rows (the joined cashier profile is left out, the
    profiles table not being modelled). *)
Module OrderWithItems.
Record t := { order : Order.t; items : list (OrderItem.t * option Product.t) }.
End OrderWithItems.

(** [getOrderById(orderId)]; its [single()] wants exactly one row. *)
Definition getOrderById (orderId : string) : M (ApiResponse OrderWithItems.t) :=
  try_catch
    (createServerSupabaseClient;;
     let* res :=
       statement (fun d =>
         match orders d !! orderId with
         | Some o =>
             Done (d, {| OrderWithItems.order := o;
                         OrderWithItems.items :=
                           map (fun i => (i, products d !! OrderItem.product_id i))
                               (items_of_order orderId d) |})
         | None => Raised no_rows
         end) in
     match pg_error res with
     | Some m => ret (failure m)
     | None =>
         ret {| success := true; data := pg_data res; error := None; message := None |}
     end).

(* ====================================================================== *)
(** ** deleteProduct and createProduct ([src/lib/actions/products.ts])     *)
(* ====================================================================== *)

Definition set_is_active (b : bool) (p : Product.t) : Product.t :=
  {| Product.id := Product.id p; Product.sku := Product.sku p;
     Product.name := Product.name p; Product.price := Product.price p;
     Product.cost := Product.cost p; Product.tax_rate := Product.tax_rate p;
     Product.quantity_on_hand := Product.quantity_on_hand p;
     Product.reorder_level := Product.reorder_level p; Product.is_active := b |}.

(** [UPDATE products SET is_active = b WHERE id = pid]. *)
Definition sql_set_is_active (pid : string) (b : bool) (d : Db) : Db :=
  set_products (alter (set_is_active b) pid (products d)) d.

(** [deleteProduct(productId)]: "Soft delete - set is_active to false". *)
Definition deleteProduct (productId : string) : M (ApiResponse unit) :=
  try_catch
    (createServerSupabaseClient;;
     let* res := statement (fun d => Done (sql_set_is_active productId false d, tt)) in
     match pg_error res with
     | Some m => ret (failure m)
     | None =>
         ret {| success := true; data := None; error := None;
                message := Some "Product deleted successfully" |}
     end).

(** [CreateProductFormData], without category_id, description and
    image_url. *)
Module CreateProductFormData.
Record t := {
  sku : string; name : string; price : Q; cost : Q; tax_rate : Q; reorder_level : Z }.
End CreateProductFormData.

(** [INSERT INTO products] of the row [NEW], whose id, quantity_on_hand
    ([DEFAULT 0]) and is_active ([DEFAULT true]) the column defaults have
    filled in: primary key, [UNIQUE] sku, and the [CHECK (... >= 0)] of
    price, cost, tax_rate and quantity_on_hand.  The foreign key to
    categories is not modelled. *)
Definition sql_insert_product (NEW : Product.t) (d : Db) : Sql Db :=
  if decide (is_Some (products d !! Product.id NEW))
  then Raised "duplicate key value violates unique constraint products_pkey"
  else if bool_decide (map_Exists (fun _ p => Product.sku p = Product.sku NEW) (products d))
  then Raised "duplicate key value violates unique constraint products_sku_key"
  else if negb (Qnonneg (Product.price NEW) && Qnonneg (Product.cost NEW)
                && Qnonneg (Product.tax_rate NEW)
                && (0 <=? Product.quantity_on_hand NEW))
  then Raised "violates check constraint on products"
  else Done (set_products (<[Product.id NEW := NEW]> (products d)) d).

Section CreateProduct.
(** [String.prototype.toUpperCase] and [String.prototype.trim]. *)
Variables (toUpperCase trim : string -> string).

(** The row [createProduct] asks to insert, completed by the column
    defaults. *)
Definition product_row (new_id : string) (data : CreateProductFormData.t) : Product.t :=
  {| Product.id := new_id;
     Product.sku := toUpperCase (CreateProductFormData.sku data);
     Product.name := trim (CreateProductFormData.name data);
     Product.price := CreateProductFormData.price data;
     Product.cost := CreateProductFormData.cost data;
     Product.tax_rate := CreateProductFormData.tax_rate data;
     Product.quantity_on_hand := 0;
     Product.reorder_level := CreateProductFormData.reorder_level data;
     Product.is_active := true |}.

(** [from('products').insert({...}).select().single()]. *)
Definition insert_product (data : CreateProductFormData.t) : M (PgResult Product.t) :=
  let* e := request in
  match e with
  | Some m => ret (pg_fail m)
  | None =>
      let* u := uuid_generate_v4 in
      match u with
      | None => ret (pg_fail "function uuid_generate_v4() does not exist")
      | Some new_id =>
          let NEW := product_row new_id data in
          let* d := get_db in
          match sql_insert_product NEW d with
          | Raised m => ret (pg_fail m)
          | Done d' => put_db d';; ret (pg_ok NEW)
          end
      end
  end.

Definition createProduct (data : CreateProductFormData.t) : M (ApiResponse Product.t) :=
  try_catch
    (* Validate input *)
    (if negb (isValidSKU (CreateProductFormData.sku data))
     then ret (failure "Invalid SKU format")
     else if negb (isValidPrice (CreateProductFormData.price data))
             || negb (isValidPrice (CreateProductFormData.cost data))
     then ret (failure "Price and cost must be non-negative numbers")
     else if bool_decide (CreateProductFormData.name data = "")
             || bool_decide (String.length (trim (CreateProductFormData.name data)) = 0%nat)
     then ret (failure "Product name is required")
     else
       createServerSupabaseClient;;
       let* res := insert_product data in
       match pg_error res with
       | Some m => ret (failure m)
       | None =>
           ret {| success := true; data := pg_data res; error := None;
                  message := Some "Product created successfully" |}
       end).

End CreateProduct.

(* ====================================================================== *)
(** ** Quantities the statements below are about                           *)
(* ====================================================================== *)

(** The sum of the specification's total-correctness property: over the
    lines, [round(price * qty * (1 + tax/100), 2)]. *)
Fixpoint sum_rounded_lines (items : list PricedItem.t) : Q :=
  match items with
  | [] => 0
  | i :: rest =>
      (formatDecimal (PricedItem.unit_price i * inject_Z (PricedItem.quantity i)
                      * (1 + PricedItem.tax_rate i / 100))
       + sum_rounded_lines rest)%Q
  end.

(** The stock check of one cart line against the tables. *)
Definition line_ok (d : Db) (item : CartItem.t) : bool :=
  match products d !! CartItem.product_id item with
  | Some p => bool_decide (CartItem.quantity item <= Product.quantity_on_hand p)%Z
  | None => false
  end.

(** The service runs the next [n] requests. *)
Definition answered (n : nat) (w : World) : Prop :=
  Forall (fun r => r = Ok) (take n (replies w)).

(** The world once [n] replies are used. *)
Definition skip (n : nat) (w : World) : World := set_replies (drop n (replies w)) w.

(** The lines [pre] all pass the loop of [createOrder]. *)
Definition passes (w : World) (pre : list CartItem.t) : Prop :=
  answered (length pre) w /\ Forall (fun i => line_ok (db w) i = true) pre.

(** The three ways a checkout is turned down before the order is written,
    with the error each one reports: an empty cart; a line whose product
    lookup fails (the service answers with an error, or there is no such
    row) after the lines before it passed; a line with less stock than
    requested after the lines before it passed. *)
Inductive Rejection (w : World) : list CartItem.t -> string -> Prop :=
| EmptyCart : Rejection w [] "Cart is empty"
| ProductNotFound pre item post :
    passes w pre ->
    (exists m, next_reply (skip (length pre) w) = Error m)
    \/ (next_reply (skip (length pre) w) = Ok
        /\ products (db w) !! CartItem.product_id item = None) ->
    Rejection w (pre ++ item :: post)
      ("Product not found: " +:+ CartItem.product_id item)
| InsufficientStock pre item post p :
    passes w pre ->
    next_reply (skip (length pre) w) = Ok ->
    products (db w) !! CartItem.product_id item = Some p ->
    (Product.quantity_on_hand p < CartItem.quantity item)%Z ->
    Rejection w (pre ++ item :: post)
      ("Insufficient stock for product: " +:+ Product.name (CartItem.product item)).

(** The constraints of the schema that the statements below rely on: stock
    is never negative, and every order line has a positive quantity and
    refers to an order and to a product that exist. *)
Definition nonneg_stock (d : Db) : Prop :=
  map_Forall (fun _ p => 0 <= Product.quantity_on_hand p)%Z (products d).

Definition consistent (d : Db) : Prop :=
  nonneg_stock d /\
  Forall (fun i => is_Some (orders d !! OrderItem.order_id i)
                   /\ is_Some (products d !! OrderItem.product_id i)
                   /\ (0 < OrderItem.quantity i)%Z) (order_items d).

(** The constraints can be checked on any given tables. *)
#[local] Instance consistent_dec (d : Db) : Decision (consistent d).
Proof. unfold consistent, nonneg_stock. apply _. Defined.

(** The clock reading the next call of [generateOrderNumber] gets. *)
Definition next_sample (w : World) : ClockSample := default epoch (head (clock w)).

(** The signed sum of the ledger entries that refer to the order [oid]. *)
Definition ledger_sum (oid : string) (d : Db) : Z :=
  foldr (fun e acc => (InventoryLog.quantity_change e + acc)%Z) 0%Z
        (filter (fun e => InventoryLog.reference_id e = Some oid) (inventory_logs d)).

(** The quantity_on_hand of a product, when the row exists. *)
Definition stock (pid : string) (d : Db) : option Z :=
  Product.quantity_on_hand <$> products d !! pid.

(** The sum of the quantities the lines [items] hold of the product
    [pid]. *)
Definition line_quantity (pid : string) (items : list OrderItem.t) : Z :=
  foldr (fun i acc => ((if decide (OrderItem.product_id i = pid)
                        then OrderItem.quantity i else 0) + acc)%Z) 0%Z items.

(** The statement ran to its end. *)
Definition is_done {A} (s : Sql A) : bool :=
  match s with Done _ => true | Raised _ => false end.

(** What a run returned (nothing, if it threw) and the world it left. *)
Definition returned {A} (run : Outcome A * World) : option A :=
  match fst run with Val a => Some a | Thrown _ => None end.
Definition world_after {A} (run : Outcome A * World) : World := snd run.

(* ====================================================================== *)
(** ** A small shop, for the examples                                      *)
(* ====================================================================== *)

(** The product of the specification's example: 12.99 at 10% tax. *)
Definition coffee (on_hand : Z) : Product.t :=
  {| Product.id := "p1"; Product.sku := "COFFEE-001"; Product.name := "Coffee";
     Product.price := 1299 # 100; Product.cost := 5; Product.tax_rate := 10;
     Product.quantity_on_hand := on_hand; Product.reorder_level := 10;
     Product.is_active := true |}.

(** The same product as a client may send it inside a cart line, with a
    price and a tax rate of the client's choosing. *)
Definition coffee_as_sent (price tax_rate : Q) : Product.t :=
  {| Product.id := "p1"; Product.sku := "COFFEE-001"; Product.name := "Coffee";
     Product.price := price; Product.cost := 5; Product.tax_rate := tax_rate;
     Product.quantity_on_hand := 5; Product.reorder_level := 10;
     Product.is_active := true |}.

(** A database with that one product and nothing sold yet. *)
Definition shop (on_hand : Z) : Db :=
  {| products := {[ "p1" := coffee on_hand ]}; orders := ∅;
     order_items := []; inventory_logs := [] |}.

(** A cart line for [n] coffees, carrying the product as the client has
    it. *)
Definition coffees (n : Z) (as_seen : Product.t) : list CartItem.t :=
  [ {| CartItem.product_id := "p1"; CartItem.quantity := n; CartItem.product := as_seen |} ].

Definition morning : ClockSample :=
  {| iso_date := "2026-11-02"; time_string := "09:30:00"; random_string := "0.4821" |}.
Definition a_second_later : ClockSample :=
  {| iso_date := "2026-11-02"; time_string := "09:30:01"; random_string := "0.73" |}.

(** The shop with [on_hand] coffees, the scripted replies [rs], and two
    order ids and two clock readings to come. *)
Definition shop_world (on_hand : Z) (rs : list Reply) : World :=
  {| db := shop on_hand; replies := rs; uuids := ["o1"; "o2"];
     clock := [morning; a_second_later] |}.

(** A shop in which the order "o1" for two coffees is on file with the
    status [s], its sale booked as the comment in createOrder describes:
    stock down from 5 to 3, one sale entry of -2. *)
Definition order_o1 (s : OrderStatus) : Order.t :=
  {| Order.id := "o1"; Order.cashier_id := "u1";
     Order.order_number := "ORD-20261102-093000-4821"; Order.status := s;
     Order.subtotal := 2598 # 100; Order.tax_total := 260 # 100;
     Order.total := 2858 # 100; Order.payment_method := cash; Order.notes := None |}.

(** The order row a checkout of two coffees at the catalogue price creates
    in [shop_world]. *)
Definition two_coffees_order : Order.t :=
  with_id "o1" (order_row "u1" (coffees 2 (coffee 5)) cash None "ORD-20261102-093000-4821").

Definition line_o1 : OrderItem.t :=
  {| OrderItem.order_id := "o1"; OrderItem.product_id := "p1"; OrderItem.quantity := 2;
     OrderItem.unit_price := 1299 # 100; OrderItem.tax_rate := 10;
     OrderItem.line_total := 2858 # 100 |}.

Definition sale_o1 : InventoryLog.t :=
  {| InventoryLog.product_id := "p1"; InventoryLog.transaction_type := sale;
     InventoryLog.quantity_change := -2; InventoryLog.reference_id := Some "o1";
     InventoryLog.reference_type := Some "order"; InventoryLog.notes := None;
     InventoryLog.created_by := "u1" |}.

Definition shop_with_order (s : OrderStatus) (rs : list Reply) : World :=
  {| db := {| products := {[ "p1" := coffee 3 ]}; orders := {[ "o1" := order_o1 s ]};
              order_items := [line_o1]; inventory_logs := [sale_o1] |};
     replies := rs; uuids := ["o2"]; clock := [a_second_later] |}.

(** How often the character [c] occurs in [s]. *)
Fixpoint count_char (c : ascii) (s : string) : nat :=
  match s with
  | EmptyString => 0
  | String a rest => (if decide (a = c) then 1 else 0) + count_char c rest
  end.

(** The last part of an order number: [random] in [generateOrderNumber]. *)
Definition random_suffix (now : ClockSample) : string :=
  padEnd 4 "0"%char (String.substring 2 4 (random_string now)).

Section KeepFirst.
Context {A K : Type} (strict_equal : K -> K -> bool) (key : A -> K).

(** The elements of [array] whose key is strictly equal to itself, to none
    of the keys [seen] and to no key earlier in [array]. *)
Fixpoint keep_first (seen : list K) (array : list A) : list A :=
  match array with
  | [] => []
  | x :: rest =>
      if forallb (fun k => negb (strict_equal k (key x))) seen && strict_equal (key x) (key x)
      then x :: keep_first (seen ++ [key x]) rest
      else keep_first (seen ++ [key x]) rest
  end.

(** No element of [l] has a key strictly equal to the key of a later
    one. *)
Fixpoint different_keys (l : list A) : Prop :=
  match l with
  | [] => True
  | x :: rest =>
      Forall (fun y => strict_equal (key x) (key y) = false) rest /\ different_keys rest
  end.
End KeepFirst.

(** A cart as the handlers keep it: at most one line per product, every
    quantity positive. *)
Definition cart_ok (cart : list CartItem.t) : Prop :=
  NoDup (map CartItem.product_id cart) /\ Forall (fun i => 0 < CartItem.quantity i) cart.

(** The number of units in the cart. *)
Definition units (cart : list CartItem.t) : Z :=
  foldr (fun i acc => CartItem.quantity i + acc) 0 cart.

(** The id the next inserted row gets (none: the empty string). *)
Definition next_uuid (w : World) : string :=
  match uuids w with u :: _ => u | [] => "" end.

(** The order row the next checkout inserts. *)
Definition next_order (cashierId : string) (items : list CartItem.t)
    (paymentMethod : PaymentMethod) (notes : option string) (w : World) : Order.t :=
  with_id (next_uuid w)
    (order_row cashierId items paymentMethod notes (order_number_of (next_sample w))).

(** A response has the shape the actions give it: a success carries no
    error, a failure carries an error and neither data nor message. *)
Definition well_formed {T} (r : ApiResponse T) : Prop :=
  if success r then error r = None
  else is_Some (error r) /\ data r = None /\ message r = None.

(** From [d] to [d'] nothing changed but the stock, which for each product
    [x] went up by at most [bound x]. *)
Definition restocked (bound : string -> Z) (d d' : Db) : Prop :=
  orders d' = orders d /\ order_items d' = order_items d
  /\ forall x, match products d !! x with
               | None => products d' !! x = None
               | Some p =>
                   exists q, products d' !! x = Some (Product.set_quantity_on_hand q p)
                             /\ Product.quantity_on_hand p <= q
                                <= Product.quantity_on_hand p + bound x
               end.

(** The rows [new] are return entries of lines among [items], for the order
    [orderId] and the user [userId]. *)
Definition returns_of (orderId userId : string) (items : list OrderItem.t)
    (new : list InventoryLog.t) : Prop :=
  Forall (fun e => exists i, i ∈ items /\ e = return_entry orderId userId i) new.

(** The ledger row the trigger writes for the row [(product_id, quantity)]
    of the order [NEW]. *)
Definition sale_entry (NEW : Order.t) (row : string * Z) : InventoryLog.t :=
  {| InventoryLog.product_id := fst row;
     InventoryLog.transaction_type := sale;
     InventoryLog.quantity_change := - snd row;
     InventoryLog.reference_id := Some (Order.id NEW);
     InventoryLog.reference_type := Some "order";
     InventoryLog.notes := None;
     InventoryLog.created_by := Order.cashier_id NEW |}.

(** The sum of the quantities the rows hold of the product [pid]. *)
Definition row_quantity (pid : string) (rows : list (string * Z)) : Z :=
  foldr (fun r acc => (if decide (fst r = pid) then snd r else 0) + acc) 0 rows.

(** The ledger row [updateStock] asks to insert. *)
Definition stock_entry (productId : string) (quantityChange : Z)
    (transactionType : TransactionType) (userId : string) (notes : option string)
    : InventoryLog.t :=
  {| InventoryLog.product_id := productId;
     InventoryLog.transaction_type := transactionType;
     InventoryLog.quantity_change := quantityChange;
     InventoryLog.reference_id := None;
     InventoryLog.reference_type := None;
     InventoryLog.notes := notes;
     InventoryLog.created_by := userId |}.

(** The form passes the checks [createProduct] makes before its request. *)
Definition valid_form (trim : string -> string) (data : CreateProductFormData.t) : bool :=
  isValidSKU (CreateProductFormData.sku data)
  && isValidPrice (CreateProductFormData.price data)
  && isValidPrice (CreateProductFormData.cost data)
  && negb (bool_decide (CreateProductFormData.name data = ""))
  && negb (bool_decide (String.length (trim (CreateProductFormData.name data)) = 0%nat)).

(** A form for a new product. *)
Definition tea_form : CreateProductFormData.t :=
  {| CreateProductFormData.sku := "tea-001"; CreateProductFormData.name := "Tea";
     CreateProductFormData.price := 3; CreateProductFormData.cost := 1;
     CreateProductFormData.tax_rate := 10; CreateProductFormData.reorder_level := 5 |}.

(** The product the service creates from [tea_form] in [shop_world], the
    functions on strings being stood in for by the identity. *)
Definition tea : Product.t := product_row id id "o1" tea_form.

(** Every value the computation [m] returns satisfies [P] (when it throws,
    nothing is asked). *)
Definition answers {A} (P : A -> Prop) (m : M A) : Prop :=
  forall w, match fst (m w) with Val a => P a | Thrown _ => True end.

(** The accumulator [subtotal] of [calculateCartTotals] when the loop has
    gone through [items]: the line subtotals [quantity * unit_price] added
    one after the other, from 0, in the order of the lines. *)
Definition raw_subtotal (items : list PricedItem.t) : Q :=
  fold_left (fun subtotal item =>
               (subtotal + inject_Z (PricedItem.quantity item) * PricedItem.unit_price item)%Q)
            items 0%Q.

(** Its accumulator [tax]: the taxes of the lines, each the [calculateTax]
    of the line's unrounded subtotal, added in the same way. *)
Definition raw_tax (items : list PricedItem.t) : Q :=
  fold_left (fun tax item =>
               (tax + calculateTax (inject_Z (PricedItem.quantity item)
                                    * PricedItem.unit_price item)
                                   (PricedItem.tax_rate item))%Q)
            items 0%Q.

Section Simulation.
Variable lift : Db -> Db.

(** The world [w] with the tables [lift (db w)]. *)
Definition lift_world (w : World) : World := set_db (lift (db w)) w.

(** The computation [m] does not see the difference [lift] makes: on the
    lifted world it returns what it returns on the world itself, and leaves
    the lifted world. *)
Definition blind {A} (m : M A) : Prop :=
  forall w, m (lift_world w) = (fst (m w), lift_world (snd (m w))).

(** The same for a statement, on the tables. *)
Definition blind_sql {A} (f : Db -> Sql (Db * A)) : Prop :=
  forall d, f (lift d) = match f d with
                         | Done (d', a) => Done (lift d', a)
                         | Raised m => Raised m
                         end.
End Simulation.




(* ====================================================================== *)
(** * Properties                                                           *)
(* ====================================================================== *)

(** ** Rounding *)

Local Open Scope Q_scope.

Lemma pow10_2 : pow10 2 = 100.
Proof. reflexivity. Qed.

Lemma Qfloor_add_Z (n : Z) (y : Q) : Qfloor (inject_Z n + y) = (n + Qfloor y)%Z.
Proof.
  destruct y as [a b]. unfold Qfloor, Qplus, inject_Z. cbn [Qnum Qden].
  rewrite Z.mul_1_r, Pos.mul_1_l.
  rewrite Z.div_add_l by discriminate. reflexivity.
Qed.

#[local] Instance Math_round_proper : Proper (Qeq ==> eq) Math_round.
Proof. intros x y E. unfold Math_round. now rewrite E. Qed.

Lemma Math_round_add_Z (n : Z) (y : Q) : Math_round (inject_Z n + y) = (n + Math_round y)%Z.
Proof.
  unfold Math_round. rewrite <- Qfloor_add_Z.
  apply Qfloor_comp. ring.
Qed.

Lemma Math_round_Z (n : Z) : Math_round (inject_Z n) = n.
Proof.
  assert (E : inject_Z n == inject_Z n + 0) by ring.
  rewrite E, Math_round_add_Z.
  change (Math_round 0) with 0%Z. lia.
Qed.

#[local] Instance formatDecimal_proper : Proper (Qeq ==> Qeq) formatDecimal.
Proof.
  intros x y E. unfold formatDecimal, formatDecimal_dec. now rewrite E.
Qed.

#[local] Instance calculateTax_proper : Proper (Qeq ==> Qeq ==> Qeq) calculateTax.
Proof. intros a b E t u F. unfold calculateTax. now rewrite E, F. Qed.

Lemma formatDecimal_unfold (x : Q) :
  formatDecimal x == inject_Z (Math_round (x * 100)) / 100.
Proof. unfold formatDecimal, formatDecimal_dec. rewrite pow10_2. reflexivity. Qed.

Lemma formatDecimal_whole_cents (x : Q) : whole_cents (formatDecimal x).
Proof. exists (Math_round (x * 100)). apply formatDecimal_unfold. Qed.

(** Rounding leaves a whole number of cents as it is, ... *)
Lemma formatDecimal_id (x : Q) : whole_cents x -> formatDecimal x == x.
Proof.
  intros [c Hc]. rewrite formatDecimal_unfold.
  assert (E : x * 100 == inject_Z c) by (rewrite Hc; field).
  rewrite E, Math_round_Z. symmetry. exact Hc.
Qed.

#[local] Instance whole_cents_proper : Proper (Qeq ==> iff) whole_cents.
Proof.
  intros x y E. unfold whole_cents. split; intros [c Hc]; exists c.
  - now rewrite <- E.
  - now rewrite E.
Qed.

Example formatDecimal_2598 : formatDecimal (2598 # 1000) == 260 # 100.
Proof. reflexivity. Qed.

(** The example of the specification: 2 x 12.99 at 10%. *)
Example coffee_line :
  Totals_eq (calculateLineTotal (1299 # 100) 2 10)
            {| subtotal := 2598 # 100; tax := 260 # 100; total := 2858 # 100 |}.
Proof. repeat split; vm_compute; reflexivity. Qed.

(** ** calculateCartTotals *)

(** ** Requests *)

Local Open Scope Z_scope.

(** Case analysis on the reply to the next request of the goal, and the
    step that fixes it when it is known. *)
Ltac case_reply :=
  match goal with |- context [next_reply ?x] => destruct (next_reply x) end.

Lemma statement_run {A} (f : Db -> Sql (Db * A)) (w : World) :
  statement f w =
  match next_reply w with
  | Ok => match f (db w) with
          | Done (d', a) => (Val (pg_ok a), set_db d' (pop w))
          | Raised m => (Val (pg_fail m), pop w)
          end
  | Error m => (Val (pg_fail m), pop w)
  | Throw m => (Thrown m, pop w)
  end.
Proof.
  unfold statement, bind, request, get_db, put_db, ret.
  destruct (next_reply w); [|reflexivity..].
  change (db (pop w)) with (db w).
  destruct (f (db w)) as [[d' a]|m]; reflexivity.
Qed.

Lemma insert_order_run (row : Order.t) (w : World) :
  insert_order row w =
  match next_reply w with
  | Ok => match uuids w with
          | [] => (Val (pg_fail "function uuid_generate_v4() does not exist"), pop w)
          | u :: us =>
              match sql_insert_order (with_id u row) (db w) with
              | Done d' => (Val (pg_ok (with_id u row)), set_db d' (set_uuids us (pop w)))
              | Raised m => (Val (pg_fail m), set_uuids us (pop w))
              end
          end
  | Error m => (Val (pg_fail m), pop w)
  | Throw m => (Thrown m, pop w)
  end.
Proof.
  unfold insert_order, bind, request, uuid_generate_v4, get_db, put_db, ret.
  destruct (next_reply w); [|reflexivity..].
  change (uuids (pop w)) with (uuids w).
  destruct (uuids w) as [|u us]; [reflexivity|].
  change (db (set_uuids us (pop w))) with (db w).
  destruct (sql_insert_order (with_id u row) (db w)); reflexivity.
Qed.

Lemma generateOrderNumber_run (w : World) :
  generateOrderNumber w = (Val (order_number_of (next_sample w)), set_clock (tail (clock w)) w).
Proof.
  unfold generateOrderNumber, bind, sample_clock, ret, next_sample.
  destruct w as [d rs us [|c cs]]; reflexivity.
Qed.

Lemma skip_0 (w : World) : skip 0 w = w.
Proof. destruct w; reflexivity. Qed.

Lemma skip_S (n : nat) (w : World) : skip (S n) w = skip n (pop w).
Proof. unfold skip, pop. destruct w as [d [|r rs] us cs]; cbn; [by rewrite drop_nil|done]. Qed.

Lemma answered_S (n : nat) (w : World) :
  answered (S n) w <-> next_reply w = Ok /\ answered n (pop w).
Proof.
  unfold answered, next_reply, pop. destruct w as [d [|r rs] us cs]; cbn.
  - rewrite take_nil. split; [intros _; split; [done|constructor] | constructor].
  - rewrite Forall_cons. reflexivity.
Qed.

(** ** The validation loop of createOrder *)

(** Whatever its outcome, the loop only reads the tables. *)
Lemma validate_items_reads (items : list CartItem.t) (w : World) :
  exists rs, snd (validate_items items w) = set_replies rs w.
Proof.
  revert w. induction items as [|i rest IH]; intros w; cbn [validate_items].
  - exists (replies w). destruct w; reflexivity.
  - unfold bind, select_quantity_on_hand. rewrite statement_run.
    destruct (next_reply w) as [|m|m].
    + destruct (products (db w) !! CartItem.product_id i) as [p|]; cbn.
      * case_decide.
        -- eexists; reflexivity.
        -- destruct (IH (set_db (db w) (pop w))) as [rs Hrs]. rewrite Hrs.
           eexists; reflexivity.
      * eexists; reflexivity.
    + cbn. eexists; reflexivity.
    + cbn. eexists; reflexivity.
Qed.

(** Lines that pass leave the rest of the loop to run on the later
    replies. *)
Lemma validate_items_pass (pre rest : list CartItem.t) (w : World) :
  passes w pre ->
  validate_items (pre ++ rest) w = validate_items rest (skip (length pre) w).
Proof.
  revert w. induction pre as [|i pre IH]; intros w [Ha Hl].
  - cbn. by rewrite skip_0.
  - cbn [length] in Ha. apply answered_S in Ha as [Hr Ha].
    apply Forall_cons in Hl as [Hi Hl].
    cbn [app validate_items length]. unfold bind at 1, select_quantity_on_hand.
    rewrite statement_run, Hr.
    unfold line_ok in Hi.
    destruct (products (db w) !! CartItem.product_id i) as [p|]; [|done].
    apply bool_decide_eq_true in Hi. cbn.
    case_decide; [lia|].
    rewrite skip_S. apply IH. split; assumption.
Qed.


(** A loop that ends without a [return] has checked every line. *)
Lemma validate_items_none (items : list CartItem.t) (w w1 : World) :
  validate_items items w = (Val None, w1) ->
  passes w items /\ w1 = skip (length items) w.
Proof.
  revert w. induction items as [|i rest IH]; intros w; cbn [validate_items].
  - unfold ret. intros [= <-]. rewrite skip_0. repeat split; constructor.
  - unfold bind, select_quantity_on_hand. rewrite statement_run.
    destruct (next_reply w) as [|m|m] eqn:Hr; [|done..].
    destruct (products (db w) !! CartItem.product_id i) as [p|] eqn:Hp; [|done].
    cbn. case_decide as Hq; [done|].
    intros H. apply IH in H as [[Ha Hl] ->].
    rewrite skip_S. split; [|reflexivity]. split.
    + cbn [length]. apply answered_S. split; assumption.
    + constructor; [|exact Hl]. unfold line_ok. rewrite Hp.
      apply bool_decide_eq_true. lia.
Qed.

(** ** createOrder *)

Lemma createOrder_run (cashierId : string) (items : list CartItem.t)
    (paymentMethod : PaymentMethod) (notes : option string) (w : World) :
  items <> [] ->
  createOrder cashierId items paymentMethod notes w =
  match validate_items items w with
  | (Val (Some r), w1) => (Val r, w1)
  | (Val None, w1) => try_catch (commit_order cashierId items paymentMethod notes) w1
  | (Thrown e, w1) => (Val (failure (or_default e "An unexpected error occurred")), w1)
  end.
Proof.
  intros Hne. destruct items as [|i rest]; [done|].
  unfold createOrder, try_catch, bind, createServerSupabaseClient, ret.
  destruct (validate_items (i :: rest) w) as [[[r|]|e] w1]; reflexivity.
Qed.

(** C7.  A checkout that is turned down for an empty cart, for a failed
    product lookup or for a stock shortage returns that error without
    having written anything: the empty cart is answered before any request
    is made (the world is untouched), a failed lookup is reported as
    "Product not found" with the id of the line, a shortage
    (quantity_on_hand strictly below the requested quantity) as
    "Insufficient stock", and in each case the tables are what they
    were. *)
Theorem createOrder_rejects_before_writing (cashierId : string) (items : list CartItem.t)
    (paymentMethod : PaymentMethod) (notes : option string) (w : World) (e : string) :
  Rejection w items e ->
  exists w',
    createOrder cashierId items paymentMethod notes w = (Val (failure e), w')
    /\ db w' = db w
    /\ (items = [] -> w' = w).
Proof.
  intros [|pre item post Hpre Hfail|pre item post p Hpre Hr Hp Hlt].
  - exists w. repeat split.
  - rewrite createOrder_run by (by destruct pre).
    rewrite validate_items_pass by exact Hpre.
    cbn [validate_items]. unfold bind, select_quantity_on_hand.
    rewrite statement_run.
    destruct Hfail as [[m Hm]|[Hr Hnone]].
    + rewrite Hm. cbn. eexists. repeat split. by destruct pre.
    + rewrite Hr. change (db (skip (length pre) w)) with (db w). rewrite Hnone. cbn.
      eexists. repeat split. by destruct pre.
  - rewrite createOrder_run by (by destruct pre).
    rewrite validate_items_pass by exact Hpre.
    cbn [validate_items]. unfold bind, select_quantity_on_hand.
    rewrite statement_run, Hr.
    change (db (skip (length pre) w)) with (db w). rewrite Hp. cbn.
    case_decide; [|lia]. eexists. repeat split. by destruct pre.
Qed.

Lemma validate_items_some (items : list CartItem.t) (w w1 : World) (r : ApiResponse Order.t) :
  validate_items items w = (Val (Some r), w1) -> success r = false.
Proof.
  revert w. induction items as [|i rest IH]; intros w; cbn [validate_items].
  - done.
  - unfold bind, select_quantity_on_hand. rewrite statement_run.
    destruct (next_reply w) as [|m|m]; [| |done].
    + destruct (products (db w) !! CartItem.product_id i) as [p|]; cbn.
      * case_decide; [by intros [= <- _]|]. apply IH.
      * by intros [= <- _].
    + cbn. by intros [= <- _].
Qed.

(** ** The trigger on [orders] *)

(** No line refers to an order that does not exist. *)
Lemma items_of_unknown_order (oid : string) (d : Db) :
  consistent d -> orders d !! oid = None -> items_of_order oid d = [].
Proof.
  intros [_ Hfk] Hnone. unfold items_of_order.
  revert Hfk. generalize (order_items d) as l.
  induction l as [|i l IH]; intros Hfk; [reflexivity|].
  apply Forall_cons in Hfk as [[Ho _] Hfk].
  rewrite filter_cons. case_decide as E; [|by apply IH].
  rewrite E, Hnone in Ho. by destruct Ho.
Qed.

(** [trg_update_inventory_on_order] fires with the insert of the order row,
    when the order has no lines yet: it finds nothing to do. *)
Lemma sql_insert_order_new (NEW : Order.t) (d d1 : Db) :
  consistent d ->
  sql_insert_order NEW d = Done d1 ->
  orders d !! Order.id NEW = None
  /\ d1 = set_orders (<[Order.id NEW := NEW]> (orders d)) d.
Proof.
  intros Hc. unfold sql_insert_order.
  case_decide as Hpk; [done|].
  destruct (bool_decide _); [done|]. destruct (negb _); [done|].
  assert (Hnone : orders d !! Order.id NEW = None).
  { destruct (orders d !! Order.id NEW) eqn:E; [|done]. exfalso. apply Hpk. eauto. }
  unfold update_inventory_on_order.
  replace (items_of_order (Order.id NEW) _) with (items_of_order (Order.id NEW) d)
    by reflexivity.
  rewrite items_of_unknown_order by assumption. cbn.
  intros [= <-]. by split.
Qed.

(** Had the trigger found the lines of the order, the
    [CHECK (quantity_on_hand >= 0)] would have stopped a sale of more than
    is on hand: the statement raises. *)
Lemma trigger_refuses_overselling (NEW : Order.t) (pid : string) (q : Z)
    (rest : list (string * Z)) (d : Db) (p : Product.t) :
  products d !! pid = Some p ->
  Product.quantity_on_hand p < q ->
  is_done (update_inventory_loop NEW ((pid, q) :: rest) d) = false.
Proof.
  intros Hp Hq. cbn [update_inventory_loop]. unfold sql_add_quantity.
  rewrite Hp. cbn zeta. case_decide; [lia|reflexivity].
Qed.

(** ** What a successful checkout has done *)

Lemma commit_order_success (cashierId : string) (items : list CartItem.t)
    (paymentMethod : PaymentMethod) (notes : option string) (w w' : World)
    (r : ApiResponse Order.t) :
  try_catch (commit_order cashierId items paymentMethod notes) w = (Val r, w') ->
  success r = true ->
  exists u us d1,
    let number := order_number_of (next_sample w) in
    let order := with_id u (order_row cashierId items paymentMethod notes number) in
    uuids w = u :: us
    /\ r = created order number
    /\ sql_insert_order order (db w) = Done d1
    /\ sql_insert_order_items (map (lineItem order) items) d1
       = Done (set_order_items (order_items d1 ++ map (lineItem order) items) d1)
    /\ db w' = set_order_items (order_items d1 ++ map (lineItem order) items) d1.
Proof.
  unfold try_catch, commit_order, bind at 1. rewrite generateOrderNumber_run.
  unfold bind at 1. rewrite insert_order_run.
  set (w1 := set_clock (tail (clock w)) w).
  change (next_reply w1) with (next_reply w). change (uuids w1) with (uuids w).
  change (db w1) with (db w).
  destruct (next_reply w) as [|m|m]; [| by cbn; intros [= <- _] | by cbn; intros [= <- _]].
  destruct (uuids w) as [|u us] eqn:Hu; [by cbn; intros [= <- _]|].
  destruct (sql_insert_order _ (db w)) as [d1|m] eqn:Hins; [|by cbn; intros [= <- _]].
  cbn [pg_ok pg_error pg_data]. unfold bind, insert_order_items.
  rewrite statement_run.
  match goal with |- context [next_reply ?x] => set (w2 := x) end.
  change (db w2) with d1.
  destruct (next_reply w2) as [|m|m].
  - unfold sql_insert_order_items.
    destruct (forallb _ _) eqn:Hall.
    + cbn. intros [= <- <-] _. exists u, us, d1. cbn zeta.
      repeat split; [exact Hins|].
      unfold sql_insert_order_items. by rewrite Hall.
    + cbn. unfold update_order_status. rewrite statement_run.
      destruct (next_reply _); [destruct (sql_update_order_status _ _ _)|..];
        cbn; by intros [= <- _].
  - cbn. unfold update_order_status. rewrite statement_run.
    destruct (next_reply _); [destruct (sql_update_order_status _ _ _)|..];
      cbn; by intros [= <- _].
  - cbn. by intros [= <- _].
Qed.

Lemma createOrder_success (cashierId : string) (items : list CartItem.t)
    (paymentMethod : PaymentMethod) (notes : option string) (w w' : World)
    (r : ApiResponse Order.t) :
  createOrder cashierId items paymentMethod notes w = (Val r, w') ->
  success r = true ->
  exists u us d1,
    let number := order_number_of (next_sample w) in
    let order := with_id u (order_row cashierId items paymentMethod notes number) in
    items <> [] /\ passes w items
    /\ uuids w = u :: us
    /\ r = created order number
    /\ sql_insert_order order (db w) = Done d1
    /\ db w' = set_order_items (order_items d1 ++ map (lineItem order) items) d1.
Proof.
  intros Hrun Hs.
  destruct items as [|i rest]; [cbn in Hrun; by injection Hrun as <- _|].
  rewrite createOrder_run in Hrun by done.
  destruct (validate_items (i :: rest) w) as [[[r0|]|e] w1] eqn:Hv.
  - injection Hrun as <- _. apply validate_items_some in Hv. congruence.
  - apply validate_items_none in Hv as [Hp ->].
    apply commit_order_success in Hrun as (u & us & d1 & Hu & Hr & Hins & _ & Hdb); [|done].
    exists u, us, d1. cbn zeta. repeat split; try done. apply Hp. apply Hp.
  - injection Hrun as <- _. done.
Qed.

(** The trigger writes to [products] and [inventory_logs] only. *)
Lemma update_inventory_loop_tables (NEW : Order.t) (rows : list (string * Z)) (d d' : Db) :
  update_inventory_loop NEW rows d = Done d' ->
  orders d' = orders d /\ order_items d' = order_items d.
Proof.
  revert d. induction rows as [|[pid q] rest IH]; intros d; cbn [update_inventory_loop].
  - by intros [= <-].
  - unfold sql_add_quantity, sql_insert_inventory_log.
    destruct (products d !! pid) as [p|] eqn:Hp.
    + cbn zeta. case_decide; [|done]. cbn [products set_products InventoryLog.product_id].
      rewrite lookup_insert_eq. intros Hrest. apply IH in Hrest as [-> ->]. done.
    + cbn [InventoryLog.product_id]. rewrite Hp. done.
Qed.

Lemma sql_insert_order_tables (NEW : Order.t) (d d1 : Db) :
  sql_insert_order NEW d = Done d1 ->
  orders d1 = <[Order.id NEW := NEW]> (orders d) /\ order_items d1 = order_items d.
Proof.
  unfold sql_insert_order. case_decide; [done|].
  destruct (bool_decide _); [done|]. destruct (negb _); [done|].
  unfold update_inventory_on_order. intros Hloop.
  apply update_inventory_loop_tables in Hloop as [-> ->]. done.
Qed.

Local Open Scope Q_scope.

Lemma fold_cart_step_accumulators (items : list PricedItem.t) (a b : Q) :
  fold_left cart_step items (a, b)
  = (fold_left (fun subtotal item =>
                  subtotal + inject_Z (PricedItem.quantity item) * PricedItem.unit_price item)
               items a,
     fold_left (fun tax item =>
                  tax + calculateTax (inject_Z (PricedItem.quantity item)
                                      * PricedItem.unit_price item)
                                     (PricedItem.tax_rate item))
               items b).
Proof.
  revert a b. induction items as [|i rest IH]; intros a b; [reflexivity|].
  cbn [fold_left]. unfold cart_step at 2. cbn [fst snd]. apply IH.
Qed.

Lemma calculateCartTotals_accumulators (items : list PricedItem.t) :
  calculateCartTotals items
  = {| subtotal := formatDecimal (raw_subtotal items);
       tax := formatDecimal (raw_tax items);
       total := formatDecimal (raw_subtotal items + raw_tax items) |}.
Proof.
  unfold calculateCartTotals. rewrite fold_cart_step_accumulators. reflexivity.
Qed.

(** C5 (as amended).  The order a successful checkout creates carries the
    totals of calculateCartTotals on the cart.  Going through the lines in
    cart order, one accumulator adds up quantity x unit_price, not rounded,
    and another the line's tax, the calculateTax of that unrounded product
    (rounded to 2 decimals per line); the order's subtotal, tax_total and
    total are formatDecimal of the first, of the second and of their sum,
    each rounded on its own.  No line total is rounded or summed. *)
Theorem created_order_totals (cashierId : string) (items : list CartItem.t)
    (paymentMethod : PaymentMethod) (notes : option string) (w w' : World)
    (r : ApiResponse Order.t) :
  createOrder cashierId items paymentMethod notes w = (Val r, w') ->
  success r = true ->
  exists order,
    data r = Some order
    /\ orders (db w') !! Order.id order = Some order
    /\ Order.subtotal order = formatDecimal (raw_subtotal (map priced items))
    /\ Order.tax_total order = formatDecimal (raw_tax (map priced items))
    /\ Order.total order
       = formatDecimal (raw_subtotal (map priced items) + raw_tax (map priced items)).
Proof.
  intros Hrun Hs.
  apply createOrder_success in Hrun as (u & us & d1 & _ & _ & _ & -> & Hins & Hdb); [|done].
  apply sql_insert_order_tables in Hins as [Ho _].
  eexists. split; [reflexivity|]. split.
  { rewrite Hdb. cbn [orders set_order_items]. rewrite Ho. apply lookup_insert_eq. }
  cbn [with_id order_row Order.subtotal Order.tax_total Order.total].
  rewrite calculateCartTotals_accumulators. repeat split.
Qed.

(** C6 (as amended).  The unit_price and tax_rate a successful checkout
    writes into the order lines, and the amounts it totals, are those of the
    product copy inside each cart line ([item.product]); the live product
    row is read for its quantity_on_hand only. *)
Theorem order_lines_use_cart_snapshot (cashierId : string) (items : list CartItem.t)
    (paymentMethod : PaymentMethod) (notes : option string) (w w' : World)
    (r : ApiResponse Order.t) :
  createOrder cashierId items paymentMethod notes w = (Val r, w') ->
  success r = true ->
  exists order lines,
    data r = Some order
    /\ order_items (db w') = order_items (db w) ++ lines
    /\ map OrderItem.product_id lines = map CartItem.product_id items
    /\ map OrderItem.quantity lines = map CartItem.quantity items
    /\ map OrderItem.unit_price lines
       = map (fun i => Product.price (CartItem.product i)) items
    /\ map OrderItem.tax_rate lines
       = map (fun i => Product.tax_rate (CartItem.product i)) items
    /\ Order.total order
       = total (calculateCartTotals
                  (map (fun i =>
                          {| PricedItem.quantity := CartItem.quantity i;
                             PricedItem.unit_price := Product.price (CartItem.product i);
                             PricedItem.tax_rate := Product.tax_rate (CartItem.product i) |})
                       items))
    /\ Forall (fun i => line_ok (db w) i = true) items.
Proof.
  intros Hrun Hs.
  apply createOrder_success in Hrun as (u & us & d1 & _ & Hp & _ & -> & Hins & Hdb); [|done].
  apply sql_insert_order_tables in Hins as [_ Hi].
  eexists. eexists. split; [reflexivity|]. split.
  { rewrite Hdb. cbn [order_items set_order_items]. rewrite Hi. reflexivity. }
  rewrite <- !list_fmap_compose.
  repeat split. apply Hp.
Qed.

(** C10 (as amended).  The line_total createOrder stores is the total of
    calculateCartTotals on the one-element list: formatDecimal of the
    unrounded subtotal quantity x unit_price plus the calculateTax of that
    unrounded subtotal.  calculateLineTotal rounds the subtotal first, and
    takes the tax of, and adds, the rounded subtotal.  The two give the same
    subtotal; they give the same tax and the same total when rounding the
    subtotal changes nothing. *)
Theorem line_total_is_calculateLineTotal (order : Order.t) (item : CartItem.t) :
  let p := Product.price (CartItem.product item) in
  let q := CartItem.quantity item in
  let t := Product.tax_rate (CartItem.product item) in
  OrderItem.line_total (lineItem order item)
  = formatDecimal ((0 + inject_Z q * p) + (0 + calculateTax (inject_Z q * p) t))
  /\ total (calculateLineTotal p q t)
     = formatDecimal (formatDecimal (p * inject_Z q)
                      + calculateTax (formatDecimal (p * inject_Z q)) t)
  /\ subtotal (calculateCartTotals [priced item]) == subtotal (calculateLineTotal p q t)
  /\ (formatDecimal (p * inject_Z q) == inject_Z q * p ->
      Totals_eq (calculateCartTotals [priced item]) (calculateLineTotal p q t)
      /\ OrderItem.line_total (lineItem order item) == total (calculateLineTotal p q t)).
Proof.
  cbv zeta. split; [reflexivity|]. split; [reflexivity|].
  unfold Totals_eq.
  cbn [lineItem OrderItem.line_total calculateLineTotal calculateCartTotals total subtotal tax
       fold_left cart_step fst snd priced PricedItem.quantity PricedItem.unit_price
       PricedItem.tax_rate].
  assert (Hsub : formatDecimal (0 + inject_Z (CartItem.quantity item)
                                    * Product.price (CartItem.product item))
                 == formatDecimal (Product.price (CartItem.product item)
                                   * inject_Z (CartItem.quantity item))).
  { apply formatDecimal_proper. ring. }
  split; [exact Hsub|]. intros H.
  assert (Htotal : formatDecimal
                     (0 + inject_Z (CartItem.quantity item)
                          * Product.price (CartItem.product item)
                      + (0 + calculateTax (inject_Z (CartItem.quantity item)
                                           * Product.price (CartItem.product item))
                                          (Product.tax_rate (CartItem.product item))))
                   == formatDecimal
                        (formatDecimal (Product.price (CartItem.product item)
                                        * inject_Z (CartItem.quantity item))
                         + calculateTax
                             (formatDecimal (Product.price (CartItem.product item)
                                             * inject_Z (CartItem.quantity item)))
                             (Product.tax_rate (CartItem.product item)))).
  { apply formatDecimal_proper. rewrite H. ring. }
  split; [|exact Htotal]. split; [exact Hsub|]. split; [|exact Htotal].
  rewrite H, Qplus_0_l. apply formatDecimal_id, formatDecimal_whole_cents.
Qed.

(* ====================================================================== *)
(** * The examples of the specification, and where the code departs       *)
(* ====================================================================== *)

Local Open Scope Z_scope.

(** The checkout of the specification's first example: two coffees. *)
Example checkout_two_coffees :
  let sale := createOrder "u1" (coffees 2 (coffee 5)) cash None (shop_world 5 []) in
  returned sale
  = Some (created (with_id "o1" (order_row "u1" (coffees 2 (coffee 5)) cash None
                                    "ORD-20261102-093000-4821"))
                  "ORD-20261102-093000-4821")
  /\ match returned sale ≫= data with
     | Some order =>
         (Order.subtotal order == 2598 # 100)%Q /\ (Order.tax_total order == 260 # 100)%Q
         /\ (Order.total order == 2858 # 100)%Q
     | None => False
     end.
Proof. split; [vm_compute; reflexivity|]. vm_compute. repeat split. Qed.


(** C3.  A checkout of two coffees followed by the cancellation of the
    order, the service running every request: both succeed, yet the checkout
    booked no sale (the trigger ran when the order had no lines), so the
    ledger entries that refer to the order sum to +2, not to zero, and the
    stock ends at 7, above the 5 on hand before the sale. *)
Theorem cancel_after_checkout_does_not_net_to_zero :
  let sale := createOrder "u1" (coffees 2 (coffee 5)) cash None (shop_world 5 []) in
  let cancel := cancelOrder "o1" "admin" (world_after sale) in
  success <$> returned sale = Some true
  /\ returned cancel
     = Some (cancelled_response
               (Some (Order.set_status cancelled
                        (with_id "o1" (order_row "u1" (coffees 2 (coffee 5)) cash None
                                         "ORD-20261102-093000-4821")))))
  /\ stock "p1" (shop 5) = Some 5
  /\ stock "p1" (db (world_after sale)) = Some 5
  /\ inventory_logs (db (world_after sale)) = []
  /\ inventory_logs (db (world_after cancel))
     = [return_entry "o1" "admin"
          (lineItem (with_id "o1" (order_row "u1" (coffees 2 (coffee 5)) cash None ""))
                    {| CartItem.product_id := "p1"; CartItem.quantity := 2;
                       CartItem.product := coffee 5 |})]
  /\ ledger_sum "o1" (db (world_after cancel)) = 2
  /\ stock "p1" (db (world_after cancel)) = Some 7.
Proof. repeat split; vm_compute; reflexivity. Qed.

(** C4.  Three coffees on hand and two checkouts of three coffees each.
    Run one after the other, both succeed, and the stock is still 3.  Run
    interleaved (both validation loops first, then both commits), both
    succeed as well. *)
Theorem both_checkouts_of_the_last_stock_succeed :
  let cart := coffees 3 (coffee 3) in
  let first := createOrder "u1" cart cash None (shop_world 3 []) in
  let second := createOrder "u2" cart card None (world_after first) in
  let check1 := validate_items cart (shop_world 3 []) in
  let check2 := validate_items cart (world_after check1) in
  let commit1 := try_catch (commit_order "u1" cart cash None) (world_after check2) in
  let commit2 := try_catch (commit_order "u2" cart card None) (world_after commit1) in
  stock "p1" (shop 3) = Some 3
  /\ success <$> returned first = Some true
  /\ success <$> returned second = Some true
  /\ map OrderItem.quantity (order_items (db (world_after second))) = [3; 3]
  /\ stock "p1" (db (world_after second)) = Some 3
  /\ inventory_logs (db (world_after second)) = []
  /\ returned check1 = Some None /\ returned check2 = Some None
  /\ success <$> returned commit1 = Some true
  /\ success <$> returned commit2 = Some true
  /\ stock "p1" (db (world_after commit2)) = Some 3.
Proof. repeat split; vm_compute; reflexivity. Qed.

(** C9.  The order "o1" is completed; the service answers the call of
    [increment] and the insert of the return entry with errors.  cancelOrder
    reports success, "Order cancelled and inventory restored", with no
    error; the stock is not restored and no return entry is written. *)
Theorem cancelOrder_swallows_restore_errors :
  let run := cancelOrder "o1" "admin"
               (shop_with_order completed
                  [Ok; Error "function increment does not exist"; Error "permission denied"]) in
  returned run = Some (cancelled_response (Some (order_o1 cancelled)))
  /\ (returned run ≫= error) = None
  /\ stock "p1" (db (world_after run)) = Some 3
  /\ inventory_logs (db (world_after run)) = [sale_o1].
Proof. repeat split; vm_compute; reflexivity. Qed.

(** C5, the claim as stated fails.  Three lines of one coffee each, sent
    with a unit price of 0.004 and a tax rate of 100%: the order is created
    with total 0.01, while the sum of the rounded line totals is 0.03. *)
Lemma total_differs_for_fractions_of_a_cent :
  let cart := coffees 1 (coffee_as_sent (4 # 1000) 100)
              ++ coffees 1 (coffee_as_sent (4 # 1000) 100)
              ++ coffees 1 (coffee_as_sent (4 # 1000) 100) in
  let sale := createOrder "u1" cart cash None (shop_world 5 []) in
  match returned sale ≫= data with
  | Some order =>
      success <$> returned sale = Some true
      /\ (Order.total order == 1 # 100)%Q
      /\ (formatDecimal (sum_rounded_lines (map priced cart)) == 3 # 100)%Q
      /\ ~ (Order.total order == formatDecimal (sum_rounded_lines (map priced cart)))%Q
  | None => False
  end.
Proof. vm_compute. repeat split; try reflexivity; intros H; discriminate H. Qed.

(** C6, the claim as stated fails.  The catalogue has the coffee at 12.99
    with 10% tax; the cart line carries it at 1.00 with no tax.  The order
    line is written with unit price 1.00 and tax rate 0, and the order
    totals 2.00. *)
Lemma checkout_trusts_the_price_in_the_cart :
  let sale := createOrder "u1" (coffees 2 (coffee_as_sent 1 0)) cash None (shop_world 5 []) in
  Product.price <$> products (shop 5) !! "p1" = Some (1299 # 100)%Q
  /\ Product.tax_rate <$> products (shop 5) !! "p1" = Some 10%Q
  /\ success <$> returned sale = Some true
  /\ map OrderItem.unit_price (order_items (db (world_after sale))) = [1%Q]
  /\ map OrderItem.tax_rate (order_items (db (world_after sale))) = [0%Q]
  /\ match returned sale ≫= data with
     | Some order => (Order.total order == 2)%Q /\ ~ (Order.total order == 2858 # 100)%Q
     | None => False
     end.
Proof.
  repeat split; try (vm_compute; reflexivity).
  vm_compute. intros H. discriminate H.
Qed.

(** C10, the claim as stated fails.  One item at a unit price of 0.014
    with 40% tax: createOrder stores the line total 0.02 (tax 0.01 on the
    unrounded 0.014), calculateLineTotal gives 0.01 (no tax on the rounded
    0.01). *)
Lemma line_total_differs_for_fractions_of_a_cent :
  let item := {| CartItem.product_id := "p1"; CartItem.quantity := 1;
                 CartItem.product := coffee_as_sent (14 # 1000) 40 |} in
  let stored := OrderItem.line_total (lineItem (order_o1 completed) item) in
  let line := calculateLineTotal (14 # 1000) 1 40 in
  (stored == 2 # 100)%Q
  /\ (tax (calculateCartTotals [priced item]) == 1 # 100)%Q
  /\ (tax line == 0)%Q
  /\ (total line == 1 # 100)%Q
  /\ ~ (stored == total line)%Q.
Proof. vm_compute. repeat split; try reflexivity; intros H; discriminate H. Qed.

(* ====================================================================== *)
(** * A checkout that fails after the order header is written             *)
(* ====================================================================== *)

Local Open Scope Z_scope.




(* ====================================================================== *)
(** * What checkout and updateStock do to the stock                        *)
(* ====================================================================== *)



Lemma set_quantity_on_hand_same (p : Product.t) :
  Product.set_quantity_on_hand (Product.quantity_on_hand p) p = p.
Proof. by destruct p. Qed.

(** Whatever the replies of the service and whatever [quantityChange],
    updateStock leaves every quantity_on_hand as it was. *)
Lemma updateStock_keeps_stock (productId : string) (quantityChange : Z)
    (transactionType : TransactionType) (userId : string) (notes : option string)
    (w w' : World) (o : Outcome (ApiResponse (option Product.t * option InventoryLog.t))) :
  updateStock productId quantityChange transactionType userId notes w = (o, w') ->
  products (db w') = products (db w).
Proof.
  unfold updateStock, try_catch, bind at 1, createServerSupabaseClient, ret.
  unfold bind at 1, update_quantity_from_builder. rewrite statement_run.
  destruct (next_reply w); [|by cbn; intros [= _ <-]..].
  destruct (products (db w) !! productId) as [p|] eqn:Hp; [|by cbn; intros [= _ <-]].
  rewrite set_quantity_on_hand_same, (insert_id _ _ _ Hp).
  cbn [pg_ok pg_error]. unfold bind, insert_inventory_log. rewrite statement_run.
  case_reply;
    [|by cbn; intros [= _ <-]..].
  unfold sql_insert_inventory_log. cbn [InventoryLog.product_id db set_db set_products products].
  rewrite Hp. by cbn; intros [= _ <-].
Qed.

(** C8.  Whatever the service answers, updateStock leaves every
    quantity_on_hand as it was: the quantity change it is given reaches the
    ledger entry only, never the product.  When the service refuses the
    first request, as it does for the payload the code sends (a query
    builder where the column wants an integer), updateStock returns the
    service's error and changes no table. *)
Theorem updateStock_does_not_apply_the_change (productId : string) (quantityChange : Z)
    (transactionType : TransactionType) (userId : string) (notes : option string)
    (w : World) :
  let run := updateStock productId quantityChange transactionType userId notes w in
  products (db (world_after run)) = products (db w)
  /\ stock productId (db (world_after run)) = stock productId (db w)
  /\ (forall m, next_reply w = Error m ->
        returned run = Some (failure m) /\ db (world_after run) = db w).
Proof.
  cbv zeta. unfold returned, world_after.
  destruct (updateStock productId quantityChange transactionType userId notes w)
    as [o w'] eqn:Hrun.
  cbn [fst snd]. pose proof (updateStock_keeps_stock _ _ _ _ _ _ _ _ Hrun) as Hp.
  split; [exact Hp|]. split; [unfold stock; by rewrite Hp|].
  intros m Hm. revert Hrun.
  unfold updateStock, try_catch, bind at 1, createServerSupabaseClient, ret.
  unfold bind at 1, update_quantity_from_builder. rewrite statement_run, Hm.
  cbn. intros [= <- <-]. split; reflexivity.
Qed.

(* ====================================================================== *)
(** * Computations that do not see a difference between two stores       *)
(* ====================================================================== *)

Section SimulationLemmas.
Variable lift : Db -> Db.

Lemma blind_ret {A} (a : A) : blind lift (ret a).
Proof. intros w. reflexivity. Qed.

Lemma blind_bind {A B} (m : M A) (k : A -> M B) :
  blind lift m -> (forall a, blind lift (k a)) -> blind lift (bind m k).
Proof.
  intros Hm Hk w. unfold bind. rewrite Hm.
  destruct (m w) as [[a|e] w1]; cbn [fst snd]; [apply Hk|reflexivity].
Qed.

Lemma blind_statement {A} (f : Db -> Sql (Db * A)) :
  blind_sql lift f -> blind lift (statement f).
Proof.
  intros Hf w. rewrite !statement_run.
  change (next_reply (lift_world lift w)) with (next_reply w).
  destruct (next_reply w); [|reflexivity..].
  change (db (lift_world lift w)) with (lift (db w)). rewrite Hf.
  destruct (f (db w)) as [[d' a]|m]; reflexivity.
Qed.

Lemma blind_try_catch {T} (body : M (ApiResponse T)) :
  blind lift body -> blind lift (try_catch body).
Proof.
  intros Hb w. unfold try_catch. rewrite Hb.
  destruct (body w) as [[r|e] w1]; reflexivity.
Qed.

Lemma blind_generateOrderNumber : blind lift generateOrderNumber.
Proof. intros w. rewrite !generateOrderNumber_run. reflexivity. Qed.

Lemma blind_insert_order (row : Order.t) :
  (forall NEW d, sql_insert_order NEW (lift d)
                 = match sql_insert_order NEW d with
                   | Done d' => Done (lift d')
                   | Raised m => Raised m
                   end) ->
  blind lift (insert_order row).
Proof.
  intros Hf w. rewrite !insert_order_run.
  change (next_reply (lift_world lift w)) with (next_reply w).
  change (uuids (lift_world lift w)) with (uuids w).
  destruct (next_reply w); [|reflexivity..].
  destruct (uuids w) as [|u us]; [reflexivity|].
  change (db (lift_world lift w)) with (lift (db w)). rewrite Hf.
  destruct (sql_insert_order _ (db w)); reflexivity.
Qed.

End SimulationLemmas.

(* ====================================================================== *)
(** * cancelOrder and the status of the order                             *)
(* ====================================================================== *)

Lemma stock_is_Some (x : string) (d d' : Db) (f : Z -> Z) :
  stock x d' = f <$> stock x d ->
  is_Some (products d' !! x) <-> is_Some (products d !! x).
Proof.
  unfold stock. intros H.
  rewrite <- (fmap_is_Some Product.quantity_on_hand (products d' !! x)).
  rewrite H, !fmap_is_Some. reflexivity.
Qed.

Section Status.
Variables (s : OrderStatus) (oid : string).





End Status.

Section StatusBlind.
Variables (s : OrderStatus) (oid : string).







End StatusBlind.


(* ====================================================================== *)
(** * The statements above at the shop of the examples                     *)
(* ====================================================================== *)

Lemma createOrder_rejects_before_writing_witness :
  exists w',
    createOrder "u1" (coffees 5 (coffee 3)) cash None (shop_world 3 [])
    = (Val (failure "Insufficient stock for product: Coffee"), w')
    /\ db w' = shop 3
    /\ (coffees 5 (coffee 3) = [] -> w' = shop_world 3 []).
Proof.
  apply (createOrder_rejects_before_writing "u1" (coffees 5 (coffee 3)) cash None
           (shop_world 3 []) "Insufficient stock for product: Coffee").
  refine (InsufficientStock (shop_world 3 []) []
            {| CartItem.product_id := "p1"; CartItem.quantity := 5;
               CartItem.product := coffee 3 |} [] (coffee 3) _ _ _ _).
  - split; constructor.
  - reflexivity.
  - reflexivity.
  - cbn. lia.
Defined.

Lemma created_order_totals_witness :
  let cart := coffees 2 (coffee 5) in
  let sale := createOrder "u1" cart cash None (shop_world 5 []) in
  exists order,
    data (created two_coffees_order "ORD-20261102-093000-4821") = Some order
    /\ orders (db (world_after sale)) !! Order.id order = Some order
    /\ Order.subtotal order = formatDecimal (raw_subtotal (map priced cart))
    /\ Order.tax_total order = formatDecimal (raw_tax (map priced cart))
    /\ Order.total order
       = formatDecimal (raw_subtotal (map priced cart) + raw_tax (map priced cart)).
Proof.
  apply (created_order_totals "u1" (coffees 2 (coffee 5)) cash None (shop_world 5 [])).
  - vm_compute. reflexivity.
  - reflexivity.
Defined.

Lemma order_lines_use_cart_snapshot_witness :
  let cart := coffees 2 (coffee_as_sent 1 0) in
  let sale := createOrder "u1" cart cash None (shop_world 5 []) in
  exists order lines,
    (returned sale ≫= data) = Some order
    /\ order_items (db (world_after sale)) = order_items (shop 5) ++ lines
    /\ map OrderItem.product_id lines = map CartItem.product_id cart
    /\ map OrderItem.quantity lines = map CartItem.quantity cart
    /\ map OrderItem.unit_price lines = map (fun i => Product.price (CartItem.product i)) cart
    /\ map OrderItem.tax_rate lines = map (fun i => Product.tax_rate (CartItem.product i)) cart
    /\ Order.total order
       = total (calculateCartTotals
                  (map (fun i =>
                          {| PricedItem.quantity := CartItem.quantity i;
                             PricedItem.unit_price := Product.price (CartItem.product i);
                             PricedItem.tax_rate := Product.tax_rate (CartItem.product i) |})
                       cart))
    /\ Forall (fun i => line_ok (shop 5) i = true) cart.
Proof.
  apply (order_lines_use_cart_snapshot "u1" (coffees 2 (coffee_as_sent 1 0)) cash None
           (shop_world 5 [])
           (world_after (createOrder "u1" (coffees 2 (coffee_as_sent 1 0)) cash None
                           (shop_world 5 [])))
           (created (with_id "o1" (order_row "u1" (coffees 2 (coffee_as_sent 1 0)) cash None
                                     "ORD-20261102-093000-4821"))
                    "ORD-20261102-093000-4821")).
  - vm_compute. reflexivity.
  - reflexivity.
Defined.

Lemma line_total_is_calculateLineTotal_witness :
  let item := {| CartItem.product_id := "p1"; CartItem.quantity := 2;
                 CartItem.product := coffee 5 |} in
  (OrderItem.line_total (lineItem two_coffees_order item)
   == total (calculateLineTotal (1299 # 100) 2 10))%Q.
Proof.
  apply (line_total_is_calculateLineTotal two_coffees_order
           {| CartItem.product_id := "p1"; CartItem.quantity := 2;
              CartItem.product := coffee 5 |}).
  vm_compute. reflexivity.
Defined.

(* ====================================================================== *)
(** * Further properties of the calculators                                *)
(* ====================================================================== *)

Local Open Scope Q_scope.

Lemma formatDecimal_le (x y : Q) : x <= y -> formatDecimal x <= formatDecimal y.
Proof.
  intros H. rewrite !formatDecimal_unfold. unfold Math_round.
  apply Qmult_le_compat_r; [|discriminate].
  rewrite <- Zle_Qle. apply Qfloor_resp_le. lra.
Qed.

(** X2.  formatDecimal keeps the order of amounts, and rounding twice is
    rounding once. *)
Theorem formatDecimal_monotone_idempotent (x y : Q) :
  (x <= y -> formatDecimal x <= formatDecimal y)
  /\ formatDecimal (formatDecimal x) == formatDecimal x.
Proof.
  split.
  - apply formatDecimal_le.
  - apply formatDecimal_id, formatDecimal_whole_cents.
Qed.

(* ====================================================================== *)
(** * truncateString and generateOrderNumber                               *)
(* ====================================================================== *)

Local Open Scope Z_scope.

Lemma string_length_app (a b : string) :
  String.length (a +:+ b) = (String.length a + String.length b)%nat.
Proof.
  induction a as [|c a IH]; [reflexivity|].
  change (String c a +:+ b) with (String c (a +:+ b)). cbn. f_equal. exact IH.
Qed.

Lemma length_substring_0 (n : nat) (s : string) :
  String.length (String.substring 0 n s) = Nat.min n (String.length s).
Proof.
  revert s. induction n as [|n IH]; intros [|c s]; cbn; try reflexivity.
  by rewrite IH.
Qed.

Lemma length_substring_le (n m : nat) (s : string) :
  (String.length (String.substring n m s) <= m)%nat.
Proof.
  revert s. induction n as [|n IH]; intros s.
  - rewrite length_substring_0. lia.
  - destruct s as [|c s]; cbn; [lia|]. apply IH.
Qed.

Lemma substring_0_prefix (n : nat) (s : string) :
  String.prefix (String.substring 0 n s) s = true.
Proof.
  revert s. induction n as [|n IH]; intros [|c s]; cbn; try reflexivity.
  destruct (Ascii.ascii_dec c c); [apply IH|done].
Qed.

(** X5.  With a limit of at least 3, truncateString never returns more
    than [maxLength] characters: a string that fits is returned as it is, a
    longer one is cut to exactly [maxLength] characters, the last three
    being "..." after a prefix of the string. *)
Theorem truncateString_fits (str : string) (maxLength : Z) :
  3 <= maxLength ->
  Z.of_nat (String.length (truncateString str maxLength)) <= maxLength
  /\ (Z.of_nat (String.length str) <= maxLength -> truncateString str maxLength = str)
  /\ (maxLength < Z.of_nat (String.length str) ->
      Z.of_nat (String.length (truncateString str maxLength)) = maxLength
      /\ exists kept, truncateString str maxLength = kept +:+ "..."
                      /\ String.prefix kept str = true).
Proof.
  intros Hm. unfold truncateString, substring_to.
  case_decide as Hlen; (split; [|split]); try lia; try done.
  - rewrite string_length_app, length_substring_0. cbn. lia.
  - intros _. split.
    + rewrite string_length_app, length_substring_0. cbn. lia.
    + eexists. split; [reflexivity|]. apply substring_0_prefix.
Qed.

(** X6.  With a limit below 3, truncateString returns "..." for every
    string longer than the limit: three characters, more than the limit. *)
Theorem truncateString_below_three (str : string) (maxLength : Z) :
  maxLength < 3 ->
  maxLength < Z.of_nat (String.length str) ->
  truncateString str maxLength = "..."
  /\ maxLength < Z.of_nat (String.length (truncateString str maxLength)).
Proof.
  intros Hm Hlen. unfold truncateString, substring_to.
  case_decide; [lia|].
  replace (Z.to_nat (maxLength - 3)) with 0%nat by lia.
  assert (E : String.substring 0 0 str = "") by (by destruct str).
  rewrite E. split; [reflexivity|].
  change (String.length ("" +:+ "...")) with 3%nat. lia.
Qed.

Lemma length_remove_char (c : ascii) (s : string) :
  (String.length (remove_char c s) + count_char c s = String.length s)%nat.
Proof.
  induction s as [|a s IH]; cbn; [reflexivity|].
  case_decide; cbn; lia.
Qed.

Lemma length_padEnd (n : nat) (c : ascii) (s : string) :
  String.length (padEnd n c s) = Nat.max n (String.length s).
Proof.
  revert s. induction n as [|n IH]; intros s; cbn; [reflexivity|].
  destruct s as [|a s]; cbn; rewrite IH; cbn; lia.
Qed.

(** X7.  Every order number is "ORD-", the date without its dashes, "-",
    the time without its colons, "-", and a suffix of exactly four
    characters (the digits after "0." of the random number, filled up with
    zeros at the end); for a date of the form YYYY-MM-DD and a time of the
    form HH:MM:SS it has 24 characters. *)
Theorem order_number_format (now : ClockSample) :
  order_number_of now
  = "ORD-" +:+ remove_char "-"%char (iso_date now) +:+ "-"
    +:+ remove_char ":"%char (time_string now) +:+ "-" +:+ random_suffix now
  /\ String.length (random_suffix now) = 4%nat
  /\ (String.length (iso_date now) = 10%nat -> count_char "-"%char (iso_date now) = 2%nat ->
      String.length (time_string now) = 8%nat -> count_char ":"%char (time_string now) = 2%nat ->
      String.length (order_number_of now) = 24%nat).
Proof.
  split; [reflexivity|]. split.
  - unfold random_suffix. rewrite length_padEnd.
    pose proof (length_substring_le 2 4 (random_string now)). lia.
  - intros Hd Hdc Ht Htc. unfold order_number_of.
    rewrite !string_length_app, length_padEnd.
    pose proof (length_substring_le 2 4 (random_string now)).
    pose proof (length_remove_char "-"%char (iso_date now)).
    pose proof (length_remove_char ":"%char (time_string now)).
    cbn [String.length]. lia.
Qed.

Lemma truncateString_fits_witness :
  Z.of_nat (String.length (truncateString "Coffee - Regular" 10)) <= 10
  /\ (Z.of_nat (String.length "Coffee - Regular") <= 10 ->
      truncateString "Coffee - Regular" 10 = "Coffee - Regular")
  /\ (10 < Z.of_nat (String.length "Coffee - Regular") ->
      Z.of_nat (String.length (truncateString "Coffee - Regular" 10)) = 10
      /\ exists kept, truncateString "Coffee - Regular" 10 = kept +:+ "..."
                      /\ String.prefix kept "Coffee - Regular" = true).
Proof. apply (truncateString_fits "Coffee - Regular" 10). lia. Defined.

Lemma truncateString_below_three_witness :
  truncateString "Coffee" 2 = "..."
  /\ 2 < Z.of_nat (String.length (truncateString "Coffee" 2)).
Proof. apply (truncateString_below_three "Coffee" 2); [lia | cbn; lia]. Defined.

Lemma order_number_format_witness : String.length (order_number_of morning) = 24%nat.
Proof. apply (order_number_format morning); reflexivity. Defined.

(* ====================================================================== *)
(** * uniqueBy                                                             *)
(* ====================================================================== *)

Section UniqueBy.
Context {A K : Type} (strict_equal : K -> K -> bool) (key : A -> K).
Hypothesis strict_equal_sym : forall a b, strict_equal a b = strict_equal b a.
Hypothesis strict_equal_trans :
  forall a b c, strict_equal a b = true -> strict_equal b c = true -> strict_equal a c = true.

Lemma findIndex_lt (p : A -> bool) (l : list A) (i : nat) :
  findIndex p l = Some i -> (i < length l)%nat.
Proof.
  revert i. induction l as [|x l IH]; intros i; cbn; [done|].
  destruct (p x); [intros [= <-]; lia|].
  destruct (findIndex p l) as [j|]; cbn; [|done].
  intros [= <-]. specialize (IH j eq_refl). lia.
Qed.

Lemma findIndex_app (p : A -> bool) (pre l : list A) :
  findIndex p (pre ++ l)
  = match findIndex p pre with
    | Some i => Some i
    | None => (fun j => (length pre + j)%nat) <$> findIndex p l
    end.
Proof.
  induction pre as [|x pre IH]; cbn.
  - by destruct (findIndex p l).
  - destruct (p x); [done|]. rewrite IH.
    destruct (findIndex p pre); [done|]. by destruct (findIndex p l).
Qed.

Lemma findIndex_None (k : K) (l : list A) :
  findIndex (fun t => strict_equal (key t) k) l = None
  <-> forallb (fun k' => negb (strict_equal k' k)) (map key l) = true.
Proof.
  induction l as [|x l IH]; cbn; [done|].
  destruct (strict_equal (key x) k); cbn; [split; discriminate|].
  rewrite <- IH. destruct (findIndex _ l); cbn; split; (done || discriminate).
Qed.

Lemma uniqueBy_from (array pre suf : list A) :
  array = pre ++ suf ->
  filter_from
    (fun index item =>
       bool_decide (findIndex (fun t => strict_equal (key t) (key item)) array = Some index))
    (length pre) suf
  = keep_first strict_equal key (map key pre) suf.
Proof.
  revert pre. induction suf as [|x suf IH]; intros pre ->; [reflexivity|].
  cbn [filter_from keep_first]. rewrite findIndex_app.
  specialize (IH (pre ++ [x])). rewrite <- app_assoc in IH. cbn [app] in IH.
  rewrite length_app, map_app in IH. cbn [length map] in IH.
  replace (length pre + 1)%nat with (S (length pre)) in IH by lia.
  rewrite (IH eq_refl).
  destruct (findIndex (fun t => strict_equal (key t) (key x)) pre) as [i|] eqn:Hpre.
  - pose proof (findIndex_lt _ _ _ Hpre).
    rewrite bool_decide_eq_false_2 by (intros [= ->]; lia).
    destruct (forallb _ (map key pre)) eqn:Hall; [|reflexivity].
    apply findIndex_None in Hall. congruence.
  - apply findIndex_None in Hpre. rewrite Hpre. cbn [findIndex andb].
    destruct (strict_equal (key x) (key x)).
    + cbn [fmap option_fmap option_map]. rewrite Nat.add_0_r.
      by rewrite bool_decide_eq_true_2.
    + rewrite bool_decide_eq_false_2; [reflexivity|].
      destruct (findIndex _ suf); cbn; [intros [= H]; lia|discriminate].
Qed.

Lemma uniqueBy_keep_first (array : list A) :
  uniqueBy strict_equal key array = keep_first strict_equal key [] array.
Proof. apply (uniqueBy_from array [] array). reflexivity. Qed.

Lemma keep_first_sublist (seen : list K) (l : list A) :
  keep_first strict_equal key seen l `sublist_of` l.
Proof.
  revert seen. induction l as [|x l IH]; intros seen; cbn; [constructor|].
  destruct (_ && _); [apply sublist_skip|apply sublist_cons]; apply IH.
Qed.

(** What is kept is strictly equal to itself and to nothing seen. *)
Lemma keep_first_kept (seen : list K) (l : list A) (y : A) :
  y ∈ keep_first strict_equal key seen l ->
  strict_equal (key y) (key y) = true
  /\ forall k, k ∈ seen -> strict_equal k (key y) = false.
Proof.
  revert seen. induction l as [|x l IH]; intros seen; cbn [keep_first].
  - by intros ?%elem_of_nil.
  - assert (Hrest : y ∈ keep_first strict_equal key (seen ++ [key x]) l ->
                    strict_equal (key y) (key y) = true
                    /\ forall k, k ∈ seen -> strict_equal k (key y) = false).
    { intros Hy. destruct (IH _ Hy) as [H1 H2]. split; [exact H1|].
      intros k Hk. apply H2. apply elem_of_app. by left. }
    destruct (forallb _ seen && _) eqn:Hx; [|exact Hrest].
    intros [->|Hy]%elem_of_cons; [|by apply Hrest].
    apply andb_true_iff in Hx as [Hall Hself]. split; [exact Hself|].
    intros k Hk. rewrite forallb_forall in Hall.
    specialize (Hall k (proj1 (list_elem_of_In _ _) Hk)). by apply negb_true_iff in Hall.
Qed.

Lemma keep_first_different (seen : list K) (l : list A) :
  different_keys strict_equal key (keep_first strict_equal key seen l).
Proof.
  revert seen. induction l as [|x l IH]; intros seen; cbn [keep_first]; [exact I|].
  destruct (_ && _); [|apply IH]. split; [|apply IH].
  apply Forall_forall. intros y Hy. apply keep_first_kept in Hy as [_ Hy].
  apply Hy. apply elem_of_app. right. by apply list_elem_of_singleton.
Qed.

Lemma some_equal (p : K -> bool) (seen : list K) :
  forallb (fun k => negb (p k)) seen = false -> exists k, k ∈ seen /\ p k = true.
Proof.
  induction seen as [|k seen IH]; cbn; [discriminate|].
  destruct (p k) eqn:Hk; cbn.
  - intros _. exists k. split; [left|exact Hk].
  - intros H. destruct (IH H) as (k' & Hk' & Hp). exists k'. split; [by right|exact Hp].
Qed.

Lemma keep_first_keys (seen : list K) (l : list A) (x : A) :
  x ∈ l -> strict_equal (key x) (key x) = true ->
  (exists k, k ∈ seen /\ strict_equal k (key x) = true)
  \/ exists y, y ∈ keep_first strict_equal key seen l /\ strict_equal (key y) (key x) = true.
Proof.
  revert seen. induction l as [|z l IH]; intros seen; [by intros ?%elem_of_nil|].
  intros Hx Hself. cbn [keep_first].
  assert (Hz : strict_equal (key z) (key x) = true ->
    (exists k, k ∈ seen /\ strict_equal k (key x) = true)
    \/ exists y, y ∈ (if forallb (fun k => negb (strict_equal k (key z))) seen
                         && strict_equal (key z) (key z)
                      then z :: keep_first strict_equal key (seen ++ [key z]) l
                      else keep_first strict_equal key (seen ++ [key z]) l)
                 /\ strict_equal (key y) (key x) = true).
  { intros Hzx.
    assert (Hzz : strict_equal (key z) (key z) = true).
    { apply (strict_equal_trans _ (key x)); [exact Hzx|]. by rewrite strict_equal_sym. }
    rewrite Hzz, andb_true_r.
    destruct (forallb _ seen) eqn:Hall.
    - right. exists z. split; [left|exact Hzx].
    - left. apply some_equal in Hall as (k & Hk & Hkz). exists k. split; [exact Hk|].
      by apply (strict_equal_trans _ (key z)). }
  apply elem_of_cons in Hx as [->|Hx]; [by apply Hz|].
  destruct (IH (seen ++ [key z]) Hx Hself) as [(k & Hk & Hkx)|(y & Hy & Hyx)].
  - apply elem_of_app in Hk as [Hk|Hk]; [left; eauto|].
    apply list_elem_of_singleton in Hk as ->. by apply Hz.
  - right. exists y. split; [|exact Hyx]. destruct (_ && _); [by right|exact Hy].
Qed.

Lemma keep_first_find (seen : list K) (l : list A) (x : A) :
  x ∈ keep_first strict_equal key seen l ->
  List.find (fun t => strict_equal (key t) (key x)) l = Some x.
Proof.
  revert seen. induction l as [|y l IH]; intros seen; cbn [keep_first List.find].
  - by intros ?%elem_of_nil.
  - intros Hin.
    assert (Hrest : x ∈ keep_first strict_equal key (seen ++ [key y]) l ->
                    (if strict_equal (key y) (key x) then Some y
                     else List.find (fun t => strict_equal (key t) (key x)) l) = Some x).
    { intros Hx. pose proof (keep_first_kept _ _ _ Hx) as [_ Hk].
      rewrite (Hk (key y)) by (apply elem_of_app; right; by apply list_elem_of_singleton).
      by apply (IH (seen ++ [key y])). }
    destruct (forallb _ seen && _) eqn:Hy; [|by apply Hrest].
    apply elem_of_cons in Hin as [->|Hin]; [|by apply Hrest].
    apply andb_true_iff in Hy as [_ ->]. reflexivity.
Qed.

Lemma keep_first_id (seen : list K) (l : list A) :
  different_keys strict_equal key l ->
  Forall (fun x => strict_equal (key x) (key x) = true
                   /\ forall k, k ∈ seen -> strict_equal k (key x) = false) l ->
  keep_first strict_equal key seen l = l.
Proof.
  revert seen. induction l as [|x l IH]; intros seen Hd Hs; cbn [keep_first]; [reflexivity|].
  destruct Hd as [Hx Hd]. apply Forall_cons in Hs as [[Hself Hseen] Hs].
  assert (Hall : forallb (fun k => negb (strict_equal k (key x))) seen = true).
  { apply forallb_forall. intros k Hk. apply negb_true_iff, Hseen. by apply list_elem_of_In. }
  rewrite Hall, Hself. cbn [andb]. f_equal. apply IH; [exact Hd|].
  rewrite Forall_forall in Hs, Hx. apply Forall_forall. intros y Hy.
  destruct (Hs y Hy) as [H1 H2]. split; [exact H1|].
  intros k [Hk|Hk]%elem_of_app; [by apply H2|].
  apply list_elem_of_singleton in Hk as ->. by apply Hx.
Qed.

(** X8.  uniqueBy returns elements no two of which have strictly equal
    keys, each with a key strictly equal to itself (an element whose key is
    NaN is dropped); every key of the array that is strictly equal to itself
    is still there; and what it returns is the array with elements left out
    (the order is kept). *)
Theorem uniqueBy_keys (array : list A) :
  different_keys strict_equal key (uniqueBy strict_equal key array)
  /\ (forall y, y ∈ uniqueBy strict_equal key array -> strict_equal (key y) (key y) = true)
  /\ (forall x, x ∈ array -> strict_equal (key x) (key x) = true ->
        exists y, y ∈ uniqueBy strict_equal key array
                  /\ strict_equal (key y) (key x) = true)
  /\ uniqueBy strict_equal key array `sublist_of` array.
Proof.
  rewrite uniqueBy_keep_first. split; [apply keep_first_different|]. split; [|split].
  - intros y Hy. by apply keep_first_kept in Hy as [? _].
  - intros x Hx Hself.
    destruct (keep_first_keys [] array x Hx Hself) as [(k & Hk & _)|H]; [|exact H].
    by apply elem_of_nil in Hk.
  - apply keep_first_sublist.
Qed.

(** X9.  Of the elements whose keys are strictly equal uniqueBy keeps the
    first one of the array; applying it twice is applying it once; and an
    array in which no two keys are strictly equal and every key is strictly
    equal to itself comes back unchanged. *)
Theorem uniqueBy_first (array : list A) :
  (forall x, x ∈ uniqueBy strict_equal key array ->
             List.find (fun t => strict_equal (key t) (key x)) array = Some x)
  /\ uniqueBy strict_equal key (uniqueBy strict_equal key array)
     = uniqueBy strict_equal key array
  /\ (different_keys strict_equal key array ->
      Forall (fun x => strict_equal (key x) (key x) = true) array ->
      uniqueBy strict_equal key array = array).
Proof.
  split; [|split].
  - intros x. rewrite uniqueBy_keep_first. apply keep_first_find.
  - rewrite (uniqueBy_keep_first (uniqueBy strict_equal key array)), uniqueBy_keep_first.
    apply keep_first_id; [apply keep_first_different|].
    apply Forall_forall. intros x Hx. apply keep_first_kept in Hx as [Hx _].
    split; [exact Hx|]. by intros k ?%elem_of_nil.
  - intros Hd Hs. rewrite uniqueBy_keep_first. apply keep_first_id; [exact Hd|].
    eapply Forall_impl; [exact Hs|]. intros x Hx. split; [exact Hx|].
    by intros k ?%elem_of_nil.
Qed.

End UniqueBy.

Lemma strict_equal_number_sym (a b : option Z) :
  strict_equal_number a b = strict_equal_number b a.
Proof.
  destruct a as [x|], b as [y|]; cbn; try reflexivity.
  apply bool_decide_ext. split; congruence.
Qed.

Lemma strict_equal_number_trans (a b c : option Z) :
  strict_equal_number a b = true -> strict_equal_number b c = true ->
  strict_equal_number a c = true.
Proof.
  destruct a as [x|], b as [y|], c as [z|]; cbn; try discriminate.
  rewrite !bool_decide_eq_true. congruence.
Qed.

Lemma uniqueBy_keys_witness :
  let array := [Some 1; None; Some 2; Some 1; None] in
  let kept := uniqueBy strict_equal_number id array in
  different_keys strict_equal_number id kept
  /\ (forall y, y ∈ kept -> strict_equal_number (id y) (id y) = true)
  /\ (forall x, x ∈ array -> strict_equal_number (id x) (id x) = true ->
        exists y, y ∈ kept /\ strict_equal_number (id y) (id x) = true)
  /\ kept `sublist_of` array.
Proof.
  apply (uniqueBy_keys strict_equal_number id strict_equal_number_sym
           strict_equal_number_trans [Some 1; None; Some 2; Some 1; None]).
Defined.

Lemma uniqueBy_first_witness :
  uniqueBy strict_equal_number id [Some 1; Some 2] = [Some 1; Some 2].
Proof.
  apply (uniqueBy_first strict_equal_number id [Some 1; Some 2]).
  - repeat constructor.
  - repeat constructor.
Defined.

(* ====================================================================== *)
(** * The cart of the POS page                                             *)
(* ====================================================================== *)

Lemma find_line (pid : string) (cart : list CartItem.t) :
  is_Some (List.find (fun item => bool_decide (CartItem.product_id item = pid)) cart)
  <-> pid ∈ map CartItem.product_id cart.
Proof.
  induction cart as [|i cart IH]; cbn.
  - split; [by intros [? ?]|by intros ?%elem_of_nil].
  - case_bool_decide as E.
    + split; [intros _; rewrite <- E; left|eauto].
    + rewrite IH, elem_of_cons. intuition congruence.
Qed.

Lemma map_ids_update (pid : string) (f : CartItem.t -> CartItem.t) (cart : list CartItem.t) :
  (forall i, CartItem.product_id (f i) = CartItem.product_id i) ->
  map CartItem.product_id
      (map (fun item => if decide (CartItem.product_id item = pid) then f item else item) cart)
  = map CartItem.product_id cart.
Proof.
  intros Hf. induction cart as [|i cart IH]; cbn; [reflexivity|].
  rewrite IH. f_equal. case_decide; [apply Hf|reflexivity].
Qed.

Lemma remove_ids (pid : string) (cart : list CartItem.t) :
  map CartItem.product_id (handleRemoveFromCart pid cart)
  = filter (fun k => k <> pid) (map CartItem.product_id cart).
Proof.
  unfold handleRemoveFromCart. induction cart as [|i cart IH]; [reflexivity|].
  cbn [map]. rewrite !filter_cons.
  destruct (decide (CartItem.product_id i <> pid)); cbn [map]; by rewrite IH.
Qed.

Lemma remove_ok (pid : string) (cart : list CartItem.t) :
  cart_ok cart -> cart_ok (handleRemoveFromCart pid cart).
Proof.
  intros [Hnd Hq]. split.
  - rewrite remove_ids. by apply NoDup_filter.
  - unfold handleRemoveFromCart. apply Forall_forall. intros i Hi.
    apply list_elem_of_filter in Hi as [_ Hi]. rewrite Forall_forall in Hq. by apply Hq.
Qed.

Lemma update_ok (pid : string) (q : Z) (cart : list CartItem.t) :
  cart_ok cart -> cart_ok (handleUpdateQuantity pid q cart).
Proof.
  intros Hc. unfold handleUpdateQuantity. case_decide as Hq; [by apply remove_ok|].
  destruct Hc as [Hnd Hpos]. split.
  - by rewrite map_ids_update.
  - apply Forall_fmap. eapply Forall_impl; [exact Hpos|]. intros i Hi.
    unfold compose. cbv beta in *.
    case_decide; cbn [with_quantity CartItem.quantity]; lia.
Qed.

(** X10.  The handlers of the POS page keep a cart in shape: starting from
    a cart with at most one line per product and positive quantities, adding
    a product, removing one, setting a quantity (to any number) and the
    minus and plus buttons all give such a cart again. *)
Theorem cart_handlers_keep_cart_ok (product : Product.t) (productId : string) (quantity : Z)
    (item : CartItem.t) (prev : list CartItem.t) :
  cart_ok prev ->
  cart_ok (handleAddToCart product prev)
  /\ cart_ok (handleRemoveFromCart productId prev)
  /\ cart_ok (handleUpdateQuantity productId quantity prev)
  /\ cart_ok (minus_button item prev)
  /\ cart_ok (plus_button item prev).
Proof.
  intros Hc. split; [|split; [by apply remove_ok|repeat split; by apply update_ok]].
  unfold handleAddToCart.
  destruct (List.find _ prev) as [found_|] eqn:Hfind; destruct Hc as [Hnd Hpos].
  - split.
    + by rewrite map_ids_update.
    + apply Forall_fmap. eapply Forall_impl; [exact Hpos|]. intros i Hi.
      unfold compose. cbv beta in *.
      case_decide; cbn [with_quantity CartItem.quantity]; lia.
  - split.
    + rewrite map_app. cbn. apply NoDup_app. split; [exact Hnd|]. split; [|apply NoDup_singleton].
      intros k Hk ->%list_elem_of_singleton. apply find_line in Hk. rewrite Hfind in Hk.
      by destruct Hk.
    + apply Forall_app. split; [exact Hpos|]. repeat constructor.
Qed.

Lemma same_id_same_line (cart : list CartItem.t) (i j : CartItem.t) :
  NoDup (map CartItem.product_id cart) -> i ∈ cart -> j ∈ cart ->
  CartItem.product_id i = CartItem.product_id j -> i = j.
Proof.
  induction cart as [|c cart IH]; intros Hnd Hi Hj E; [by apply elem_of_nil in Hi|].
  cbn [map] in Hnd. apply NoDup_cons in Hnd as [Hc Hnd].
  apply elem_of_cons in Hi as [->|Hi]; apply elem_of_cons in Hj as [->|Hj].
  - done.
  - exfalso. apply Hc. rewrite E. by apply list_elem_of_fmap_2.
  - exfalso. apply Hc. rewrite <- E. by apply list_elem_of_fmap_2.
  - by apply IH.
Qed.

Lemma units_update (pid : string) (q : Z) (cart : list CartItem.t) (old : Z) :
  NoDup (map CartItem.product_id cart) ->
  (exists i, i ∈ cart /\ CartItem.product_id i = pid /\ CartItem.quantity i = old) ->
  units (map (fun item => if decide (CartItem.product_id item = pid)
                          then with_quantity q item else item) cart)
  = units cart - old + q.
Proof.
  induction cart as [|j cart IH]; intros Hnd (i & Hi & Hp & Hq); [by apply elem_of_nil in Hi|].
  cbn [map] in Hnd. apply NoDup_cons in Hnd as [Hj Hnd]. cbn [map units foldr].
  fold (units cart).
  match goal with |- foldr _ _ ?l + _ = _ => idtac | _ => idtac end.
  apply elem_of_cons in Hi as [->|Hi].
  - rewrite decide_True by done. cbn [with_quantity CartItem.quantity].
    assert (Hsame : map (fun item => if decide (CartItem.product_id item = pid)
                                     then with_quantity q item else item) cart = cart).
    { clear IH. induction cart as [|c cart IHc]; cbn; [reflexivity|].
      rewrite decide_False.
      - f_equal. apply IHc; [|by apply NoDup_cons in Hnd as [_ ?]].
        intros Hin. apply Hj. cbn. by right.
      - intros E. apply Hj. cbn. rewrite Hp, <- E. left. }
    rewrite Hsame. fold (units cart). lia.
  - rewrite decide_False.
    + change (foldr _ 0 ?l) with (units l). rewrite IH; [lia|exact Hnd|eauto].
    + intros E. apply Hj. rewrite E, <- Hp. by apply list_elem_of_fmap_2.
Qed.

(** X11.  handleAddToCart adds exactly one unit and the product is in the
    cart afterwards.  For a product that already has a line, the product
    copies held by the cart stay as they are (the copy of the first add is
    kept, whatever the product passed now); otherwise a line of quantity 1
    with the product passed is appended. *)
Theorem handleAddToCart_adds_one_unit (product : Product.t) (prev : list CartItem.t) :
  cart_ok prev ->
  units (handleAddToCart product prev) = units prev + 1
  /\ Product.id product ∈ map CartItem.product_id (handleAddToCart product prev)
  /\ (Product.id product ∈ map CartItem.product_id prev ->
      map CartItem.product (handleAddToCart product prev) = map CartItem.product prev)
  /\ (Product.id product ∉ map CartItem.product_id prev ->
      handleAddToCart product prev
      = prev ++ [ {| CartItem.product_id := Product.id product; CartItem.quantity := 1;
                     CartItem.product := product |} ]).
Proof.
  intros [Hnd Hpos]. unfold handleAddToCart.
  destruct (List.find _ prev) as [found_|] eqn:Hfind.
  - assert (Hin : Product.id product ∈ map CartItem.product_id prev)
      by (apply find_line; rewrite Hfind; eauto).
    pose proof Hin as Hin'. apply list_elem_of_fmap_1 in Hin' as (i & Hid & Hi).
    split; [|split; [|split]].
    + assert (Hrw : map (fun item => if decide (CartItem.product_id item = Product.id product)
                                     then with_quantity (CartItem.quantity item + 1) item
                                     else item) prev
                    = map (fun item => if decide (CartItem.product_id item = Product.id product)
                                       then with_quantity (CartItem.quantity i + 1) item
                                       else item) prev).
      { apply map_ext_in. intros j Hj. case_decide as E; [|reflexivity].
        f_equal. f_equal.
        apply list_elem_of_In in Hj.
        rewrite (same_id_same_line prev i j Hnd Hi Hj); [reflexivity|congruence]. }
      rewrite Hrw, (units_update _ _ _ (CartItem.quantity i)); [lia|exact Hnd|eauto].
    + by rewrite map_ids_update.
    + intros _. clear. induction prev as [|c prev IH]; cbn; [reflexivity|].
      rewrite IH. f_equal. by case_decide.
    + intros Hn. by destruct Hn.
  - assert (Hn : Product.id product ∉ map CartItem.product_id prev).
    { intros Hin. apply find_line in Hin. rewrite Hfind in Hin. by destruct Hin. }
    split; [|split; [|split]].
    + unfold units. rewrite foldr_app. cbn.
      generalize prev. clear. induction prev as [|c prev IH]; cbn; [lia|]. rewrite IH. lia.
    + rewrite map_app, elem_of_app. right. cbn. left.
    + intros Hin. by destruct Hn.
    + reflexivity.
Qed.

Lemma remove_absent (pid : string) (cart : list CartItem.t) :
  pid ∉ map CartItem.product_id cart -> handleRemoveFromCart pid cart = cart.
Proof.
  unfold handleRemoveFromCart. induction cart as [|i cart IH]; intros Hn; [reflexivity|].
  cbn [map] in Hn. rewrite not_elem_of_cons in Hn. destruct Hn as [Hne Hn].
  rewrite filter_cons, decide_True by congruence. f_equal. by apply IH.
Qed.

(** X12.  After handleRemoveFromCart no line of the product is left and the
    lines of other products are untouched; handleUpdateQuantity with a
    quantity of 0 or less is that removal; removing a product that was just
    added as a new line gives back the cart as it was. *)
Theorem handleRemoveFromCart_removes (product : Product.t) (productId : string) (quantity : Z)
    (prev : list CartItem.t) :
  (productId ∉ map CartItem.product_id (handleRemoveFromCart productId prev))
  /\ (forall i, CartItem.product_id i <> productId ->
                (i ∈ handleRemoveFromCart productId prev <-> i ∈ prev))
  /\ (quantity <= 0 ->
      handleUpdateQuantity productId quantity prev = handleRemoveFromCart productId prev)
  /\ (Product.id product ∉ map CartItem.product_id prev ->
      handleRemoveFromCart (Product.id product) (handleAddToCart product prev) = prev).
Proof.
  split; [|split; [|split]].
  - rewrite remove_ids. intros Hin. apply list_elem_of_filter in Hin as [Hne _]. done.
  - intros i Hne. unfold handleRemoveFromCart. rewrite list_elem_of_filter. tauto.
  - intros Hq. unfold handleUpdateQuantity. by rewrite decide_True.
  - intros Hn. unfold handleAddToCart.
    destruct (List.find _ prev) eqn:Hfind.
    + exfalso. apply Hn. apply find_line. rewrite Hfind. eauto.
    + unfold handleRemoveFromCart. rewrite filter_app, filter_cons. cbn [CartItem.product_id].
      rewrite decide_False by (intros E; by apply E). rewrite filter_nil, app_nil_r.
      by apply remove_absent.
Qed.

(** X13.  The minus button never removes a line and never brings a
    quantity below 1 (the line goes to max(1, quantity - 1)); the plus
    button adds one unit. *)
Theorem cart_buttons_keep_the_line (item : CartItem.t) (prev : list CartItem.t) :
  cart_ok prev -> item ∈ prev ->
  map CartItem.product_id (minus_button item prev) = map CartItem.product_id prev
  /\ units (minus_button item prev)
     = units prev - CartItem.quantity item + Z.max 1 (CartItem.quantity item - 1)
  /\ map CartItem.product_id (plus_button item prev) = map CartItem.product_id prev
  /\ units (plus_button item prev) = units prev + 1.
Proof.
  intros [Hnd Hpos] Hin.
  assert (Hq : 0 < CartItem.quantity item) by (rewrite Forall_forall in Hpos; by apply Hpos).
  unfold minus_button, plus_button, handleUpdateQuantity.
  rewrite !decide_False by lia. rewrite !map_ids_update by done.
  rewrite !(units_update _ _ _ (CartItem.quantity item)) by eauto.
  repeat split; lia.
Qed.

Lemma cart_ok_coffees : cart_ok (coffees 2 (coffee 5)).
Proof.
  split; repeat constructor. by intros ?%elem_of_nil.
Qed.

Lemma cart_handlers_keep_cart_ok_witness :
  let item := {| CartItem.product_id := "p1"; CartItem.quantity := 2;
                 CartItem.product := coffee 5 |} in
  cart_ok (handleAddToCart (coffee 5) (coffees 2 (coffee 5)))
  /\ cart_ok (handleRemoveFromCart "p1" (coffees 2 (coffee 5)))
  /\ cart_ok (handleUpdateQuantity "p1" 0 (coffees 2 (coffee 5)))
  /\ cart_ok (minus_button item (coffees 2 (coffee 5)))
  /\ cart_ok (plus_button item (coffees 2 (coffee 5))).
Proof.
  apply (cart_handlers_keep_cart_ok (coffee 5) "p1" 0).
  split; repeat constructor. by intros ?%elem_of_nil.
Defined.

Lemma handleAddToCart_adds_one_unit_witness :
  let sent := coffee_as_sent 1 0 in
  let prev := coffees 2 (coffee 5) in
  units (handleAddToCart sent prev) = units prev + 1
  /\ Product.id sent ∈ map CartItem.product_id (handleAddToCart sent prev)
  /\ (Product.id sent ∈ map CartItem.product_id prev ->
      map CartItem.product (handleAddToCart sent prev) = map CartItem.product prev)
  /\ (Product.id sent ∉ map CartItem.product_id prev ->
      handleAddToCart sent prev
      = prev ++ [ {| CartItem.product_id := Product.id sent; CartItem.quantity := 1;
                     CartItem.product := sent |} ]).
Proof.
  apply (handleAddToCart_adds_one_unit (coffee_as_sent 1 0) (coffees 2 (coffee 5))).
  split; repeat constructor. by intros ?%elem_of_nil.
Defined.

Lemma handleRemoveFromCart_removes_witness :
  handleUpdateQuantity "p1" 0 (coffees 2 (coffee 5))
  = handleRemoveFromCart "p1" (coffees 2 (coffee 5)).
Proof.
  apply (handleRemoveFromCart_removes (coffee 5) "p1" 0 (coffees 2 (coffee 5))). lia.
Defined.

Lemma cart_buttons_keep_the_line_witness :
  let item := {| CartItem.product_id := "p1"; CartItem.quantity := 1;
                 CartItem.product := coffee 5 |} in
  map CartItem.product_id (minus_button item (coffees 1 (coffee 5)))
  = map CartItem.product_id (coffees 1 (coffee 5))
  /\ units (minus_button item (coffees 1 (coffee 5)))
     = units (coffees 1 (coffee 5)) - 1 + Z.max 1 (1 - 1)
  /\ map CartItem.product_id (plus_button item (coffees 1 (coffee 5)))
     = map CartItem.product_id (coffees 1 (coffee 5))
  /\ units (plus_button item (coffees 1 (coffee 5))) = units (coffees 1 (coffee 5)) + 1.
Proof.
  apply (cart_buttons_keep_the_line
           {| CartItem.product_id := "p1"; CartItem.quantity := 1;
              CartItem.product := coffee 5 |} (coffees 1 (coffee 5))).
  - split; repeat constructor. by intros ?%elem_of_nil.
  - left.
Defined.

(* ====================================================================== *)
(** ** The server actions under any answers of the service               *)
(* ====================================================================== *)

Lemma soft_delete_cases (order : Order.t) (d1 : Db) (w2 w3 : World)
    (o2 : Outcome (ApiResponse Order.t)) :
  db w2 = d1 -> orders d1 !! Order.id order = Some order ->
  try_catch (bind (update_order_status (Order.id order) cancelled)
                  (fun _ => ret (failure "Failed to create order items"))) w2 = (o2, w3) ->
  (exists e, o2 = Val (failure e))
  /\ (db w3 = d1
      \/ db w3 = set_orders (<[Order.id order := Order.set_status cancelled order]> (orders d1)) d1).
Proof.
  intros Hdb Ho. unfold try_catch, bind, update_order_status. rewrite statement_run.
  case_reply; [|cbn; intros [= <- <-]; split; eauto..].
  unfold sql_update_order_status. rewrite Hdb, Ho. cbn. intros [= <- <-].
  split; [eauto|]. by right.
Qed.

Lemma commit_order_cases (cashierId : string) (items : list CartItem.t)
    (paymentMethod : PaymentMethod) (notes : option string) (w w' : World)
    (o : Outcome (ApiResponse Order.t)) :
  try_catch (commit_order cashierId items paymentMethod notes) w = (o, w') ->
  let order := next_order cashierId items paymentMethod notes w in
  let lines := map (lineItem order) items in
  ((exists e, o = Val (failure e)) /\ db w' = db w)
  \/ exists d1,
       sql_insert_order order (db w) = Done d1
       /\ (((exists e, o = Val (failure e))
            /\ (db w' = d1
                \/ db w' = set_orders (<[Order.id order := Order.set_status cancelled order]>
                                         (orders d1)) d1))
           \/ (o = Val (created order (order_number_of (next_sample w)))
               /\ forallb (order_item_ok d1) lines = true
               /\ db w' = set_order_items (order_items d1 ++ lines) d1)).
Proof.
  cbv zeta. unfold next_order, next_uuid.
  unfold try_catch, commit_order, bind at 1. rewrite generateOrderNumber_run.
  unfold bind at 1. rewrite insert_order_run.
  case_reply; [|cbn; intros [= <- <-]; left; eauto..].
  match goal with |- context [uuids ?x] => change (uuids x) with (uuids w) end.
  match goal with |- context [next_sample ?x] => change (next_sample x) with (next_sample w) end.
  destruct (uuids w) as [|u us]; [cbn; intros [= <- <-]; left; eauto|].
  match goal with |- context [sql_insert_order _ ?x] => change x with (db w) end.
  set (zo := with_id u _) in *.
  destruct (sql_insert_order zo (db w)) as [d1|m] eqn:Hins;
    [|cbn; intros [= <- <-]; left; eauto].
  assert (Ho : orders d1 !! Order.id zo = Some zo).
  { apply sql_insert_order_tables in Hins as [-> _]. apply lookup_insert_eq. }
  cbn [pg_ok pg_error pg_data]. unfold bind at 1, insert_order_items.
  rewrite statement_run.
  intros Hrun. right. exists d1. split; [reflexivity|]. revert Hrun.
  case_reply.
  - unfold sql_insert_order_items.
    destruct (forallb _ _) eqn:Hall.
    + cbn. intros [= <- <-]. right. repeat split.
    + cbn [pg_fail pg_error]. intros Hrun. left.
      eapply (soft_delete_cases zo d1); [|exact Ho|exact Hrun]. reflexivity.
  - cbn [pg_fail pg_error]. intros Hrun. left.
    eapply (soft_delete_cases zo d1); [|exact Ho|exact Hrun]. reflexivity.
  - cbn. intros [= <- <-]. left. split; eauto.
Qed.

Lemma validate_items_some_failure (items : list CartItem.t) (w w1 : World)
    (r : ApiResponse Order.t) :
  validate_items items w = (Val (Some r), w1) -> exists e, r = failure e.
Proof.
  revert w. induction items as [|c l IH]; intros w; cbn [validate_items]; [done|].
  unfold bind, select_quantity_on_hand. rewrite statement_run.
  destruct (next_reply w) as [|m|m]; [| |done].
  - destruct (products (db w) !! CartItem.product_id c) as [p|]; cbn.
    + case_decide; [intros [= <- _]; eauto|]. apply IH.
    + intros [= <- _]. eauto.
  - cbn. intros [= <- _]. eauto.
Qed.

Lemma createOrder_cases (cashierId : string) (items : list CartItem.t)
    (paymentMethod : PaymentMethod) (notes : option string) (w w' : World)
    (o : Outcome (ApiResponse Order.t)) :
  createOrder cashierId items paymentMethod notes w = (o, w') ->
  let order := next_order cashierId items paymentMethod notes w in
  let lines := map (lineItem order) items in
  ((exists e, o = Val (failure e)) /\ db w' = db w)
  \/ exists d1,
       sql_insert_order order (db w) = Done d1
       /\ (((exists e, o = Val (failure e))
            /\ (db w' = d1
                \/ db w' = set_orders (<[Order.id order := Order.set_status cancelled order]>
                                         (orders d1)) d1))
           \/ (o = Val (created order (order_number_of (next_sample w)))
               /\ forallb (order_item_ok d1) lines = true
               /\ db w' = set_order_items (order_items d1 ++ lines) d1)).
Proof.
  destruct items as [|i rest]; [cbn; intros [= <- <-]; left; eauto|].
  rewrite createOrder_run by done.
  destruct (validate_items_reads (i :: rest) w) as [rs Hrs].
  destruct (validate_items (i :: rest) w) as [[[r|]|e] w1] eqn:Hv; cbn [snd] in Hrs; subst w1.
  - intros [= <- <-]. left. split; [|reflexivity].
    apply validate_items_some_failure in Hv as [e ->]. eauto.
  - intros Hrun. apply (commit_order_cases cashierId (i :: rest) paymentMethod notes
                          (set_replies rs w) w' o Hrun).
  - intros [= <- <-]. left. eauto.
Qed.

Lemma restocked_refl (d : Db) : restocked (fun _ => 0) d d.
Proof.
  repeat split. intros x. destruct (products d !! x) as [p|] eqn:E; [|done].
  exists (Product.quantity_on_hand p). rewrite set_quantity_on_hand_same. split; [done|lia].
Qed.

Lemma restocked_weaken (b b' : string -> Z) (d d' : Db) :
  (forall x, b x <= b' x) -> restocked b d d' -> restocked b' d d'.
Proof.
  intros Hb (Ho & Hi & Hs). repeat split; [done..|]. intros x. specialize (Hs x).
  destruct (products d !! x); [|done]. destruct Hs as (q & Hq & Hr).
  exists q. split; [done|]. specialize (Hb x). lia.
Qed.

Lemma restocked_trans (b1 b2 : string -> Z) (d d1 d2 : Db) :
  restocked b1 d d1 -> restocked b2 d1 d2 -> restocked (fun x => b1 x + b2 x) d d2.
Proof.
  intros (Ho1 & Hi1 & Hs1) (Ho2 & Hi2 & Hs2). repeat split; [congruence..|].
  intros x. specialize (Hs1 x). specialize (Hs2 x).
  destruct (products d !! x) as [p|].
  - destruct Hs1 as (q1 & Hq1 & Hr1). rewrite Hq1 in Hs2.
    destruct Hs2 as (q2 & Hq2 & Hr2). exists q2. split; [by rewrite Hq2|].
    cbn in Hr2. lia.
  - by rewrite Hs1 in Hs2.
Qed.

Lemma restocked_nonneg (b : string -> Z) (d d' : Db) :
  restocked b d d' -> nonneg_stock d -> nonneg_stock d'.
Proof.
  intros (_ & _ & Hs) Hn x p' Hp'. specialize (Hs x).
  destruct (products d !! x) as [p|] eqn:Hp; [|congruence].
  destruct Hs as (q & Hq & Hr). rewrite Hq in Hp'. injection Hp' as <-.
  specialize (Hn x p Hp). cbn in *. lia.
Qed.

Lemma restocked_is_Some (b : string -> Z) (d d' : Db) (x : string) :
  restocked b d d' -> is_Some (products d' !! x) <-> is_Some (products d !! x).
Proof.
  intros (_ & _ & Hs). specialize (Hs x). destruct (products d !! x) as [p|].
  - destruct Hs as (q & -> & _). split; eauto.
  - rewrite Hs. reflexivity.
Qed.

Lemma sql_add_quantity_restocked (pid : string) (delta : Z) (d : Db) :
  0 <= delta -> nonneg_stock d ->
  exists d', sql_add_quantity pid delta d = Done d'
             /\ inventory_logs d' = inventory_logs d
             /\ restocked (fun x => if decide (pid = x) then delta else 0) d d'.
Proof.
  intros Hd Hn. unfold sql_add_quantity.
  destruct (products d !! pid) as [p|] eqn:Hp.
  - pose proof (Hn _ _ Hp) as Hq. cbn in Hq. cbn zeta.
    case_decide; [|lia]. eexists. split; [reflexivity|]. split; [reflexivity|].
    repeat split. intros x. cbn [products set_products].
    destruct (decide (pid = x)) as [<-|Hne].
    + rewrite Hp, lookup_insert_eq. eexists. split; [reflexivity|]. lia.
    + rewrite lookup_insert_ne by done. destruct (products d !! x) as [p'|]; [|done].
      exists (Product.quantity_on_hand p'). rewrite set_quantity_on_hand_same.
      split; [done|lia].
  - exists d. split; [reflexivity|]. split; [reflexivity|].
    eapply restocked_weaken; [|apply restocked_refl]. intros x. cbn. case_decide; lia.
Qed.

Lemma restore_inventory_any (orderId userId : string) (items : list OrderItem.t)
    (w w' : World) (o : Outcome unit) :
  restore_inventory orderId userId items w = (o, w') ->
  nonneg_stock (db w) -> Forall (fun i => 0 < OrderItem.quantity i) items ->
  restocked (fun x => line_quantity x items) (db w) (db w')
  /\ exists new, inventory_logs (db w') = inventory_logs (db w) ++ new
                 /\ returns_of orderId userId items new.
Proof.
  revert w. induction items as [|i rest IH]; intros w Hrun Hn Hpos.
  - cbn in Hrun. injection Hrun as <- <-. split; [apply restocked_refl|].
    exists []. rewrite app_nil_r. split; [done|constructor].
  - apply Forall_cons in Hpos as [Hq Hpos].
    assert (Hlift : forall new, returns_of orderId userId rest new ->
                                returns_of orderId userId (i :: rest) new).
    { intros new Hnew. unfold returns_of. eapply Forall_impl; [exact Hnew|].
      intros e (j & Hj & ->).
      exists j. split; [by right|done]. }
    assert (Hend : forall (d1 : Db) (b : string -> Z) (w2 : World) (pre : list InventoryLog.t),
      (forall x, b x <= if decide (OrderItem.product_id i = x) then OrderItem.quantity i else 0) ->
      restocked b (db w) d1 -> inventory_logs d1 = inventory_logs (db w) ++ pre ->
      returns_of orderId userId (i :: rest) pre ->
      db w2 = d1 ->
      restore_inventory orderId userId rest w2 = (o, w') ->
      restocked (fun x => line_quantity x (i :: rest)) (db w) (db w')
      /\ exists new, inventory_logs (db w') = inventory_logs (db w) ++ new
                     /\ returns_of orderId userId (i :: rest) new).
    { intros d1 b w2 pre Hb Hr Hl Hpre Hdb Hrest.
      destruct (IH w2 Hrest) as (Hr2 & new & Hl2 & Hnew).
      - rewrite Hdb. by eapply restocked_nonneg.
      - exact Hpos.
      - split.
        + rewrite Hdb in Hr2. eapply restocked_weaken; [|eapply restocked_trans; eassumption].
          intros x. cbn beta. unfold line_quantity at 2. cbn [foldr].
          fold (line_quantity x rest). specialize (Hb x). lia.
        + exists (pre ++ new). rewrite Hl2, Hdb, Hl, app_assoc. split; [done|].
          apply Forall_app. split; [exact Hpre|by apply Hlift]. }
    assert (Hstop : forall (d1 : Db) (b : string -> Z) (pre : list InventoryLog.t),
      (forall x, b x <= if decide (OrderItem.product_id i = x) then OrderItem.quantity i else 0) ->
      restocked b (db w) d1 -> inventory_logs d1 = inventory_logs (db w) ++ pre ->
      returns_of orderId userId (i :: rest) pre ->
      restocked (fun x => line_quantity x (i :: rest)) (db w) d1
      /\ exists new, inventory_logs d1 = inventory_logs (db w) ++ new
                     /\ returns_of orderId userId (i :: rest) new).
    { intros d1 b pre Hb Hr Hl Hpre. split; [|eauto].
      eapply restocked_weaken; [|exact Hr]. intros x. cbn beta.
      unfold line_quantity. cbn [foldr]. fold (line_quantity x rest).
      specialize (Hb x).
      assert (0 <= line_quantity x rest).
      { clear -Hpos. induction Hpos as [|j l Hj _ IHl]; cbn; [lia|].
        fold (line_quantity x l). case_decide; lia. }
      lia. }
    assert (Hzero : forall x : string,
      0 <= if decide (OrderItem.product_id i = x) then OrderItem.quantity i else 0)
      by (intros x; case_decide; lia).
    set (b1 := fun x : string =>
                 if decide (OrderItem.product_id i = x) then OrderItem.quantity i else 0).
    assert (Hb1 : forall x, b1 x <= b1 x) by (intros x; lia).
    assert (Hin : returns_of orderId userId (i :: rest) [return_entry orderId userId i]).
    { repeat constructor. exists i. split; [left|done]. }
    assert (Hnil : returns_of orderId userId (i :: rest) []) by constructor.
    revert Hrun. cbn [restore_inventory]. unfold bind at 1, rpc_increment.
    rewrite statement_run.
    destruct (next_reply w) as [|m|m].
    + destruct (sql_add_quantity_restocked (OrderItem.product_id i) (OrderItem.quantity i) (db w))
        as (d1 & -> & Hl1 & Hr1); [lia|done|].
      fold b1 in Hr1.
      unfold bind at 1, insert_inventory_log. rewrite statement_run.
      case_reply.
      * unfold sql_insert_inventory_log.
        match goal with |- context [products ?d !! ?k] => destruct (products d !! k) end.
        -- intros Hrest.
           apply (fun H1 H2 => Hend _ b1 _ [return_entry orderId userId i] Hb1 H1 H2 Hin
                                    eq_refl Hrest).
           ++ exact Hr1.
           ++ cbn. by rewrite Hl1.
        -- intros Hrest. apply (fun H1 H2 => Hend d1 b1 _ [] Hb1 Hr1 H1 Hnil H2 Hrest);
             [cbn; by rewrite app_nil_r|reflexivity].
      * intros Hrest. apply (fun H1 H2 => Hend d1 b1 _ [] Hb1 Hr1 H1 Hnil H2 Hrest);
          [cbn; by rewrite app_nil_r|reflexivity].
      * intros [= <- <-]. refine (Hstop d1 b1 [] Hb1 Hr1 _ Hnil).
        cbn. by rewrite app_nil_r.
    + unfold bind at 1, insert_inventory_log. rewrite statement_run.
      case_reply.
      * unfold sql_insert_inventory_log.
        match goal with |- context [products ?d !! ?k] => destruct (products d !! k) end.
        -- intros Hrest.
           apply (fun H1 H2 => Hend _ (fun _ => 0) _ [return_entry orderId userId i] Hzero
                                    H1 H2 Hin eq_refl Hrest).
           ++ exact (restocked_refl (db w)).
           ++ reflexivity.
        -- intros Hrest.
           apply (fun H1 H2 => Hend (db w) (fun _ => 0) _ [] Hzero (restocked_refl _) H1 Hnil
                                    H2 Hrest); [cbn; by rewrite app_nil_r|reflexivity].
      * intros Hrest.
        apply (fun H1 H2 => Hend (db w) (fun _ => 0) _ [] Hzero (restocked_refl _) H1 Hnil
                                 H2 Hrest); [cbn; by rewrite app_nil_r|reflexivity].
      * intros [= <- <-].
        refine (Hstop (db w) (fun _ => 0) [] Hzero (restocked_refl _) _ Hnil).
        cbn. by rewrite app_nil_r.
    + intros [= <- <-].
      refine (Hstop (db w) (fun _ => 0) [] Hzero (restocked_refl _) _ Hnil).
      cbn. by rewrite app_nil_r.
Qed.

(* ---------------------------------------------------------------------- *)
(** *** What a checkout leaves in the tables, whatever the service answers *)
(* ---------------------------------------------------------------------- *)

Lemma consistent_orders_insert (d : Db) (oid : string) (o : Order.t) :
  consistent d -> consistent (set_orders (<[oid := o]> (orders d)) d).
Proof.
  intros [Hn Hi]. split; [exact Hn|].
  eapply Forall_impl; [exact Hi|]. intros i (Ho & Hp & Hq). cbn.
  split; [|done]. apply lookup_insert_is_Some'. by right.
Qed.

Lemma consistent_append_lines (d : Db) (lines : list OrderItem.t) :
  consistent d -> forallb (order_item_ok d) lines = true ->
  consistent (set_order_items (order_items d ++ lines) d).
Proof.
  intros [Hn Hi] Hok. split; [exact Hn|]. cbn. apply Forall_app. split; [exact Hi|].
  apply Forall_forall. intros i Hin.
  rewrite forallb_forall in Hok. specialize (Hok i (proj1 (list_elem_of_In _ _) Hin)).
  unfold order_item_ok in Hok. rewrite !andb_true_iff in Hok.
  destruct Hok as [[[[Ho Hp] Hq] _] _].
  apply bool_decide_eq_true in Ho, Hp. apply Z.ltb_lt in Hq. done.
Qed.

Lemma items_of_order_append (oid : string) (d : Db) (lines : list OrderItem.t) :
  items_of_order oid (set_order_items (order_items d ++ lines) d)
  = items_of_order oid d ++ filter (fun i => OrderItem.order_id i = oid) lines.
Proof. unfold items_of_order. cbn. apply filter_app. Qed.


(** What every run of [createOrder] on consistent tables comes to. *)
Lemma createOrder_on_consistent (cashierId : string) (items : list CartItem.t)
    (paymentMethod : PaymentMethod) (notes : option string) (w w' : World)
    (o : Outcome (ApiResponse Order.t)) :
  createOrder cashierId items paymentMethod notes w = (o, w') ->
  consistent (db w) ->
  let order := next_order cashierId items paymentMethod notes w in
  let kept := set_orders (<[Order.id order := order]> (orders (db w))) (db w) in
  ((exists e, o = Val (failure e)) /\ db w' = db w)
  \/ (orders (db w) !! Order.id order = None
      /\ (((exists e, o = Val (failure e))
           /\ (db w' = kept
               \/ db w' = set_orders (<[Order.id order := Order.set_status cancelled order]>
                                        (orders (db w))) (db w)))
          \/ (o = Val (created order (order_number_of (next_sample w)))
              /\ forallb (order_item_ok kept) (map (lineItem order) items) = true
              /\ db w' = set_order_items
                           (order_items (db w) ++ map (lineItem order) items) kept))).
Proof.
  intros Hrun Hc. cbv zeta.
  destruct (createOrder_cases _ _ _ _ _ _ _ Hrun) as [H|(d1 & Hd1 & H)]; [by left|].
  right. destruct (sql_insert_order_new _ _ _ Hc Hd1) as [Hfresh ->].
  split; [exact Hfresh|].
  destruct H as [[He [H|H]]|(Ho & Hok & Hdb)].
  - left. split; [exact He|]. by left.
  - left. split; [exact He|]. right. rewrite H. cbn. by rewrite insert_insert_eq.
  - right. done.
Qed.

(** X14. Whatever the service answers, a checkout leaves tables that
    satisfy the schema's constraints in a state that satisfies them. *)
Theorem createOrder_keeps_the_constraints (cashierId : string) (items : list CartItem.t)
    (paymentMethod : PaymentMethod) (notes : option string) (w : World) :
  consistent (db w) ->
  consistent (db (world_after (createOrder cashierId items paymentMethod notes w))).
Proof.
  intros Hc. unfold world_after.
  destruct (createOrder cashierId items paymentMethod notes w) as [o w'] eqn:Hrun.
  cbn [snd].
  destruct (createOrder_on_consistent _ _ _ _ _ _ _ Hrun Hc)
    as [[_ ->]|(Hfresh & [[_ [->| ->]]|(_ & Hok & ->)])].
  - exact Hc.
  - by apply consistent_orders_insert.
  - by apply consistent_orders_insert.
  - apply (consistent_append_lines
             (set_orders (<[_ := _]> (orders (db w))) (db w))); [|exact Hok].
    by apply consistent_orders_insert.
Qed.

Lemma createOrder_keeps_the_constraints_witness :
  consistent (db (world_after (createOrder "u1" (coffees 2 (coffee 5)) cash None
                                 (shop_world 5 [Ok; Ok; Error "timeout"; Throw "reset"])))).
Proof.
  apply (createOrder_keeps_the_constraints "u1" (coffees 2 (coffee 5)) cash None).
  apply (bool_decide_unpack _). vm_compute. exact I.
Defined.

(** X15. A checkout that fails, at whatever step and whatever the service
    answers, leaves no order line, no ledger entry and no stock change; of
    the order it leaves nothing, or the header alone, cancelled or (when the
    soft delete did not go through) still [completed], and without lines. *)
Theorem failed_checkout_leaves_no_lines (cashierId : string) (items : list CartItem.t)
    (paymentMethod : PaymentMethod) (notes : option string) (w w' : World)
    (r : ApiResponse Order.t) :
  createOrder cashierId items paymentMethod notes w = (Val r, w') ->
  consistent (db w) ->
  success r = false ->
  let order := next_order cashierId items paymentMethod notes w in
  order_items (db w') = order_items (db w)
  /\ inventory_logs (db w') = inventory_logs (db w)
  /\ products (db w') = products (db w)
  /\ (orders (db w') = orders (db w)
      \/ (orders (db w) !! Order.id order = None
          /\ items_of_order (Order.id order) (db w') = []
          /\ exists s, (s = completed \/ s = cancelled)
                       /\ orders (db w')
                          = <[Order.id order := Order.set_status s order]> (orders (db w)))).
Proof.
  intros Hrun Hc Hr. cbv zeta.
  destruct (createOrder_on_consistent _ _ _ _ _ _ _ Hrun Hc)
    as [[_ ->]|(Hfresh & [[_ [->| ->]]|(Ho & _)])].
  - repeat split. by left.
  - repeat split. right. split; [exact Hfresh|]. split.
    + apply items_of_unknown_order in Hfresh; [|exact Hc]. exact Hfresh.
    + exists completed. split; [by left|]. cbn. f_equal.
  - repeat split. right. split; [exact Hfresh|]. split.
    + apply items_of_unknown_order in Hfresh; [|exact Hc]. exact Hfresh.
    + exists cancelled. split; [by right|]. reflexivity.
  - injection Ho as ->. discriminate Hr.
Qed.

Lemma failed_checkout_leaves_no_lines_witness :
  let w := shop_world 5 [Ok; Ok; Error "timeout"; Error "timeout"] in
  let w' := world_after (createOrder "u1" (coffees 2 (coffee 5)) cash None w) in
  order_items (db w') = order_items (db w)
  /\ inventory_logs (db w') = inventory_logs (db w)
  /\ products (db w') = products (db w)
  /\ (orders (db w') = orders (db w)
      \/ (orders (db w) !! "o1" = None
          /\ items_of_order "o1" (db w') = []
          /\ exists s, (s = completed \/ s = cancelled)
                       /\ orders (db w')
                          = <[ "o1" := Order.set_status s two_coffees_order ]> (orders (db w)))).
Proof.
  apply (failed_checkout_leaves_no_lines "u1" (coffees 2 (coffee 5)) cash None
           (shop_world 5 [Ok; Ok; Error "timeout"; Error "timeout"]) _
           (failure "Failed to create order items")).
  - vm_compute. reflexivity.
  - apply (bool_decide_unpack _). vm_compute. exact I.
  - reflexivity.
Defined.



(* ---------------------------------------------------------------------- *)
(** *** What a cancellation leaves, whatever the service answers           *)
(* ---------------------------------------------------------------------- *)

Lemma positive_lines (oid : string) (d : Db) :
  consistent d -> Forall (fun i => 0 < OrderItem.quantity i) (items_of_order oid d).
Proof.
  intros [_ Hi]. apply Forall_forall. intros i Hin.
  apply list_elem_of_filter in Hin as [_ Hin].
  rewrite Forall_forall in Hi. by destruct (Hi i Hin) as (_ & _ & ?).
Qed.

Lemma restocked_consistent (b : string -> Z) (d d' : Db) :
  restocked b d d' -> consistent d -> consistent d'.
Proof.
  intros Hr [Hn Hi]. split; [by eapply restocked_nonneg|].
  pose proof Hr as (Ho & Hl & _). rewrite Hl.
  eapply Forall_impl; [exact Hi|]. intros i (H1 & H2 & H3). rewrite Ho.
  split; [done|]. split; [|done]. by apply (restocked_is_Some _ _ _ _ Hr).
Qed.

(** What every run of [cancelOrder] on consistent tables comes to: the
    restore loop ran over a part of the order's lines and left [d2]; the
    status was set on [d2], or was not. *)
Lemma cancelOrder_cases (orderId userId : string) (w w' : World)
    (o : Outcome (ApiResponse Order.t)) :
  cancelOrder orderId userId w = (o, w') ->
  consistent (db w) ->
  let lines := items_of_order orderId (db w) in
  exists d2 new,
    restocked (fun x => line_quantity x lines) (db w) d2
    /\ inventory_logs d2 = inventory_logs (db w) ++ new
    /\ returns_of orderId userId lines new
    /\ (((exists e, o = Val (failure e)) /\ db w' = d2)
        \/ exists order,
             orders (db w) !! orderId = Some order
             /\ o = Val (cancelled_response (Some (Order.set_status cancelled order)))
             /\ db w' = set_orders (<[orderId := Order.set_status cancelled order]>
                                      (orders (db w))) d2).
Proof.
  intros Hrun Hc. cbv zeta.
  assert (Hsame : exists d2 new,
    restocked (fun x => line_quantity x (items_of_order orderId (db w))) (db w) d2
    /\ inventory_logs d2 = inventory_logs (db w) ++ new
    /\ returns_of orderId userId (items_of_order orderId (db w)) new
    /\ d2 = db w).
  { exists (db w), []. rewrite app_nil_r. split; [|by repeat split; try constructor].
    eapply restocked_weaken; [|apply restocked_refl]. intros x. cbn beta.
    pose proof (positive_lines orderId (db w) Hc) as Hpos.
    induction Hpos as [|j l Hj _ IHl]; cbn; [lia|]. fold (line_quantity x l).
    case_decide; lia. }
  revert Hrun. unfold cancelOrder, try_catch, createServerSupabaseClient.
  unfold bind at 1, ret at 1. unfold bind at 1, select_order_items.
  rewrite statement_run.
  destruct (next_reply w) as [|m|m].
  - cbn [pg_error pg_data pg_ok].
    change (db (pop w)) with (db w). unfold bind at 1.
    destruct (restore_inventory orderId userId (items_of_order orderId (db w))
                (set_db (db w) (pop w))) as [o1 w1] eqn:Hrest.
    destruct (restore_inventory_any _ _ _ _ _ _ Hrest (proj1 Hc) (positive_lines _ _ Hc))
      as (Hr & new & Hl & Hnew).
    change (db (set_db (db w) (pop w))) with (db w) in Hr, Hl.
    exists (db w1), new. split; [exact Hr|]. split; [exact Hl|]. split; [exact Hnew|].
    destruct o1 as [[]|e].
    + revert Hrun. unfold bind at 1, update_order_status_single. rewrite statement_run.
      pose proof Hr as (Ho & _). cbv beta. unfold sql_update_order_status. rewrite Ho.
      destruct (next_reply w1) as [|m|m].
      * destruct (orders (db w) !! orderId) as [order|] eqn:Horder; cbn.
        -- intros [= <- <-]. right. exists order. split; [done|]. split; [done|].
           reflexivity.
        -- intros [= <- <-]. left. split; [eauto|done].
      * cbn. intros [= <- <-]. left. split; [eauto|done].
      * cbn. intros [= <- <-]. left. split; [eauto|done].
    + cbn in Hrun. injection Hrun as <- <-. left. split; [eauto|done].
  - destruct Hsame as (d2 & new & H1 & H2 & H3 & ->).
    cbn. intros [= <- <-]. exists (db w), new.
    split; [exact H1|]. split; [exact H2|]. split; [exact H3|]. left. split; [eauto|done].
  - destruct Hsame as (d2 & new & H1 & H2 & H3 & ->).
    cbn. intros [= <- <-]. exists (db w), new.
    split; [exact H1|]. split; [exact H2|]. split; [exact H3|]. left. split; [eauto|done].
Qed.

Lemma restocked_stock (b : string -> Z) (d d' : Db) (x : string) (q : Z) :
  restocked b d d' -> stock x d = Some q ->
  exists q', stock x d' = Some q' /\ q <= q' <= q + b x.
Proof.
  intros (_ & _ & Hs) Hq. specialize (Hs x). unfold stock in *.
  destruct (products d !! x) as [p|]; [|discriminate Hq].
  destruct Hs as (q' & -> & Hr). injection Hq as <-. exists q'. split; [reflexivity|lia].
Qed.

Lemma restocked_nothing (d d' : Db) :
  restocked (fun _ => 0) d d' -> inventory_logs d' = inventory_logs d -> d' = d.
Proof.
  intros (Ho & Hi & Hs) Hl.
  assert (Hp : products d' = products d).
  { apply map_eq. intros x. specialize (Hs x). destruct (products d !! x) as [p|]; [|done].
    destruct Hs as (q & -> & Hq). f_equal.
    replace q with (Product.quantity_on_hand p) by lia. apply set_quantity_on_hand_same. }
  destruct d, d'. cbn in *. congruence.
Qed.

(** X17. Whatever the service answers, a cancellation on consistent tables
    leaves them consistent and touches no order line; each product's stock
    ends between what it was and that plus the quantity the order's lines
    hold of it (every line is restored at most once, and perhaps not at
    all); the ledger only gains return entries of the order's lines. *)
Theorem cancelOrder_restores_at_most_once (orderId userId : string) (w : World) :
  consistent (db w) ->
  let lines := items_of_order orderId (db w) in
  let d' := db (world_after (cancelOrder orderId userId w)) in
  consistent d'
  /\ order_items d' = order_items (db w)
  /\ (forall x q, stock x (db w) = Some q ->
        exists q', stock x d' = Some q' /\ q <= q' <= q + line_quantity x lines)
  /\ exists new, inventory_logs d' = inventory_logs (db w) ++ new
                 /\ returns_of orderId userId lines new.
Proof.
  intros Hc. cbv zeta. unfold world_after.
  destruct (cancelOrder orderId userId w) as [o w'] eqn:Hrun. cbn [snd].
  destruct (cancelOrder_cases _ _ _ _ _ Hrun Hc) as (d2 & new & Hr & Hl & Hnew & Hend).
  pose proof (restocked_consistent _ _ _ Hr Hc) as Hc2.
  assert (Hd : consistent (db w') /\ order_items (db w') = order_items d2
               /\ products (db w') = products d2
               /\ inventory_logs (db w') = inventory_logs d2).
  { destruct Hend as [[_ ->]|(order & _ & _ & ->)]; [done|].
    split; [|done]. pose proof Hr as (Ho & _). rewrite <- Ho.
    by apply consistent_orders_insert. }
  destruct Hd as (Hc' & Hi' & Hp' & Hl'). split; [exact Hc'|].
  split; [rewrite Hi'; apply Hr|]. split.
  - intros x q Hq. unfold stock. rewrite Hp'. by apply (restocked_stock _ _ _ _ _ Hr).
  - exists new. by rewrite Hl'.
Qed.

Lemma cancelOrder_restores_at_most_once_witness :
  let w := shop_with_order completed [Ok; Error "function increment does not exist"] in
  let lines := items_of_order "o1" (db w) in
  let d' := db (world_after (cancelOrder "o1" "admin" w)) in
  consistent d'
  /\ order_items d' = order_items (db w)
  /\ (forall x q, stock x (db w) = Some q ->
        exists q', stock x d' = Some q' /\ q <= q' <= q + line_quantity x lines)
  /\ exists new, inventory_logs d' = inventory_logs (db w) ++ new
                 /\ returns_of "o1" "admin" lines new.
Proof.
  apply (cancelOrder_restores_at_most_once "o1" "admin"
           (shop_with_order completed [Ok; Error "function increment does not exist"])).
  apply (bool_decide_unpack _). vm_compute. exact I.
Defined.

(** X18. [cancelOrder] reports success only when the order exists, and has
    then set its status to [cancelled], returned that row and left every
    other order as it was. *)
Theorem cancelOrder_success_means_cancelled (orderId userId : string) (w w' : World)
    (r : ApiResponse Order.t) :
  cancelOrder orderId userId w = (Val r, w') ->
  consistent (db w) ->
  success r = true ->
  exists order,
    orders (db w) !! orderId = Some order
    /\ data r = Some (Order.set_status cancelled order)
    /\ orders (db w') = <[orderId := Order.set_status cancelled order]> (orders (db w)).
Proof.
  intros Hrun Hc Hr.
  destruct (cancelOrder_cases _ _ _ _ _ Hrun Hc)
    as (d2 & new & _ & _ & _ & [[[e He] _]|(order & Ho & Hres & ->)]).
  - injection He as ->. discriminate Hr.
  - injection Hres as ->. exists order. done.
Qed.

Lemma cancelOrder_success_means_cancelled_witness :
  let w := shop_with_order completed [] in
  exists order,
    orders (db w) !! "o1" = Some order
    /\ data (cancelled_response (Some (order_o1 cancelled)))
       = Some (Order.set_status cancelled order)
    /\ orders (db (world_after (cancelOrder "o1" "admin" w)))
       = <[ "o1" := Order.set_status cancelled order ]> (orders (db w)).
Proof.
  apply (cancelOrder_success_means_cancelled "o1" "admin" (shop_with_order completed [])).
  - vm_compute. reflexivity.
  - apply (bool_decide_unpack _). vm_compute. exact I.
  - reflexivity.
Defined.

(** X19. Cancelling an order that is not on file fails, whatever the
    service answers, and changes no table. *)
Theorem cancelOrder_of_unknown_order (orderId userId : string) (w : World) :
  consistent (db w) ->
  orders (db w) !! orderId = None ->
  let run := cancelOrder orderId userId w in
  (exists e, returned run = Some (failure e)) /\ db (world_after run) = db w.
Proof.
  intros Hc Hnone. cbv zeta. unfold returned, world_after.
  destruct (cancelOrder orderId userId w) as [o w'] eqn:Hrun. cbn [fst snd].
  destruct (cancelOrder_cases _ _ _ _ _ Hrun Hc)
    as (d2 & new & Hr & Hl & Hnew & [[[e ->] ->]|(order & Ho & _)]); [|congruence].
  rewrite (items_of_unknown_order _ _ Hc Hnone) in Hr, Hnew.
  split; [eauto|]. apply restocked_nothing; [exact Hr|].
  destruct new as [|e' new']; [by rewrite Hl, app_nil_r|].
  apply Forall_cons in Hnew as [(i & Hi & _) _]. by apply elem_of_nil in Hi.
Qed.

Lemma cancelOrder_of_unknown_order_witness :
  let run := cancelOrder "o9" "admin" (shop_with_order completed []) in
  (exists e, returned run = Some (failure e))
  /\ db (world_after run) = db (shop_with_order completed []).
Proof.
  apply (cancelOrder_of_unknown_order "o9" "admin" (shop_with_order completed [])).
  - apply (bool_decide_unpack _). vm_compute. exact I.
  - reflexivity.
Defined.

(* ---------------------------------------------------------------------- *)
(** *** deleteProduct                                                      *)
(* ---------------------------------------------------------------------- *)

Lemma deleteProduct_run (productId : string) (w : World) :
  deleteProduct productId w =
  match next_reply w with
  | Ok => (Val {| success := true; data := None; error := None;
                  message := Some "Product deleted successfully" |},
           set_db (sql_set_is_active productId false (db w)) (pop w))
  | Error m => (Val (failure m), pop w)
  | Throw m => (Val (failure (or_default m "An unexpected error occurred")), pop w)
  end.
Proof.
  unfold deleteProduct, try_catch, createServerSupabaseClient.
  unfold bind at 1, ret at 1. unfold bind at 1. rewrite statement_run.
  destruct (next_reply w); reflexivity.
Qed.

Lemma lookup_set_is_active (pid x : string) (b : bool) (d : Db) :
  products (sql_set_is_active pid b d) !! x
  = (if decide (pid = x) then set_is_active b else id) <$> products d !! x.
Proof.
  unfold sql_set_is_active. cbn. destruct (decide (pid = x)) as [->|Hne].
  - by rewrite lookup_alter_eq.
  - rewrite lookup_alter_ne by done. by destruct (products d !! x).
Qed.

Lemma stock_set_is_active (pid x : string) (b : bool) (d : Db) :
  stock x (sql_set_is_active pid b d) = stock x d.
Proof.
  unfold stock. rewrite lookup_set_is_active.
  destruct (products d !! x) as [p|]; [|done]. cbn. by case_decide.
Qed.

Lemma stock_same_consistent (d d' : Db) :
  (forall x, stock x d' = stock x d) -> orders d' = orders d ->
  order_items d' = order_items d -> consistent d -> consistent d'.
Proof.
  intros Hs Ho Hi [Hn Hl]. split.
  - intros x p' Hp'. specialize (Hs x). unfold stock in Hs. rewrite Hp' in Hs.
    destruct (products d !! x) as [p|] eqn:Hp; [|discriminate Hs].
    injection Hs as Hs. cbn in *. rewrite Hs. exact (Hn x p Hp).
  - rewrite Hi. eapply Forall_impl; [exact Hl|]. intros i (H1 & H2 & H3). rewrite Ho.
    split; [done|]. split; [|done].
    rewrite <- (stock_is_Some _ d' d id); [done|]. rewrite Hs. by destruct (stock _ d).
Qed.

(** X21. [deleteProduct] never removes a row: whatever the service answers,
    orders, order lines and ledger are untouched, every product keeps its
    stock (so every reference to it stays valid and consistent tables stay
    consistent), and when the request is served the product is flagged
    inactive; a product id that is not on file is reported deleted all the
    same. *)
Theorem deleteProduct_keeps_the_row (productId : string) (w : World) :
  let run := deleteProduct productId w in
  let d' := db (world_after run) in
  orders d' = orders (db w) /\ order_items d' = order_items (db w)
  /\ inventory_logs d' = inventory_logs (db w)
  /\ (forall x, stock x d' = stock x (db w))
  /\ (consistent (db w) -> consistent d')
  /\ (next_reply w = Ok ->
      (returned run ≫= fun r => Some (success r)) = Some true
      /\ products d' !! productId = set_is_active false <$> products (db w) !! productId).
Proof.
  cbv zeta. unfold world_after, returned. rewrite deleteProduct_run.
  assert (Hs : forall x, stock x (sql_set_is_active productId false (db w)) = stock x (db w))
    by (intros x; apply stock_set_is_active).
  destruct (next_reply w) as [|m|m]; cbn [fst snd];
    (split; [reflexivity|]); (split; [reflexivity|]); (split; [reflexivity|]).
  - split; [exact Hs|]. split; [intros Hc; by apply (stock_same_consistent (db w))|].
    intros _. split; [reflexivity|].
    transitivity (products (sql_set_is_active productId false (db w)) !! productId);
      [reflexivity|].
    rewrite lookup_set_is_active. by rewrite decide_True.
  - split; [done|]. split; [done|]. intros H. discriminate H.
  - split; [done|]. split; [done|]. intros H. discriminate H.
Qed.

Section SoftDelete.
Variables (pid : string) (b : bool).

Lemma flag_products (d : Db) (x : string) :
  products (sql_set_is_active pid b d) !! x
  = (if decide (pid = x) then set_is_active b else id) <$> products d !! x.
Proof. apply lookup_set_is_active. Qed.

Lemma flag_set_products (d : Db) (x : string) (p : Product.t) (q : Z) :
  products d !! x = Some p ->
  set_products (<[x := Product.set_quantity_on_hand q
                         ((if decide (pid = x) then set_is_active b else id) p)]>
                  (products (sql_set_is_active pid b d))) (sql_set_is_active pid b d)
  = (sql_set_is_active pid b) (set_products (<[x := Product.set_quantity_on_hand q p]> (products d)) d).
Proof.
  intros Hp. unfold sql_set_is_active, set_products. cbn [products orders order_items inventory_logs].
  f_equal. apply map_eq. intros y.
  destruct (decide (x = y)) as [<-|Hxy].
  - rewrite lookup_insert_eq. destruct (decide (pid = x)) as [->|Hne].
    + by rewrite lookup_alter_eq, lookup_insert_eq.
    + by rewrite lookup_alter_ne, lookup_insert_eq by done.
  - rewrite lookup_insert_ne by done. destruct (decide (pid = y)) as [->|Hne].
    + by rewrite !lookup_alter_eq, lookup_insert_ne by done.
    + by rewrite !lookup_alter_ne, lookup_insert_ne by done.
Qed.

Lemma flag_add_quantity (x : string) (delta : Z) (d : Db) :
  sql_add_quantity x delta (sql_set_is_active pid b d)
  = match sql_add_quantity x delta d with
    | Done d' => Done (sql_set_is_active pid b d')
    | Raised m => Raised m
    end.
Proof.
  unfold sql_add_quantity. rewrite flag_products.
  destruct (products d !! x) as [p|] eqn:Hp; cbn [fmap option_fmap option_map]; [|reflexivity].
  cbn zeta. pose proof (flag_set_products d x p (Product.quantity_on_hand p + delta) Hp) as E.
  destruct (decide (pid = x)) as [->|Hne]; cbn [id set_is_active Product.quantity_on_hand] in *;
    (destruct (decide (0 <= Product.quantity_on_hand p + delta)); [|reflexivity]);
    f_equal; exact E.
Qed.

Lemma flag_insert_inventory_log (row : InventoryLog.t) (d : Db) :
  sql_insert_inventory_log row (sql_set_is_active pid b d)
  = match sql_insert_inventory_log row d with
    | Done d' => Done (sql_set_is_active pid b d')
    | Raised m => Raised m
    end.
Proof.
  unfold sql_insert_inventory_log. rewrite flag_products.
  destruct (products d !! _); reflexivity.
Qed.

Lemma flag_update_inventory_loop (NEW : Order.t) (rows : list (string * Z)) (d : Db) :
  update_inventory_loop NEW rows (sql_set_is_active pid b d)
  = match update_inventory_loop NEW rows d with
    | Done d' => Done (sql_set_is_active pid b d')
    | Raised m => Raised m
    end.
Proof.
  revert d. induction rows as [|[x q] rows IH]; intros d; cbn [update_inventory_loop];
    [reflexivity|].
  rewrite flag_add_quantity. destruct (sql_add_quantity x (- q) d) as [d1|m]; [|reflexivity].
  rewrite flag_insert_inventory_log.
  destruct (sql_insert_inventory_log _ d1) as [d2|m]; [apply IH|reflexivity].
Qed.

Lemma flag_insert_order (NEW : Order.t) (d : Db) :
  sql_insert_order NEW (sql_set_is_active pid b d)
  = match sql_insert_order NEW d with
    | Done d' => Done (sql_set_is_active pid b d')
    | Raised m => Raised m
    end.
Proof.
  unfold sql_insert_order. change (orders (sql_set_is_active pid b d)) with (orders d).
  case_decide; [reflexivity|]. destruct (bool_decide _); [reflexivity|].
  destruct (negb _); [reflexivity|].
  unfold update_inventory_on_order.
  apply (flag_update_inventory_loop NEW _ (set_orders _ d)).
Qed.

Lemma flag_order_item_ok (d : Db) (r : OrderItem.t) :
  order_item_ok (sql_set_is_active pid b d) r = order_item_ok d r.
Proof.
  unfold order_item_ok. change (orders (sql_set_is_active pid b d)) with (orders d).
  do 3 f_equal. f_equal.
  apply bool_decide_ext. rewrite flag_products. apply fmap_is_Some.
Qed.

Lemma flag_insert_order_items (rows : list OrderItem.t) (d : Db) :
  sql_insert_order_items rows (sql_set_is_active pid b d)
  = match sql_insert_order_items rows d with
    | Done d' => Done (sql_set_is_active pid b d')
    | Raised m => Raised m
    end.
Proof.
  unfold sql_insert_order_items.
  assert (E : forallb (order_item_ok (sql_set_is_active pid b d)) rows
              = forallb (order_item_ok d) rows).
  { induction rows as [|r rows IH]; [reflexivity|]. cbn [forallb].
    by rewrite flag_order_item_ok, IH. }
  rewrite E. destruct (forallb (order_item_ok d) rows); reflexivity.
Qed.

Lemma blind_validate_items (items : list CartItem.t) : blind (sql_set_is_active pid b) (validate_items items).
Proof.
  induction items as [|i rest IH]; cbn [validate_items]; [apply blind_ret|].
  apply blind_bind.
  - apply blind_statement. intros d. rewrite flag_products.
    destruct (products d !! _) as [p|]; cbn; [|reflexivity]. by case_decide.
  - intros r. destruct (pg_error r), (pg_data r); try apply blind_ret.
    case_decide; [apply blind_ret|exact IH].
Qed.

Lemma blind_commit_order (cashierId : string) (items : list CartItem.t)
    (paymentMethod : PaymentMethod) (notes : option string) :
  blind (sql_set_is_active pid b) (commit_order cashierId items paymentMethod notes).
Proof.
  unfold commit_order. apply blind_bind; [apply blind_generateOrderNumber|]. intros number.
  apply blind_bind; [apply blind_insert_order; apply flag_insert_order|]. intros res.
  destruct (pg_error res), (pg_data res); try apply blind_ret.
  apply blind_bind.
  - apply blind_statement. intros d. rewrite flag_insert_order_items.
    destruct (sql_insert_order_items _ d); reflexivity.
  - intros ins. destruct (pg_error ins); [|apply blind_ret].
    apply blind_bind; [|intros _; apply blind_ret].
    apply blind_statement. intros d. unfold sql_update_order_status.
    change (orders (sql_set_is_active pid b d)) with (orders d). destruct (orders d !! _); reflexivity.
Qed.

Lemma blind_createOrder (cashierId : string) (items : list CartItem.t)
    (paymentMethod : PaymentMethod) (notes : option string) :
  blind (sql_set_is_active pid b) (createOrder cashierId items paymentMethod notes).
Proof.
  unfold createOrder. apply blind_try_catch. destruct items as [|i rest]; [apply blind_ret|].
  apply blind_bind; [apply blind_ret|]. intros _.
  apply blind_bind; [apply blind_validate_items|]. intros [r|]; [apply blind_ret|].
  apply blind_commit_order.
Qed.

End SoftDelete.

(** X22. The soft delete does not stop sales: [createOrder] reads the
    stock of a product, never [is_active].  After a served [deleteProduct],
    a checkout returns the very response it returns without the delete (the
    answers of the service being the same), and leaves the tables it leaves
    without the delete, but for the flag of the deleted product. *)
Theorem deleted_product_still_sells (productId cashierId : string) (items : list CartItem.t)
    (paymentMethod : PaymentMethod) (notes : option string) (w : World) :
  next_reply w = Ok ->
  let w1 := world_after (deleteProduct productId w) in
  let before := createOrder cashierId items paymentMethod notes (pop w) in
  let after := createOrder cashierId items paymentMethod notes w1 in
  products (db w1) !! productId = set_is_active false <$> products (db w) !! productId
  /\ returned after = returned before
  /\ db (world_after after) = sql_set_is_active productId false (db (world_after before)).
Proof.
  intros Hr. cbv zeta. unfold returned, world_after.
  rewrite deleteProduct_run, Hr. cbn [snd].
  change (set_db (sql_set_is_active productId false (db w)) (pop w))
    with (lift_world (sql_set_is_active productId false) (pop w)).
  rewrite (blind_createOrder productId false cashierId items paymentMethod notes (pop w)).
  cbn [fst snd]. split; [|split; reflexivity].
  transitivity (products (sql_set_is_active productId false (db w)) !! productId);
    [reflexivity|].
  rewrite lookup_set_is_active. by rewrite decide_True.
Qed.

Lemma deleted_product_still_sells_witness :
  let w := shop_world 5 [] in
  let w1 := world_after (deleteProduct "p1" w) in
  let before := createOrder "u1" (coffees 2 (coffee 5)) cash None (pop w) in
  let after := createOrder "u1" (coffees 2 (coffee 5)) cash None w1 in
  products (db w1) !! "p1" = set_is_active false <$> products (db w) !! "p1"
  /\ returned after = returned before
  /\ db (world_after after) = sql_set_is_active "p1" false (db (world_after before)).
Proof.
  apply (deleted_product_still_sells "p1" "u1" (coffees 2 (coffee 5)) cash None
           (shop_world 5 [])).
  reflexivity.
Defined.

(* ---------------------------------------------------------------------- *)
(** *** The trigger function update_inventory_on_order                    *)
(* ---------------------------------------------------------------------- *)

(** X23. What the loop of the trigger function books when it runs to its
    end over the rows it selected: every row's product exists, the ledger
    gains one sale entry per row, in order, each product's stock goes down
    by exactly the quantity the rows hold of it, and no stock is negative
    afterwards if none was before. *)
Theorem trigger_books_every_row (NEW : Order.t) (rows : list (string * Z)) (d d' : Db) :
  update_inventory_loop NEW rows d = Done d' ->
  Forall (fun r => is_Some (products d !! fst r)) rows
  /\ inventory_logs d' = inventory_logs d ++ map (sale_entry NEW) rows
  /\ (forall x, stock x d' = (fun q => q - row_quantity x rows) <$> stock x d)
  /\ (nonneg_stock d -> nonneg_stock d').
Proof.
  revert d. induction rows as [|[pid q] rest IH]; intros d Hrun.
  - injection Hrun as <-. split; [constructor|]. split; [by rewrite app_nil_r|].
    split; [|done]. intros x. unfold stock. destruct (products d !! x); cbn; [f_equal; lia|done].
  - cbn [update_inventory_loop] in Hrun. unfold sql_add_quantity in Hrun.
    destruct (products d !! pid) as [p|] eqn:Hp.
    + cbn zeta in Hrun. destruct (decide (0 <= Product.quantity_on_hand p + - q)) as [Hq|];
        [|discriminate Hrun].
      unfold sql_insert_inventory_log in Hrun.
      cbn [InventoryLog.product_id products set_products] in Hrun.
      rewrite lookup_insert_eq in Hrun.
      apply IH in Hrun as (Hex & Hl & Hs & Hn). cbn in Hex, Hl.
      split; [|split; [|split]].
      * constructor; [cbn; rewrite Hp; eauto|].
        eapply Forall_impl; [exact Hex|]. intros r. cbn.
        rewrite lookup_insert_is_Some'. intros [<-|H]; [rewrite Hp; eauto|exact H].
      * rewrite Hl. cbn [map]. by rewrite <- app_assoc.
      * intros x. rewrite Hs. unfold stock. cbn [products set_products set_inventory_logs].
        cbn [row_quantity foldr fst snd]. fold (row_quantity x rest).
        destruct (decide (pid = x)) as [<-|Hne].
        -- rewrite lookup_insert_eq, Hp. cbn. f_equal. lia.
        -- rewrite lookup_insert_ne by done.
           destruct (products d !! x); cbn; [f_equal; lia|done].
      * intros Hd. apply Hn. intros x p' Hp'. cbn in Hp'.
        destruct (decide (pid = x)) as [<-|Hne].
        -- rewrite lookup_insert_eq in Hp'. injection Hp' as <-. cbn. lia.
        -- rewrite lookup_insert_ne in Hp' by done. exact (Hd x p' Hp').
    + unfold sql_insert_inventory_log in Hrun. cbn [InventoryLog.product_id] in Hrun.
      rewrite Hp in Hrun. discriminate Hrun.
Qed.

Lemma trigger_books_every_row_witness :
  let d := db (shop_with_order completed []) in
  let d' := set_inventory_logs
              [sale_o1; sale_entry (order_o1 completed) ("p1", 2);
               sale_entry (order_o1 completed) ("p1", 1)]
              (set_products {[ "p1" := coffee 0 ]} d) in
  let rows := [("p1", 2); ("p1", 1)] in
  Forall (fun r => is_Some (products d !! fst r)) rows
  /\ inventory_logs d' = inventory_logs d ++ map (sale_entry (order_o1 completed)) rows
  /\ (forall x, stock x d' = (fun q => q - row_quantity x rows) <$> stock x d)
  /\ (nonneg_stock d -> nonneg_stock d').
Proof.
  apply (trigger_books_every_row (order_o1 completed) [("p1", 2); ("p1", 1)]
           (db (shop_with_order completed []))).
  vm_compute. reflexivity.
Defined.

(* ---------------------------------------------------------------------- *)
(** *** updateStock                                                        *)
(* ---------------------------------------------------------------------- *)

(** X24. Whatever the service answers, [updateStock] leaves products,
    orders and order lines as they were; it reports success exactly when it
    has appended its one ledger entry, which takes an existing product, and
    otherwise leaves the ledger as it was. *)
Theorem updateStock_logs_iff_success (productId : string) (quantityChange : Z)
    (transactionType : TransactionType) (userId : string) (notes : option string)
    (w : World) :
  let run := updateStock productId quantityChange transactionType userId notes w in
  let d' := db (world_after run) in
  products d' = products (db w) /\ orders d' = orders (db w)
  /\ order_items d' = order_items (db w)
  /\ exists r,
       returned run = Some r
       /\ ((success r = true /\ is_Some (products (db w) !! productId)
            /\ inventory_logs d'
               = inventory_logs (db w)
                 ++ [stock_entry productId quantityChange transactionType userId notes])
           \/ (success r = false /\ inventory_logs d' = inventory_logs (db w))).
Proof.
  cbv zeta. unfold returned, world_after.
  destruct (updateStock productId quantityChange transactionType userId notes w)
    as [o w'] eqn:Hrun.
  cbn [fst snd]. revert Hrun.
  unfold updateStock, try_catch, bind at 1, createServerSupabaseClient, ret.
  unfold bind at 1, update_quantity_from_builder. rewrite statement_run.
  destruct (next_reply w);
    [|cbn; intros [= <- <-]; repeat (split; [reflexivity|]); eexists;
      (split; [reflexivity|]); right; split; reflexivity..].
  destruct (products (db w) !! productId) as [p|] eqn:Hp;
    [|cbn; intros [= <- <-]; repeat (split; [reflexivity|]); eexists;
      (split; [reflexivity|]); right; split; reflexivity].
  rewrite set_quantity_on_hand_same, (insert_id _ _ _ Hp).
  cbn [pg_ok pg_error]. unfold bind, insert_inventory_log. rewrite statement_run.
  case_reply;
    [|cbn; intros [= <- <-]; repeat (split; [reflexivity|]); eexists;
      (split; [reflexivity|]); right; split; reflexivity..].
  unfold sql_insert_inventory_log. cbn [InventoryLog.product_id db set_db set_products products].
  rewrite Hp. cbn. intros [= <- <-]. repeat (split; [reflexivity|]).
  eexists. split; [reflexivity|].
  left. split; [reflexivity|]. split; [eauto|reflexivity].
Qed.

(* ---------------------------------------------------------------------- *)
(** *** createProduct                                                      *)
(* ---------------------------------------------------------------------- *)

(** What every run of [createProduct] comes to. *)
Lemma createProduct_cases (toUpperCase trim : string -> string)
    (data : CreateProductFormData.t) (w w' : World) (o : Outcome (ApiResponse Product.t)) :
  createProduct toUpperCase trim data w = (o, w') ->
  (valid_form trim data = false /\ (exists e, o = Val (failure e)) /\ w' = w)
  \/ (valid_form trim data = true
      /\ (((exists e, o = Val (failure e)) /\ db w' = db w)
          \/ exists u us,
               let row := product_row toUpperCase trim u data in
               uuids w = u :: us
               /\ sql_insert_product row (db w) = Done (db w')
               /\ o = Val {| success := true; data := Some row; error := None;
                             message := Some "Product created successfully" |})).
Proof.
  unfold createProduct, try_catch, valid_form.
  destruct (isValidSKU _); cbn [negb andb];
    [|intros [= <- <-]; left; split; [reflexivity|]; split; [eauto|reflexivity]].
  destruct (isValidPrice (CreateProductFormData.price data)); cbn [negb andb orb];
    [|intros [= <- <-]; left; split; [reflexivity|]; split; [eauto|reflexivity]].
  destruct (isValidPrice (CreateProductFormData.cost data)); cbn [negb andb orb];
    [|intros [= <- <-]; left; split; [reflexivity|]; split; [eauto|reflexivity]].
  destruct (bool_decide (CreateProductFormData.name data = "")); cbn [negb andb orb];
    [intros [= <- <-]; left; split; [reflexivity|]; split; [eauto|reflexivity]|].
  destruct (bool_decide (String.length _ = 0%nat)); cbn [negb andb orb];
    [intros [= <- <-]; left; split; [reflexivity|]; split; [eauto|reflexivity]|].
  intros Hrun. right. split; [reflexivity|]. revert Hrun.
  unfold createServerSupabaseClient, bind at 1, ret at 1.
  unfold bind at 1, insert_product, bind at 1, request.
  destruct (next_reply w) as [|m|m];
    [|cbn; intros [= <- <-]; left; split; [eauto|reflexivity]..].
  unfold bind at 1, uuid_generate_v4.
  change (uuids (pop w)) with (uuids w).
  destruct (uuids w) as [|u us];
    [cbn; intros [= <- <-]; left; split; [eauto|reflexivity]|].
  unfold bind at 1, get_db.
  match goal with |- context [sql_insert_product _ ?x] => change x with (db w) end.
  destruct (sql_insert_product _ (db w)) as [d1|m] eqn:Hins;
    [|cbn; intros [= <- <-]; left; split; [eauto|reflexivity]].
  cbn. intros [= <- <-]. right. exists u, us. cbn. split; [reflexivity|].
  split; [exact Hins|reflexivity].
Qed.

Lemma sql_insert_product_new (NEW : Product.t) (d d' : Db) :
  sql_insert_product NEW d = Done d' ->
  products d !! Product.id NEW = None
  /\ (forall x p, products d !! x = Some p -> Product.sku p <> Product.sku NEW)
  /\ 0 <= Product.quantity_on_hand NEW
  /\ d' = set_products (<[Product.id NEW := NEW]> (products d)) d.
Proof.
  unfold sql_insert_product.
  destruct (decide (is_Some (products d !! Product.id NEW))) as [|Hnew]; [discriminate|].
  destruct (bool_decide (map_Exists _ _)) eqn:Hsku; [discriminate|].
  destruct (Qnonneg (Product.price NEW) && Qnonneg (Product.cost NEW)
            && Qnonneg (Product.tax_rate NEW) && (0 <=? Product.quantity_on_hand NEW))
    eqn:Hchk; [|discriminate].
  cbn [negb]. intros [= <-]. split; [|split; [|split; [|reflexivity]]].
  - destruct (products d !! Product.id NEW); [|done]. destruct Hnew. eauto.
  - intros x p Hp Heq. apply bool_decide_eq_false in Hsku. apply Hsku. by exists x, p.
  - rewrite !andb_true_iff in Hchk. destruct Hchk as [_ Hq]. by apply Z.leb_le.
Qed.

(** X25. [createProduct] turns a form down without a request to the service
    (the world is left exactly as it was) when the SKU is empty or longer
    than 50 characters, the price or the cost is negative, or the name is
    empty or blank. *)
Theorem createProduct_rejects_before_request (toUpperCase trim : string -> string)
    (data : CreateProductFormData.t) (w : World) :
  valid_form trim data = false ->
  exists e, createProduct toUpperCase trim data w = (Val (failure e), w).
Proof.
  intros Hv.
  destruct (createProduct toUpperCase trim data w) as [o w'] eqn:Hrun.
  destruct (createProduct_cases _ _ _ _ _ _ Hrun) as [(_ & [e ->] & ->)|[Hv' _]].
  - by exists e.
  - congruence.
Qed.

Lemma createProduct_rejects_before_request_witness :
  exists e,
    createProduct id id
      {| CreateProductFormData.sku := "TEA-001"; CreateProductFormData.name := "";
         CreateProductFormData.price := 3; CreateProductFormData.cost := 1;
         CreateProductFormData.tax_rate := 10; CreateProductFormData.reorder_level := 5 |}
      (shop_world 5 [])
    = (Val (failure e), shop_world 5 []).
Proof.
  apply (createProduct_rejects_before_request id id). reflexivity.
Defined.

(** X26. A product [createProduct] reports created is on file under an id
    and a SKU no other product has, active, with the form's price and cost
    (not negative) and no stock; every other product is as it was, and no
    stock is negative afterwards if none was. *)
Theorem created_product_has_no_stock (toUpperCase trim : string -> string)
    (form : CreateProductFormData.t) (w w' : World) (r : ApiResponse Product.t) :
  createProduct toUpperCase trim form w = (Val r, w') ->
  success r = true ->
  exists p,
    data r = Some p
    /\ products (db w) !! Product.id p = None
    /\ products (db w') = <[Product.id p := p]> (products (db w))
    /\ (forall x q, products (db w) !! x = Some q -> Product.sku q <> Product.sku p)
    /\ Product.sku p = toUpperCase (CreateProductFormData.sku form)
    /\ Product.quantity_on_hand p = 0 /\ Product.is_active p = true
    /\ (0 <= Product.price p)%Q /\ (0 <= Product.cost p)%Q
    /\ (nonneg_stock (db w) -> nonneg_stock (db w')).
Proof.
  intros Hrun Hr.
  destruct (createProduct_cases _ _ _ _ _ _ Hrun)
    as [(_ & [e He] & _)|(Hv & [[[e He] _]|(u & us & Hu & Hins & Ho)])];
    [injection He as ->; discriminate Hr..|].
  injection Ho as ->. cbn zeta in Hins.
  destruct (sql_insert_product_new _ _ _ Hins) as (Hnew & Hsku & _ & Hdb).
  eexists. split; [reflexivity|]. split; [exact Hnew|]. split; [by rewrite Hdb|].
  split; [exact Hsku|]. split; [reflexivity|]. split; [reflexivity|]. split; [reflexivity|].
  unfold valid_form in Hv. rewrite !andb_true_iff in Hv.
  destruct Hv as [[[[_ Hp] Hc] _] _]. unfold isValidPrice in Hp, Hc.
  apply Qle_bool_iff in Hp, Hc. split; [exact Hp|]. split; [exact Hc|].
  intros Hn x p Hp'. rewrite Hdb in Hp'. cbn in Hp'.
  apply lookup_insert_Some in Hp' as [[_ <-]|[_ Hp']]; [done|exact (Hn x p Hp')].
Qed.

Lemma created_product_has_no_stock_witness :
  let w' := world_after (createProduct id id tea_form (shop_world 5 [])) in
  exists p,
    data {| success := true; data := Some tea; error := None;
            message := Some "Product created successfully" |} = Some p
    /\ products (db (shop_world 5 [])) !! Product.id p = None
    /\ products (db w') = <[Product.id p := p]> (products (db (shop_world 5 [])))
    /\ (forall x q, products (db (shop_world 5 [])) !! x = Some q ->
                    Product.sku q <> Product.sku p)
    /\ Product.sku p = id (CreateProductFormData.sku tea_form)
    /\ Product.quantity_on_hand p = 0 /\ Product.is_active p = true
    /\ (0 <= Product.price p)%Q /\ (0 <= Product.cost p)%Q
    /\ (nonneg_stock (db (shop_world 5 [])) -> nonneg_stock (db w')).
Proof.
  apply (created_product_has_no_stock id id tea_form (shop_world 5 [])).
  - vm_compute. reflexivity.
  - reflexivity.
Defined.

Lemma createOrder_short_of_stock (cashierId : string) (item : CartItem.t)
    (rest : list CartItem.t) (paymentMethod : PaymentMethod) (notes : option string)
    (w : World) (p : Product.t) :
  next_reply w = Ok ->
  products (db w) !! CartItem.product_id item = Some p ->
  Product.quantity_on_hand p < CartItem.quantity item ->
  createOrder cashierId (item :: rest) paymentMethod notes w
  = (Val (failure ("Insufficient stock for product: "
                   +:+ Product.name (CartItem.product item))), pop w).
Proof.
  intros Hr Hp Hq. rewrite createOrder_run by discriminate.
  cbn [validate_items]. unfold bind at 1, select_quantity_on_hand.
  rewrite statement_run, Hr, Hp. cbn [pg_ok pg_error pg_data].
  rewrite decide_True by exact Hq. cbn. by destruct w.
Qed.

(** X27. createProduct, then updateStock, then createOrder: the product
    starts with no stock, [updateStock] leaves the stock at 0 whatever
    quantity it is given and whatever the service answers, and a checkout
    whose first line asks for the product (its lookup being served) then
    fails with "Insufficient stock" and leaves the tables as they were. *)
Theorem new_product_cannot_be_sold (toUpperCase trim : string -> string)
    (form : CreateProductFormData.t) (w w1 : World) (r : ApiResponse Product.t)
    (p : Product.t) (quantityChange : Z) (transactionType : TransactionType)
    (userId : string) (note : option string) (cashierId : string) (item : CartItem.t)
    (rest : list CartItem.t) (paymentMethod : PaymentMethod) (notes : option string) :
  createProduct toUpperCase trim form w = (Val r, w1) ->
  success r = true ->
  data r = Some p ->
  CartItem.product_id item = Product.id p ->
  0 < CartItem.quantity item ->
  let w2 := world_after (updateStock (Product.id p) quantityChange transactionType
                           userId note w1) in
  next_reply w2 = Ok ->
  let sale := createOrder cashierId (item :: rest) paymentMethod notes w2 in
  stock (Product.id p) (db w2) = Some 0
  /\ returned sale = Some (failure ("Insufficient stock for product: "
                                    +:+ Product.name (CartItem.product item)))
  /\ db (world_after sale) = db w2.
Proof.
  intros Hrun Hr Hdata Hid Hq. cbv zeta. intros Hnext.
  destruct (createProduct_cases _ _ _ _ _ _ Hrun)
    as [(_ & [e He] & _)|(Hv & [[[e He] _]|(u & us & Hu & Hins & Ho)])];
    [injection He as ->; discriminate Hr..|].
  injection Ho as ->. cbn in Hdata. injection Hdata as <-. cbn zeta in Hins.
  destruct (sql_insert_product_new _ _ _ Hins) as (_ & _ & _ & Hdb).
  set (p := product_row toUpperCase trim u form) in *.
  assert (Hp1 : products (db w1) !! Product.id p = Some p)
    by (rewrite Hdb; apply lookup_insert_eq).
  unfold world_after in Hnext |- *.
  destruct (updateStock (Product.id p) quantityChange transactionType userId note w1)
    as [o2 w2] eqn:Hupd.
  cbn [snd] in Hnext |- *.
  pose proof (updateStock_keeps_stock _ _ _ _ _ _ _ _ Hupd) as Hp2.
  assert (Hrow : products (db w2) !! CartItem.product_id item = Some p)
    by (by rewrite Hp2, Hid).
  split; [unfold stock; by rewrite <- Hid, Hrow|].
  unfold returned.
  rewrite (createOrder_short_of_stock _ _ _ _ _ _ p Hnext Hrow) by exact Hq.
  split; reflexivity.
Qed.

Lemma new_product_cannot_be_sold_witness :
  let w1 := world_after (createProduct id id tea_form (shop_world 5 [])) in
  let w2 := world_after (updateStock "o1" 10 stock_in "admin" None w1) in
  let item := {| CartItem.product_id := "o1"; CartItem.quantity := 1;
                 CartItem.product := tea |} in
  let sale := createOrder "u1" [item] cash None w2 in
  stock "o1" (db w2) = Some 0
  /\ returned sale = Some (failure ("Insufficient stock for product: " +:+ "Tea"))
  /\ db (world_after sale) = db w2.
Proof.
  apply (new_product_cannot_be_sold id id tea_form (shop_world 5 [])
           (world_after (createProduct id id tea_form (shop_world 5 [])))
           {| success := true; data := Some tea; error := None;
              message := Some "Product created successfully" |}
           tea 10 stock_in "admin" None "u1"
           {| CartItem.product_id := "o1"; CartItem.quantity := 1; CartItem.product := tea |}
           [] cash None).
  - vm_compute. reflexivity.
  - reflexivity.
  - reflexivity.
  - reflexivity.
  - reflexivity.
  - reflexivity.
Defined.

(* ---------------------------------------------------------------------- *)
(** *** The responses of the server actions                                *)
(* ---------------------------------------------------------------------- *)

Lemma answers_ret {A} (P : A -> Prop) (a : A) : P a -> answers P (ret a).
Proof. intros H w. exact H. Qed.

Lemma answers_bind {A B} (P : B -> Prop) (m : M A) (k : A -> M B) :
  (forall a, answers P (k a)) -> answers P (bind m k).
Proof.
  intros H w. unfold bind. destruct (m w) as [[a|e] w1]; [apply H|exact I].
Qed.

Lemma try_catch_answers {T} (body : M (ApiResponse T)) (w : World) :
  answers well_formed body ->
  exists r, returned (try_catch body w) = Some r /\ well_formed r.
Proof.
  intros H. specialize (H w). unfold returned, try_catch.
  destruct (body w) as [[r|e] w1]; cbn in *; eexists; (split; [reflexivity|]).
  - exact H.
  - cbn. eauto.
Qed.

Lemma well_formed_failure {T} (e : string) : well_formed (@failure T e).
Proof. cbn. eauto. Qed.

#[local] Hint Resolve well_formed_failure : core.

Lemma validate_items_answers (items : list CartItem.t) :
  answers (fun r => forall x, r = Some x -> well_formed x) (validate_items items).
Proof.
  induction items as [|i rest IH]; cbn [validate_items].
  - apply answers_ret. discriminate.
  - apply answers_bind. intros res.
    destruct (pg_error res), (pg_data res);
      try (apply answers_ret; intros x [= <-]; apply well_formed_failure).
    case_decide; [apply answers_ret; intros x [= <-]; apply well_formed_failure|exact IH].
Qed.

(** X28. Every server action embedded here always comes back with a
    response (an exception of the service is caught), and the response is
    well formed: a success carries no error; a failure carries an error and
    neither data nor message. *)
Theorem actions_answer_well_formed (w : World) :
  (forall cashierId items paymentMethod notes,
     exists r, returned (createOrder cashierId items paymentMethod notes w) = Some r
               /\ well_formed r)
  /\ (forall orderId userId,
        exists r, returned (cancelOrder orderId userId w) = Some r /\ well_formed r)
  /\ (forall orderId, exists r, returned (getOrderById orderId w) = Some r /\ well_formed r)
  /\ (forall orderId, exists r, returned (getOrderItems orderId w) = Some r /\ well_formed r)
  /\ (forall productId quantityChange transactionType userId notes,
        exists r, returned (updateStock productId quantityChange transactionType userId
                              notes w) = Some r /\ well_formed r)
  /\ (forall productId, exists r, returned (deleteProduct productId w) = Some r
                                  /\ well_formed r)
  /\ (forall toUpperCase trim form,
        exists r, returned (createProduct toUpperCase trim form w) = Some r
                  /\ well_formed r).
Proof.
  repeat split; intros; apply try_catch_answers.
  - destruct items as [|i rest]; [by apply answers_ret|].
    apply answers_bind. intros _. intros w0.
    pose proof (validate_items_answers (i :: rest) w0) as Hv. unfold bind.
    destruct (validate_items (i :: rest) w0) as [[[x|]|e] w1]; cbn in Hv |- *;
      [by apply Hv| |exact I].
    revert w1. change (answers well_formed (commit_order cashierId (i :: rest) paymentMethod notes)).
    unfold commit_order. apply answers_bind. intros number. apply answers_bind. intros res.
    destruct (pg_error res), (pg_data res); try (by apply answers_ret).
    apply answers_bind. intros ins. destruct (pg_error ins).
    + apply answers_bind. intros _. by apply answers_ret.
    + by apply answers_ret.
  - apply answers_bind. intros _. apply answers_bind. intros res.
    destruct (pg_error res), (pg_data res); try (by apply answers_ret).
    apply answers_bind. intros _. apply answers_bind. intros upd.
    destruct (pg_error upd); by apply answers_ret.
  - apply answers_bind. intros _. apply answers_bind. intros res.
    destruct (pg_error res); by apply answers_ret.
  - apply answers_bind. intros _. apply answers_bind. intros res.
    destruct (pg_error res); by apply answers_ret.
  - apply answers_bind. intros _. apply answers_bind. intros upd.
    destruct (pg_error upd); [by apply answers_ret|].
    apply answers_bind. intros log. destruct (pg_error log); by apply answers_ret.
  - apply answers_bind. intros _. apply answers_bind. intros res.
    destruct (pg_error res); by apply answers_ret.
  - destruct (negb _); [by apply answers_ret|].
    destruct (_ || _); [by apply answers_ret|].
    destruct (_ || _); [by apply answers_ret|].
    apply answers_bind. intros _. apply answers_bind. intros res.
    destruct (pg_error res); by apply answers_ret.
Qed.

(* ---------------------------------------------------------------------- *)
(** *** Reading an order that is not on file                               *)
(* ---------------------------------------------------------------------- *)

(** X29. For an order id that is not on file (consistent tables, the
    request served), [getOrderById] fails with the error of [single()],
    whereas [getOrderItems] succeeds with an empty list; neither changes a
    table. *)
Theorem reads_of_unknown_order (orderId : string) (w : World) :
  next_reply w = Ok ->
  consistent (db w) ->
  orders (db w) !! orderId = None ->
  returned (getOrderById orderId w) = Some (failure no_rows)
  /\ returned (getOrderItems orderId w) = Some (found [])
  /\ db (world_after (getOrderById orderId w)) = db w
  /\ db (world_after (getOrderItems orderId w)) = db w.
Proof.
  intros Hr Hc Hnone. unfold returned, world_after.
  assert (E1 : getOrderById orderId w = (Val (failure no_rows), pop w)).
  { unfold getOrderById, try_catch, createServerSupabaseClient.
    unfold bind at 1, ret at 1. unfold bind at 1. by rewrite statement_run, Hr, Hnone. }
  assert (E2 : getOrderItems orderId w = (Val (found []), set_db (db w) (pop w))).
  { unfold getOrderItems, try_catch, createServerSupabaseClient.
    unfold bind at 1, ret at 1. unfold bind at 1. rewrite statement_run, Hr.
    by rewrite (items_of_unknown_order _ _ Hc Hnone). }
  rewrite E1, E2. repeat split.
Qed.

Lemma reads_of_unknown_order_witness :
  let w := shop_with_order completed [] in
  returned (getOrderById "o9" w) = Some (failure no_rows)
  /\ returned (getOrderItems "o9" w) = Some (found [])
  /\ db (world_after (getOrderById "o9" w)) = db w
  /\ db (world_after (getOrderItems "o9" w)) = db w.
Proof.
  apply (reads_of_unknown_order "o9" (shop_with_order completed [])).
  - reflexivity.
  - apply (bool_decide_unpack _). vm_compute. exact I.
  - reflexivity.
Defined.

(* ---------------------------------------------------------------------- *)
(** *** From the cart to the checkout                                      *)
(* ---------------------------------------------------------------------- *)

Lemma add_clicks (product : Product.t) (n : nat) :
  Nat.iter (S n) (handleAddToCart product) []
  = [ {| CartItem.product_id := Product.id product; CartItem.quantity := Z.of_nat (S n);
         CartItem.product := product |} ].
Proof.
  induction n as [|n IH]; [reflexivity|].
  change (Nat.iter (S (S n)) (handleAddToCart product) [])
    with (handleAddToCart product (Nat.iter (S n) (handleAddToCart product) [])).
  rewrite IH. unfold handleAddToCart. cbn [List.find CartItem.product_id].
  rewrite bool_decide_eq_true_2 by reflexivity. cbn [map CartItem.product_id].
  rewrite decide_True by reflexivity. unfold with_quantity. cbn. do 2 f_equal. lia.
Qed.

(** X30. The cart does not look at the stock: adding a product more often
    than it is in stock gives a one-line cart of that quantity, and the
    checkout of it (the lookup being served) is turned down with
    "Insufficient stock", with no table changed. *)
Theorem clicks_beyond_stock_fail_at_checkout (product on_file : Product.t) (n : nat)
    (cashierId : string) (paymentMethod : PaymentMethod) (w : World) :
  next_reply w = Ok ->
  products (db w) !! Product.id product = Some on_file ->
  Product.quantity_on_hand on_file < Z.of_nat (S n) ->
  let cart := Nat.iter (S n) (handleAddToCart product) [] in
  let sale := createOrder cashierId cart paymentMethod None w in
  units cart = Z.of_nat (S n)
  /\ returned sale
     = Some (failure ("Insufficient stock for product: " +:+ Product.name product))
  /\ db (world_after sale) = db w.
Proof.
  intros Hr Hp Hq. cbv zeta. rewrite add_clicks. split; [cbn; lia|].
  unfold returned, world_after.
  rewrite (createOrder_short_of_stock _ _ _ _ _ _ on_file Hr); [|exact Hp|exact Hq].
  split; reflexivity.
Qed.

Lemma clicks_beyond_stock_fail_at_checkout_witness :
  let cart := Nat.iter 4 (handleAddToCart (coffee 3)) [] in
  let sale := createOrder "u1" cart cash None (shop_world 3 []) in
  units cart = Z.of_nat 4
  /\ returned sale = Some (failure ("Insufficient stock for product: " +:+ "Coffee"))
  /\ db (world_after sale) = db (shop_world 3 []).
Proof.
  apply (clicks_beyond_stock_fail_at_checkout (coffee 3) (coffee 3) 3 "u1" cash
           (shop_world 3 [])).
  - reflexivity.
  - reflexivity.
  - reflexivity.
Defined.
